(** * img-studio: the nano-banana server actions

    A shallow embedding of [src/app/api/nano-banana/action.tsx]: the prompt
    sentence normalizer, the random folder id, the two result normalizers
    ([buildImageListFromURI], [buildImageListFromBase64]) and the three
    exported operations ([generateImage], [editImage], [upscaleImage]),
    followed by the properties the specification states about them.

    Conventions.
    - A JavaScript string is a [string] of 7-bit characters: the case mappings
      below are the ASCII ones, and a statement that depends on them says that
      it is about ASCII strings.
    - A JavaScript number is a non-negative finite binary64 value, kept as
      the integer count of units of 2^-1074 (module [Binary64]).
    - An asynchronous function is a computation in the monad [M]: it records
      the calls made to the external collaborators and either returns a value
      or throws (rejects) with an error object. *)

From Stdlib Require Import ZArith List String Ascii Bool Arith Lia.
From Stdlib Require Import Numbers.DecimalString.
Import ListNotations.

Local Open Scope list_scope.
Local Open Scope string_scope.

(* ================================================================== *)
(** ** JavaScript strings *)
(* ================================================================== *)

Module JsString.

Definition LF : ascii := "010"%char.
Definition space : ascii := " "%char.

(** [String.prototype.toLowerCase] and [toUpperCase] on ASCII letters. *)
Definition isUpperChar (c : ascii) : bool :=
  let n := nat_of_ascii c in ((65 <=? n) && (n <=? 90))%nat.

Definition isLowerChar (c : ascii) : bool :=
  let n := nat_of_ascii c in ((97 <=? n) && (n <=? 122))%nat.

Definition toLowerChar (c : ascii) : ascii :=
  if isUpperChar c then ascii_of_nat (nat_of_ascii c + 32) else c.

Definition toUpperChar (c : ascii) : ascii :=
  if isLowerChar c then ascii_of_nat (nat_of_ascii c - 32) else c.

Fixpoint mapChars (f : ascii -> ascii) (s : string) : string :=
  match s with
  | EmptyString => EmptyString
  | String c s' => String (f c) (mapChars f s')
  end.

Definition toLowerCase : string -> string := mapChars toLowerChar.
Definition toUpperCase : string -> string := mapChars toUpperChar.

(** The characters [String.prototype.trim] removes, among the 7-bit ones:
    TAB, LF, VT, FF, CR and the space. *)
Definition isWhiteSpace (c : ascii) : bool :=
  let n := nat_of_ascii c in (((9 <=? n) && (n <=? 13)) || (n =? 32))%nat.

Definition isAsciiChar (c : ascii) : bool := (nat_of_ascii c <? 128)%nat.

Fixpoint isAsciiString (s : string) : bool :=
  match s with
  | EmptyString => true
  | String c s' => isAsciiChar c && isAsciiString s'
  end.

(** [s.startsWith(p)]. *)
Fixpoint startsWith (p s : string) : bool :=
  match p, s with
  | EmptyString, _ => true
  | String _ _, EmptyString => false
  | String a p', String b s' => Ascii.eqb a b && startsWith p' s'
  end.

(** [s.includes(p)]. *)
Fixpoint includes (p s : string) : bool :=
  startsWith p s ||
  match s with
  | EmptyString => false
  | String _ s' => includes p s'
  end.

(** [s.endsWith(p)] for a one-character [p]. *)
Fixpoint endsWithChar (c : ascii) (s : string) : bool :=
  match s with
  | EmptyString => false
  | String a EmptyString => Ascii.eqb a c
  | String _ s' => endsWithChar c s'
  end.

(** [s.charAt(0)] and [s.slice(1)]. *)
Definition charAt0 (s : string) : string :=
  match s with
  | EmptyString => EmptyString
  | String c _ => String c EmptyString
  end.

Definition slice1 (s : string) : string :=
  match s with
  | EmptyString => EmptyString
  | String _ s' => s'
  end.

Fixpoint dropChars (n : nat) (s : string) : string :=
  match n, s with
  | O, _ => s
  | S _, EmptyString => EmptyString
  | S k, String _ s' => dropChars k s'
  end.

(** [s.replace(p, r)] for a string pattern: the first occurrence only.  The
    replacements used by the program hold no [$], so they are literal. *)
Fixpoint replace (p r s : string) : string :=
  if startsWith p s then r ++ dropChars (String.length p) s
  else match s with
       | EmptyString => EmptyString
       | String c s' => String c (replace p r s')
       end.

(** [s.replaceAll(p, r)] (and [s.replace(/p/g, r)] for a literal [p]) with a
    non-empty pattern: the occurrences are found from left to right and do
    not overlap.  [skip] counts the characters of a match still to be
    dropped. *)
Fixpoint replaceAllFrom (p r : string) (skip : nat) (s : string) : string :=
  match s with
  | EmptyString => EmptyString
  | String c s' =>
      match skip with
      | S k => replaceAllFrom p r k s'
      | O => if startsWith p s
             then r ++ replaceAllFrom p r (String.length p - 1) s'
             else String c (replaceAllFrom p r 0 s')
      end
  end.

Definition replaceAll (p r s : string) : string := replaceAllFrom p r 0 s.

(** [s.split(sep)] with a non-empty separator, as the first piece and the
    pieces after it. *)
Fixpoint splitFrom (sep : string) (skip : nat) (s : string) : string * list string :=
  match s with
  | EmptyString => (EmptyString, [])
  | String c s' =>
      match skip with
      | S k => splitFrom sep k s'
      | O => if startsWith sep s
             then (EmptyString,
                   let (w, ws) := splitFrom sep (String.length sep - 1) s' in w :: ws)
             else let (w, ws) := splitFrom sep 0 s' in (String c w, ws)
      end
  end.

Definition split (sep s : string) : list string :=
  let (w, ws) := splitFrom sep 0 s in w :: ws.

(** [s.replace(/  +/g, ' ')]: every run of two or more spaces becomes one
    space; a space is dropped exactly when another space follows it. *)
Fixpoint replaceMultipleSpaces (s : string) : string :=
  match s with
  | EmptyString => EmptyString
  | String c s' =>
      if Ascii.eqb c space && startsWith " " s'
      then replaceMultipleSpaces s'
      else String c (replaceMultipleSpaces s')
  end.

(** [s.trim()]. *)
Fixpoint trimStart (s : string) : string :=
  match s with
  | EmptyString => EmptyString
  | String c s' => if isWhiteSpace c then trimStart s' else s
  end.

Fixpoint trimEnd (s : string) : string :=
  match s with
  | EmptyString => EmptyString
  | String c s' =>
      match trimEnd s' with
      | EmptyString => if isWhiteSpace c then EmptyString else String c EmptyString
      | t => String c t
      end
  end.

Definition trim (s : string) : string := trimEnd (trimStart s).

(** [n.toString()] for a non-negative integer. *)
Definition natToString (n : nat) : string :=
  NilEmpty.string_of_uint (Nat.to_uint n).

Definition ZToString (z : Z) : string :=
  NilZero.string_of_int (Z.to_int z).

End JsString.
Import JsString.

(* ================================================================== *)
(** ** Pure helpers of the module *)
(* ================================================================== *)

(** [cleanResult]: drops every line feed, slash and star. *)
Definition cleanResult (inputString : string) : string :=
  replaceAll "*" "" (replaceAll "/" "" (replaceAll (String LF "") "" inputString)).

(** [word.endsWith('.') || word.endsWith('!') || word.endsWith('?')]. *)
Definition endsSentence (word : string) : bool :=
  endsWithChar "."%char word || endsWithChar "!"%char word || endsWithChar "?"%char word.

(** One turn of the loop of [normalizeSentence]: [acc] is
    [normalizedSentence]. *)
Definition capitalizeStep (st : string * bool) (word : string) : string * bool :=
  let (acc, newSentence) := st in
  let word1 := if newSentence then toUpperCase (charAt0 word) ++ slice1 word else word in
  let newSentence1 := if newSentence then false else newSentence in
  let newSentence2 := if endsSentence word1 then true else newSentence1 in
  (acc ++ word1 ++ " ", newSentence2).

Definition normalizeSentence (sentence : string) : string :=
  let words := split " " (toLowerCase sentence) in
  let normalizedSentence := fst (fold_left capitalizeStep words ("", true)) in
  let normalizedSentence := replaceMultipleSpaces normalizedSentence in
  let normalizedSentence := trim normalizedSentence in
  let normalizedSentence := replaceAll ", ," "," normalizedSentence in
  normalizedSentence.

(** [generatePrompt] reads its form by key, so the form is a finite map
    from field names to strings; a missing key reads as [undefined]. *)
Definition FormData : Type := list (string * string).

Fixpoint formGet (formData : FormData) (key : string) : option string :=
  match formData with
  | [] => None
  | (k, v) :: rest => if String.eqb k key then Some v else formGet rest key
  end.

(** What a template literal or a string concatenation makes of a value that
    is a string or [undefined]. *)
Definition templ (v : option string) : string :=
  match v with
  | Some s => s
  | None => "undefined"
  end.

(** [v !== ''] and the truth value of [v], for a string or [undefined]. *)
Definition notEmptyString (v : option string) : bool :=
  match v with
  | Some s => negb (String.eqb s "")
  | None => true
  end.

Definition truthy (v : option string) : bool :=
  match v with
  | Some s => negb (String.eqb s "")
  | None => false
  end.

Definition useCaseIs (formData : FormData) (tag : string) : bool :=
  match formGet formData "use_case" with
  | Some s => String.eqb s tag
  | None => false
  end.

(** [generatePrompt]; [fullPromptFields] is
    [imageGenerationUtils.fullPromptFields], a table of the repository that
    is not in this file. *)
Definition generatePrompt (fullPromptFields : list string) (formData : FormData) : string :=
  let fullPrompt := templ (formGet formData "prompt") in
  let fullPrompt :=
    "A " ++ templ (formGet formData "secondary_style") ++ " "
         ++ templ (formGet formData "style") ++ " of " ++ fullPrompt in
  let parameters :=
    fold_left
      (fun parameters additionalField =>
         if notEmptyString (formGet formData additionalField)
         then parameters ++ " " ++ templ (formGet formData additionalField) ++ " "
                         ++ replaceAll "_" " " additionalField ++ ", "
         else parameters)
      fullPromptFields "" in
  let fullPrompt :=
    if negb (String.eqb parameters "") then fullPrompt ++ ", " ++ parameters else fullPrompt in
  let quality_modifiers := "" in
  let quality_modifiers :=
    if useCaseIs formData "Food, insects, plants (still life)"
    then quality_modifiers ++ ", High detail, precise focusing, controlled lighting"
    else quality_modifiers in
  let quality_modifiers :=
    if useCaseIs formData "Sports, wildlife (motion)"
    then quality_modifiers ++ ", Fast shutter speed, movement tracking"
    else quality_modifiers in
  let quality_modifiers :=
    if useCaseIs formData "Astronomical, landscape (wide-angle)"
    then quality_modifiers
           ++ ", Long exposure times, sharp focus, long exposure, smooth water or clouds"
    else quality_modifiers in
  let fullPrompt := fullPrompt ++ quality_modifiers in
  normalizeSentence fullPrompt.

(* ================================================================== *)
(** ** JavaScript numbers *)
(* ================================================================== *)

(** The non-negative finite binary64 values.  Every such value is an integer
    multiple of 2^-1074, and a [number] is that multiple.  An operation
    rounds its exact result to 53 significant bits, ties to even; results
    stay far below the overflow threshold in this program. *)
Module Binary64.
Local Open Scope Z_scope.

Definition number : Type := Z.

(** The value 1. *)
Definition one : Z := 2 ^ 1074.

(** [n / 2^s] rounded to the nearest integer, ties to even: [q] is the
    quotient of [n] by [2^s] and [r] the remainder. *)
Definition roundHalfEven (n s : Z) : Z :=
  let q := Z.shiftr n s in
  let r := Z.land n (Z.ones s) in
  if 2 * r <? 2 ^ s then q
  else if 2 ^ s <? 2 * r then q + 1
  else if Z.even q then q else q + 1.

(** The binary64 value nearest to [p * 2^-(1074 + base)]: the exact value
    keeps its 53 leading bits, and no bit below 2^-1074. *)
Definition round (base p : Z) : number :=
  let s := Z.max (Z.log2 p - 52) base in
  roundHalfEven p s * 2 ^ (s - base).

Definition ofZ (n : Z) : number := n * one.
Definition toZ (a : number) : Z := Z.shiftr a 1074.
Definition add (a b : number) : number := round 0 (a + b).
Definition mul (a b : number) : number := round 1074 (a * b).

(** [Math.floor]: the bits below the value 1 are dropped. *)
Definition floor (a : number) : number := ofZ (toZ a).

Definition isBinary64 (a : number) : bool := (0 <=? a) && (round 0 a =? a).

(** What [Math.random()] may return: a binary64 value in [0, 1). *)
Definition isRandomDraw (a : number) : bool := isBinary64 a && (a <? one).

(** [String(a)] for an integer value below 10^21: its decimal digits. *)
Definition toString (a : number) : string := ZToString (toZ a).

End Binary64.

(** [generateUniqueFolderId]; [random i] is what the call's [i]-th use of
    [Math.random()] returns. *)
Definition generateUniqueFolderId (random : nat -> Binary64.number) : Binary64.number :=
  let number :=
    Binary64.add (Binary64.floor (Binary64.mul (random 0%nat) (Binary64.ofZ 9)))
                 (Binary64.ofZ 1) in
  fold_left
    (fun number i =>
       Binary64.add (Binary64.mul number (Binary64.ofZ 10))
                    (Binary64.floor (Binary64.mul (random (S i)) (Binary64.ofZ 10))))
    (seq 0 12) number.

(* ================================================================== *)
(** ** Values, errors and asynchronous computations *)
(* ================================================================== *)

(** The request bodies are object literals (of type [any] in
    [generateImage]); they are kept as JavaScript values, an object being
    the list of its own properties. *)
#[local] Set Warnings "-register-all".
Inductive JsValue : Type :=
| JUndefined
| JNull
| JBool (b : bool)
| JNumber (n : Z)
| JString (s : string)
| JArray (items : list JsValue)
| JObject (fields : list (string * JsValue)).

Fixpoint lookupField (fields : list (string * JsValue)) (key : string) : JsValue :=
  match fields with
  | [] => JUndefined
  | (k, v) :: rest => if String.eqb k key then v else lookupField rest key
  end.

Fixpoint removeField (fields : list (string * JsValue)) (key : string)
  : list (string * JsValue) :=
  match fields with
  | [] => []
  | (k, v) :: rest =>
      if String.eqb k key then removeField rest key else (k, v) :: removeField rest key
  end.

Fixpoint assignField (fields : list (string * JsValue)) (key : string) (v : JsValue)
  : list (string * JsValue) :=
  match fields with
  | [] => [(key, v)]
  | (k, v0) :: rest =>
      if String.eqb k key then (k, v) :: rest else (k, v0) :: assignField rest key v
  end.

(** An error object: [name], [message], and the [errors] list the HTTP
    client attaches to a failed request.  Every value thrown in this module
    or by a collaborator is an error object. *)
Record ErrorEntry : Type := mkErrorEntry { entryMessage : option string }.

Record JsError : Type := mkJsError {
  errorName : string;
  errorMessage : string;
  errorErrors : option (list ErrorEntry)
}.

(** [Error(message)] and the engine's [TypeError]s. *)
Definition Error (message : string) : JsError := mkJsError "Error" message None.
Definition TypeError (message : string) : JsError := mkJsError "TypeError" message None.

Definition cannotRead (what key : string) : JsError :=
  TypeError ("Cannot read properties of " ++ what ++ " (reading '" ++ key ++ "')").

Definition cannotUseIn (key what : string) : JsError :=
  TypeError ("Cannot use 'in' operator to search for '" ++ key ++ "' in " ++ what).

(** [Error.prototype.toString]. *)
Definition errorToString (e : JsError) : string :=
  if String.eqb (errorName e) "" then errorMessage e
  else if String.eqb (errorMessage e) "" then errorName e
  else errorName e ++ ": " ++ errorMessage e.

(** How a call settles. *)
Inductive Completion (A : Type) : Type :=
| Returned (a : A)
| Thrown (e : JsError).
Arguments Returned {A} a.
Arguments Thrown {A} e.

(** The calls to the external collaborators. *)
Inductive Call : Type :=
| CallGetClient
| CallRequest (url : string) (data : JsValue)
| CallDecomposeUri (uri : string)
| CallGetSignedURL (uri : string)
| CallUploadBase64Image (base64Image bucketName objectName : string)
| CallDownloadMediaFromGcs (uri : string).

(** A computation: the calls it made, and how it settled. *)
Definition M (A : Type) : Type := list Call * Completion A.

Definition ret {A : Type} (a : A) : M A := ([], Returned a).
Definition throw {A : Type} (e : JsError) : M A := ([], Thrown e).

Definition bind {A B : Type} (m : M A) (k : A -> M B) : M B :=
  match m with
  | (calls, Returned a) => let (calls', r) := k a in ((calls ++ calls')%list, r)
  | (calls, Thrown e) => (calls, Thrown e)
  end.

(** [try { m } catch (error) { handler error }]. *)
Definition tryCatch {A : Type} (m : M A) (handler : JsError -> M A) : M A :=
  match m with
  | (calls, Returned a) => (calls, Returned a)
  | (calls, Thrown e) => let (calls', r) := handler e in ((calls ++ calls')%list, r)
  end.

(** [await collaborator(...)]: the call is recorded, its answer is given. *)
Definition await {A : Type} (c : Call) (answer : Completion A) : M A := ([c], answer).

Definition callsOf {A : Type} (m : M A) : list Call := fst m.
Definition outcome {A : Type} (m : M A) : Completion A := snd m.

Notation "x <- m ;; k" := (bind m (fun x => k))
  (at level 61, m at next level, right associativity).

(** [Promise.all]: every promise runs to its end; the result is the list of
    the values in the order of the promises, or a rejection when one of
    them rejects.  The calls are kept promise by promise; how the promises
    interleave in time is not represented, and of several rejections the one
    of the smallest index is reported. *)
Fixpoint promiseAll {A : Type} (promises : list (M A)) : M (list A) :=
  match promises with
  | [] => ret []
  | p :: rest =>
      let (calls1, r1) := p in
      let (calls2, r2) := promiseAll rest in
      ((calls1 ++ calls2)%list,
       match r1, r2 with
       | Returned a, Returned l => Returned (a :: l)
       | Thrown e, _ => Thrown e
       | Returned _, Thrown e => Thrown e
       end)
  end.

(** [array.map(callback)], the callback told the position of its item. *)
Fixpoint mapFrom {A B : Type} (f : nat -> A -> B) (i : nat) (l : list A) : list B :=
  match l with
  | [] => []
  | x :: rest => f i x :: mapFrom f (S i) rest
  end.

(** [array.findIndex(p)]: -1 when no item satisfies [p]. *)
Fixpoint findIndexFrom {A : Type} (p : A -> bool) (i : Z) (l : list A) : Z :=
  match l with
  | [] => (-1)%Z
  | x :: rest => if p x then i else findIndexFrom p (i + 1)%Z rest
  end.

Definition findIndex {A : Type} (p : A -> bool) (l : list A) : Z := findIndexFrom p 0%Z l.

(** [array.find(p)] for a callback that may throw. *)
Fixpoint findM {A : Type} (p : A -> M bool) (l : list A) : M (option A) :=
  match l with
  | [] => ret None
  | x :: rest => b <- p x ;; if b then ret (Some x) else findM p rest
  end.

(** [v.key] and [v[i]]: reading a property of [undefined] or [null] throws;
    a missing property reads as [undefined]. *)
Definition getProp (v : JsValue) (key : string) : M JsValue :=
  match v with
  | JUndefined => throw (cannotRead "undefined" key)
  | JNull => throw (cannotRead "null" key)
  | JObject fields => ret (lookupField fields key)
  | _ => ret JUndefined
  end.

Definition getIndex (v : JsValue) (i : nat) : M JsValue :=
  match v with
  | JUndefined => throw (cannotRead "undefined" (natToString i))
  | JNull => throw (cannotRead "null" (natToString i))
  | JArray items => ret (nth i items JUndefined)
  | _ => ret JUndefined
  end.

(** A value of type [any] passed where a string is expected: TypeScript does
    not check it.  A string is kept; another value is shown as [String(v)]
    shows it (an array as the empty array is). *)
Definition asString (v : JsValue) : string :=
  match v with
  | JString s => s
  | JUndefined => "undefined"
  | JNull => "null"
  | JBool true => "true"
  | JBool false => "false"
  | JNumber n => ZToString n
  | JArray _ => ""
  | JObject _ => "[object Object]"
  end.

Definition optionString (v : option string) : JsValue :=
  match v with
  | Some s => JString s
  | None => JUndefined
  end.

Definition optionStringEqb (a b : option string) : bool :=
  match a, b with
  | Some x, Some y => String.eqb x y
  | None, None => true
  | _, _ => false
  end.

(* ================================================================== *)
(** ** Data model *)
(* ================================================================== *)

(** Modelled from the spec: the interface [ImagenModelResultI] of
    [generate-image-utils] is not in the sources.  The spec gives a model
    result as one of [{bytesBase64Encoded, mimeType, prompt?}],
    [{gcsUri, mimeType, prompt?}] and [{raiFilteredReason}]; the program
    tells them apart by probing properties, so an item is the record of the
    properties it may carry, [None] for an absent one. *)
Module ImagenModelResultI.
Record t : Type := mk {
  gcsUri : option string;
  bytesBase64Encoded : option string;
  mimeType : string;
  prompt : option string;
  raiFilteredReason : option string
}.
End ImagenModelResultI.

(** The records the normalizers return ([ImageI], seen through the cast of
    their last line): a warning, an error, or the image with its metadata. *)
Module ImageI.
Record fields : Type := mk {
  src : string;
  gcsUri : option string;
  format : string;
  prompt : string;
  altText : string;
  key : string;
  width : Z;
  height : Z;
  ratio : string;
  date : string;
  author : string;
  modelVersion : string;
  mode : string
}.
Inductive t : Type :=
| WarningRecord (warning : string)
| ErrorRecord (error : string)
| ImageRecord (image : fields).
End ImageI.
Import ImageI(WarningRecord, ErrorRecord, ImageRecord).

(** What the storage collaborators answer, as the module reads it:
    [getSignedURL] a string or [{error}], [uploadBase64Image]
    [{success, fileUrl?, error?}], [downloadMediaFromGcs] [{data}] or
    [{error}]; [decomposeUri] answers an object whose [fileName] may be
    missing. *)
Inductive SignedURL : Type :=
| SignedUrlString (url : string)
| SignedUrlError (error : string).

Record UploadResult : Type := mkUploadResult {
  success : bool;
  fileUrl : option string;
  uploadError : option string
}.

Record DownloadResult : Type := mkDownloadResult {
  data : option string;
  downloadError : option string
}.

(** What the remote endpoint answers ([res.data]). *)
Record Candidate : Type := mkCandidate { content : option JsValue }.

Record ResponseData : Type := mkResponseData {
  candidates : option (list Candidate);
  predictions : option (list ImagenModelResultI.t)
}.

(** Modelled from the spec: [RatioToPixel] of [generate-image-utils] is not
    in the sources; it is a table from aspect ratios to pixel sizes. *)
Record RatioToPixelEntry : Type := mkRatioToPixelEntry {
  entryRatio : string;
  entryWidth : Z;
  entryHeight : Z
}.

(** [appContextDataI | null], and [undefined]. *)
Record appContextDataI : Type := mkAppContext {
  contextGcsURI : option string;
  contextUserID : option string
}.

Inductive AppContext : Type :=
| ContextUndefined
| ContextNull
| ContextData (c : appContextDataI).

(** What the three operations return. *)
Inductive OperationResult : Type :=
| ImageList (images : list ImageI.t)
| ErrorObject (error : option string)
| Upscaled (newGcsUri : option string) (mimeType : string).

(** Everything outside the module that a call depends on: the environment
    variables, the static tables, the built-ins whose results come from
    outside ([Math.random], the date, the number parsers) and the answers
    of the collaborators.  A storage collaborator is called once by each
    callback of a normalizer; its answer may differ from call to call, so it
    is given the position of the calling callback's item. *)
Record World : Type := mkWorld {
  NEXT_PUBLIC_VERTEX_API_LOCATION : option string;
  NEXT_PUBLIC_PROJECT_ID : option string;
  RatioToPixel : list RatioToPixelEntry;
  fullPromptFields : list string;
  random : nat -> Binary64.number;
  formattedDate : nat -> string;
  parseInt : string -> JsValue;
  parseFloat : string -> JsValue;
  getClient : Completion unit;
  request : string -> JsValue -> Completion ResponseData;
  requestSettlesAfter : string -> JsValue -> option N;
  requestWinsTie : bool;
  decomposeUri : nat -> string -> Completion (option string);
  getSignedURL : nat -> string -> Completion SignedURL;
  uploadBase64Image : nat -> string -> string -> string -> Completion UploadResult;
  downloadMediaFromGcs : string -> Completion DownloadResult
}.

(* ================================================================== *)
(** ** The result normalizers *)
(* ================================================================== *)

Definition securedAccessError : string := "Error while getting secured access to content.".

(** [image !== null]: every record is an object. *)
Definition notNull (image : ImageI.t) : bool := true.

(** The identifier derived from an object name. *)
Definition deriveID (name userID format : string) : string :=
  replace ("." ++ toLowerCase format) ""
    (replace "sample_" ""
       (replace "edited-images" ""
          (replace "generated-images" ""
             (replace userID "" (replaceAll "/" "" name))))).

Definition formatOf (image : ImagenModelResultI.t) : string :=
  toUpperCase (replace "image/" "" (ImagenModelResultI.mimeType image)).

Definition promptOf (image : ImagenModelResultI.t) (usedPrompt : string) : string :=
  if truthy (ImagenModelResultI.prompt image)
  then templ (ImagenModelResultI.prompt image)
  else usedPrompt.

Definition orEmpty (v : option string) : string :=
  match v with
  | Some s => s
  | None => ""
  end.

Section Normalizers.
Variable w : World.

(** The callback of [buildImageListFromURI], for the item at position [i]. *)
Definition uriCallback
    (aspectRatio : string) (width height : Z)
    (usedPrompt userID modelVersion mode : string)
    (i : nat) (image : ImagenModelResultI.t) : M ImageI.t :=
  match ImagenModelResultI.raiFilteredReason image with
  | Some reason => ret (WarningRecord reason)
  | None =>
      let uri := orEmpty (ImagenModelResultI.gcsUri image) in
      decomposed <- await (CallDecomposeUri uri) (decomposeUri w i uri) ;;
      let format := formatOf image in
      match decomposed with
      | None => throw (cannotRead "undefined" "replaceAll")
      | Some fileName =>
          let ID := deriveID fileName userID format in
          let formattedDate := formattedDate w i in
          tryCatch
            (signedURL <- await (CallGetSignedURL uri) (getSignedURL w i uri) ;;
             match signedURL with
             | SignedUrlError error => throw (Error (cleanResult error))
             | SignedUrlString url =>
                 ret (ImageRecord
                        {| ImageI.src := url;
                           ImageI.gcsUri := ImagenModelResultI.gcsUri image;
                           ImageI.format := format;
                           ImageI.prompt := promptOf image usedPrompt;
                           ImageI.altText := "Generated image " ++ fileName;
                           ImageI.key := ID;
                           ImageI.width := width;
                           ImageI.height := height;
                           ImageI.ratio := aspectRatio;
                           ImageI.date := formattedDate;
                           ImageI.author := userID;
                           ImageI.modelVersion := modelVersion;
                           ImageI.mode := mode |})
             end)
            (fun error => ret (ErrorRecord securedAccessError))
      end
  end.

Definition buildImageListFromURI
    (imagesInGCS : list ImagenModelResultI.t)
    (aspectRatio : string) (width height : Z)
    (usedPrompt userID modelVersion mode : string) : M (list ImageI.t) :=
  let promises :=
    mapFrom (uriCallback aspectRatio width height usedPrompt userID modelVersion mode)
            0 imagesInGCS in
  results <- promiseAll promises ;;
  ret (filter notNull results).

(** The object name the base64 callback builds for [image]. *)
Definition fileNameOf (imagesBase64 : list ImagenModelResultI.t)
    (image : ImagenModelResultI.t) : string :=
  let index :=
    findIndex
      (fun obj => optionStringEqb (ImagenModelResultI.bytesBase64Encoded obj)
                                  (ImagenModelResultI.bytesBase64Encoded image))
      imagesBase64 in
  "sample_" ++ ZToString index.

Definition fullOjectName (folderName : string) (imagesBase64 : list ImagenModelResultI.t)
    (image : ImagenModelResultI.t) : string :=
  folderName ++ "/" ++ fileNameOf imagesBase64 image ++ "." ++ toLowerCase (formatOf image).

(** The callback of [buildImageListFromBase64], for the item at position
    [i]; [toLocaleLowerCase] is taken as [toLowerCase]. *)
Definition base64Callback
    (imagesBase64 : list ImagenModelResultI.t) (bucketName folderName : string)
    (aspectRatio : string) (width height : Z)
    (usedPrompt userID modelVersion mode : string)
    (i : nat) (image : ImagenModelResultI.t) : M ImageI.t :=
  match ImagenModelResultI.raiFilteredReason image with
  | Some reason => ret (WarningRecord reason)
  | None =>
      let format := formatOf image in
      let fileName := fileNameOf imagesBase64 image in
      let fullOjectName := fullOjectName folderName imagesBase64 image in
      let ID := deriveID fullOjectName userID format in
      let formattedDate := formattedDate w i in
      tryCatch
        (let base64Image := orEmpty (ImagenModelResultI.bytesBase64Encoded image) in
         result <- await (CallUploadBase64Image base64Image bucketName fullOjectName)
                         (uploadBase64Image w i base64Image bucketName fullOjectName) ;;
         imageGcsUri <-
           (if negb (success result)
            then throw (Error (cleanResult
                                 (match uploadError result with
                                  | Some e => e
                                  | None => "Could not upload image to GCS"
                                  end)))
            else ret (orEmpty (fileUrl result))) ;;
         signedURL <- await (CallGetSignedURL imageGcsUri) (getSignedURL w i imageGcsUri) ;;
         match signedURL with
         | SignedUrlError error => throw (Error (cleanResult error))
         | SignedUrlString url =>
             ret (ImageRecord
                    {| ImageI.src := url;
                       ImageI.gcsUri := Some imageGcsUri;
                       ImageI.format := format;
                       ImageI.prompt := promptOf image usedPrompt;
                       ImageI.altText := "Generated image " ++ fileName;
                       ImageI.key := ID;
                       ImageI.width := width;
                       ImageI.height := height;
                       ImageI.ratio := aspectRatio;
                       ImageI.date := formattedDate;
                       ImageI.author := userID;
                       ImageI.modelVersion := modelVersion;
                       ImageI.mode := mode |})
         end)
        (fun error => ret (ErrorRecord securedAccessError))
  end.

Definition bucketNameOf (targetGcsURI : string) : string :=
  nth 0 (split "/" (replace "gs://" "" targetGcsURI)) "".

Definition folderNameOf (targetGcsURI : string) : string :=
  let bucketName := bucketNameOf targetGcsURI in
  let uniqueFolderId := generateUniqueFolderId (random w) in
  templ (nth_error (split (bucketName ++ "/") targetGcsURI) 1)
    ++ "/" ++ Binary64.toString uniqueFolderId.

Definition buildImageListFromBase64
    (imagesBase64 : list ImagenModelResultI.t) (targetGcsURI : string)
    (aspectRatio : string) (width height : Z)
    (usedPrompt userID modelVersion mode : string) : M (list ImageI.t) :=
  let bucketName := bucketNameOf targetGcsURI in
  let folderName := folderNameOf targetGcsURI in
  let promises :=
    mapFrom (base64Callback imagesBase64 bucketName folderName
               aspectRatio width height usedPrompt userID modelVersion mode)
            0 imagesBase64 in
  results <- promiseAll promises ;;
  ret (filter notNull results).

End Normalizers.

(* ================================================================== *)
(** ** The exported operations *)
(* ================================================================== *)

(** The fields of [EditImageFormI] that [editImage] reads. *)
Module EditImageFormI.
Record t : Type := mk {
  modelVersion : string;
  inputImage : string;
  inputMask : string;
  editMode : string;
  prompt : string;
  maskDilation : string;
  negativePrompt : string;
  baseSteps : string;
  sampleCount : string;
  outputOptions : string;
  personGeneration : string;
  ratio : string;
  width : Z;
  height : Z
}.
End EditImageFormI.

(** The source of [upscaleImage]: [{ uri }] or [{ base64 }]. *)
Inductive Source : Type :=
| SourceUri (uri : string)
| SourceBase64 (base64 : string).

Definition unableToAuthenticate : string :=
  "Unable to authenticate your account to access images".
Definition peoplefacePhrase : string := "safety settings for peopleface generation".
Definition filteredOutPhrase : string :=
  "All images were filtered out because they violated Vertex AI's usage guidelines".
Definition personGenerationPhrase : string := "Person Generation".
Definition noImagesGenerated : string := "There were an issue, no images were generated".
Definition unexpectedError : string := "An unexpected error occurred.".
Definition issueWhileEditing : string := "Issue while editing image.".
Definition responseTooLarge : string := "Response size too large.".
Definition imageSizeLimitExceeded : string :=
  "Image size limit exceeded. The resulting image is too large. Please try a smaller resolution or a different image.".
Definition errorWhileUpscaling : string := "Error while upscaling images.".
Definition upscalingTimedOut : string := "Upscaling timed out".

(** The delay of the timer [upscaleImage] races the request against, in
    milliseconds. *)
Definition timeout : N := 60000.

(** [errorString.replace(/^Error: /i, '')]. *)
Definition stripErrorPrefix (errorString : string) : string :=
  if startsWith "error: " (toLowerCase errorString) then dropChars 7 errorString
  else errorString.

(** [if (appContext === undefined) throw ...] and the test of step 3 that
    follows it: both throw the same error. *)
Definition checkedContext (appContext : AppContext) : M (string * string) :=
  match appContext with
  | ContextData (mkAppContext (Some gcsURI) (Some userID)) => ret (gcsURI, userID)
  | _ => throw (Error "No provided app context")
  end.

(** [s.startsWith('data:') ? s.split(',')[1] : s]. *)
Definition stripDataPrefix (s : string) : JsValue :=
  if startsWith "data:" s then optionString (nth_error (split "," s) 1) else JString s.

(** The body of the mask reference after [editMode === 'EDIT_MODE_BGSWAP']
    changed it. *)
Definition backgroundSwap (referenceImage : list (string * JsValue)) : list (string * JsValue) :=
  let referenceImage := removeField referenceImage "referenceImage" in
  match lookupField referenceImage "maskImageConfig" with
  | JObject maskImageConfig =>
      assignField referenceImage "maskImageConfig"
        (JObject (removeField
                    (assignField maskImageConfig "maskMode" (JString "MASK_MODE_BACKGROUND"))
                    "dilation"))
  | _ => referenceImage
  end.

Section Operations.
Variable w : World.

(** Step 1 of the three operations: [true] when a client was obtained. *)
Definition authenticate : M bool :=
  tryCatch (client <- await CallGetClient (getClient w) ;; ret true)
           (fun error => ret false).

Definition endpoint (location : option string) (model : string) : string :=
  "https://" ++ templ location ++ "-aiplatform.googleapis.com/v1/projects/"
    ++ templ (NEXT_PUBLIC_PROJECT_ID w) ++ "/locations/" ++ templ location
    ++ "/publishers/google/models/" ++ model.

(** *** Generate *)

Definition generateRequest (formData : FormData) (fullPrompt : string) : JsValue :=
  let generationConfig :=
    [("imageConfig", JObject [("aspectRatio", optionString (formGet formData "aspectRatio"))])] in
  let generationConfig :=
    if truthy (formGet formData "seedNumber")
    then assignField generationConfig "seed" (parseInt w (templ (formGet formData "seedNumber")))
    else generationConfig in
  JObject
    [("contents",
      JArray [JObject [("role", JString "user");
                       ("parts", JArray [JObject [("text", JString fullPrompt)]])]]);
     ("generationConfig", JObject generationConfig)].

(** [opts.data.parameters.aspectRatio] and [opts.data.instances[0].prompt]. *)
Definition parametersAspectRatio (reqData : JsValue) : M JsValue :=
  parameters <- getProp reqData "parameters" ;;
  getProp parameters "aspectRatio".

Definition instancesPrompt (reqData : JsValue) : M JsValue :=
  instances <- getProp reqData "instances" ;;
  instance0 <- getIndex instances 0 ;;
  getProp instance0 "prompt".

Definition strictEqualsString (s : string) (v : JsValue) : bool :=
  match v with
  | JString s' => String.eqb s s'
  | _ => false
  end.

Definition hasBytesBase64Encoded (image : ImagenModelResultI.t) : bool :=
  match ImagenModelResultI.bytesBase64Encoded image with
  | Some _ => true
  | None => false
  end.

Definition userIDOrEmpty (userID : string) : string :=
  if truthy (Some userID) then userID else "".

(** The [try] block of step 4. *)
Definition generateAttempt (url : string) (reqData : JsValue)
    (generationGcsURI userID modelVersion : string) : M OperationResult :=
  res <- await (CallRequest url reqData) (request w url reqData) ;;
  candidates <- match candidates res with
                | Some l => ret l
                | None => throw (cannotRead "undefined" "0")
                end ;;
  candidate0 <- match nth_error candidates 0 with
                | Some c => ret c
                | None => throw (cannotRead "undefined" "content")
                end ;;
  match content candidate0 with
  | None => throw (Error noImagesGenerated)
  | Some _ =>
      usedRatio <- findM (fun item =>
                            aspectRatio <- parametersAspectRatio reqData ;;
                            ret (strictEqualsString (entryRatio item) aspectRatio))
                         (RatioToPixel w) ;;
      resultImages <- match predictions res with
                      | Some l => ret l
                      | None => throw (cannotRead "undefined" "every")
                      end ;;
      let isResultBase64Images := forallb hasBytesBase64Encoded resultImages in
      aspectRatio <- parametersAspectRatio reqData ;;
      let width := match usedRatio with Some item => entryWidth item | None => 0%Z end in
      let height := match usedRatio with Some item => entryHeight item | None => 0%Z end in
      usedPrompt <- instancesPrompt reqData ;;
      enhancedImageList <-
        (if isResultBase64Images
         then buildImageListFromBase64 w resultImages generationGcsURI
                (asString aspectRatio) width height (asString usedPrompt)
                (userIDOrEmpty userID) modelVersion "Generated"
         else buildImageListFromURI w resultImages
                (asString aspectRatio) width height (asString usedPrompt)
                (userIDOrEmpty userID) modelVersion "Generated") ;;
      ret (ImageList enhancedImageList)
  end.

(** The [catch] block of step 4. *)
Definition generateCatch (error : JsError) : M OperationResult :=
  let errorString := errorToString error in
  if includes peoplefacePhrase errorString
     || includes filteredOutPhrase errorString
     || includes personGenerationPhrase errorString
  then ret (ErrorObject (Some (stripErrorPrefix errorString)))
  else
    let myErrorMsg :=
      match errorErrors error with
      | Some (entry :: _) =>
          if truthy (entryMessage entry)
          then replace "Image generation failed with the following error: " ""
                       (templ (entryMessage entry))
          else ""
      | _ => ""
      end in
    ret (ErrorObject (Some (if String.eqb myErrorMsg "" then unexpectedError else myErrorMsg))).

Definition generateEndpoint (modelVersion : string) : string :=
  let location :=
    if includes "gemini-2.5-flash-image" modelVersion then Some "us-central1"
    else NEXT_PUBLIC_VERTEX_API_LOCATION w in
  endpoint location modelVersion ++ ":generateContent".

Definition generateImage (formData : FormData) (isGeminiRewrite : bool)
    (appContext : AppContext) : M OperationResult :=
  authenticated <- authenticate ;;
  if negb authenticated then ret (ErrorObject (Some unableToAuthenticate))
  else
    modelVersion <- match formGet formData "modelVersion" with
                    | Some v => ret v
                    | None => throw (cannotRead "undefined" "includes")
                    end ;;
    let geminiAPIurl := generateEndpoint modelVersion in
    let fullPrompt := generatePrompt (fullPromptFields w) formData in
    context <- checkedContext appContext ;;
    let (gcsURI, userID) := context in
    let generationGcsURI := gcsURI ++ "/" ++ userID ++ "/generated-images" in
    let reqData := generateRequest formData fullPrompt in
    tryCatch (generateAttempt geminiAPIurl reqData generationGcsURI userID modelVersion)
             generateCatch.

(** *** Edit *)

Definition editRequest (formData : EditImageFormI.t) (editGcsURI : string) : JsValue :=
  let refInputImage := stripDataPrefix (EditImageFormI.inputImage formData) in
  let refInputMask := stripDataPrefix (EditImageFormI.inputMask formData) in
  let editMode := EditImageFormI.editMode formData in
  let rawReference :=
    [("referenceType", JString "REFERENCE_TYPE_RAW");
     ("referenceId", JNumber 1);
     ("referenceImage", JObject [("bytesBase64Encoded", refInputImage)])] in
  let maskReference :=
    [("referenceType", JString "REFERENCE_TYPE_MASK");
     ("referenceId", JNumber 2);
     ("referenceImage", JObject [("bytesBase64Encoded", refInputMask)]);
     ("maskImageConfig",
      JObject [("maskMode", JString "MASK_MODE_USER_PROVIDED");
               ("dilation", parseFloat w (EditImageFormI.maskDilation formData))])] in
  let maskReference :=
    if String.eqb editMode "EDIT_MODE_BGSWAP" then backgroundSwap maskReference
    else maskReference in
  JObject
    [("instances",
      JArray [JObject [("prompt", JString (EditImageFormI.prompt formData));
                       ("referenceImages",
                        JArray [JObject rawReference; JObject maskReference])]]);
     ("parameters",
      JObject [("negativePrompt", JString (EditImageFormI.negativePrompt formData));
               ("editConfig",
                JObject [("baseSteps", parseInt w (EditImageFormI.baseSteps formData))]);
               ("editMode", JString editMode);
               ("sampleCount", parseInt w (EditImageFormI.sampleCount formData));
               ("outputOptions",
                JObject [("mimeType", JString (EditImageFormI.outputOptions formData))]);
               ("includeRaiReason", JBool true);
               ("personGeneration", JString (EditImageFormI.personGeneration formData));
               ("storageUri", JString editGcsURI)])].

(** The [try] block of step 3: the response, once it passed the checks. *)
Definition editAttempt (url : string) (reqData : JsValue) : M ResponseData :=
  res <- await (CallRequest url reqData) (request w url reqData) ;;
  match predictions res with
  | None => throw (Error noImagesGenerated)
  | Some resultImages =>
      match nth_error resultImages 0 with
      | None => throw (cannotUseIn "raiFilteredReason" "undefined")
      | Some prediction0 =>
          match ImagenModelResultI.raiFilteredReason prediction0 with
          | Some reason => throw (Error (cleanResult reason))
          | None => ret res
          end
      end
  end.

(** The [catch] block of step 3. *)
Definition editCatch (error : JsError) : M OperationResult :=
  let errorString := errorToString error in
  if includes peoplefacePhrase errorString || includes filteredOutPhrase errorString
  then ret (ErrorObject (Some (replace "Error: " "" errorString)))
  else
    match errorErrors error with
    | None => throw (cannotRead "undefined" "0")
    | Some [] => throw (cannotRead "undefined" "message")
    | Some (entry :: _) => ret (ErrorObject (entryMessage entry))
    end.

(** Step 4: the output image list. *)
Definition editOutput (formData : EditImageFormI.t) (reqData : JsValue)
    (res : ResponseData) (editGcsURI userID : string) : M OperationResult :=
  tryCatch
    (resultImages <- match predictions res with
                     | Some l => ret l
                     | None => throw (cannotRead "undefined" "every")
                     end ;;
     let isResultBase64Images := forallb hasBytesBase64Encoded resultImages in
     usedPrompt <- instancesPrompt reqData ;;
     enhancedImageList <-
       (if isResultBase64Images
        then buildImageListFromBase64 w resultImages editGcsURI
               (EditImageFormI.ratio formData) (EditImageFormI.width formData)
               (EditImageFormI.height formData) (asString usedPrompt)
               (userIDOrEmpty userID) (EditImageFormI.modelVersion formData) "Generated"
        else buildImageListFromURI w resultImages
               (EditImageFormI.ratio formData) (EditImageFormI.width formData)
               (EditImageFormI.height formData) (asString usedPrompt)
               (userIDOrEmpty userID) (EditImageFormI.modelVersion formData) "Edited") ;;
     ret (ImageList enhancedImageList))
    (fun error => ret (ErrorObject (Some issueWhileEditing))).

Definition editEndpoint (formData : EditImageFormI.t) : string :=
  let location := NEXT_PUBLIC_VERTEX_API_LOCATION w in
  let modelVersion := EditImageFormI.modelVersion formData in
  endpoint location modelVersion ++ ":predict".

Definition editStorageUri (gcsURI userID : string) : string :=
  gcsURI ++ "/" ++ userID ++ "/edited-images".

Definition editImage (formData : EditImageFormI.t) (appContext : AppContext)
  : M OperationResult :=
  authenticated <- authenticate ;;
  if negb authenticated then ret (ErrorObject (Some unableToAuthenticate))
  else
    let imagenAPIurl := editEndpoint formData in
    context <- checkedContext appContext ;;
    let (gcsURI, userID) := context in
    let editGcsURI := editStorageUri gcsURI userID in
    let reqData := editRequest formData editGcsURI in
    step3 <- tryCatch (res <- editAttempt imagenAPIurl reqData ;; ret (inl res))
                      (fun error => result <- editCatch error ;; ret (inr result)) ;;
    match step3 with
    | inr result => ret result
    | inl res => editOutput formData reqData res editGcsURI userID
    end.

(** *** Upscale *)

Definition upscaleRequest (base64ImageEncoded : JsValue) (upscaleFactor targetGCSuri : string)
  : JsValue :=
  JObject
    [("instances",
      JArray [JObject [("prompt", JString "");
                       ("image", JObject [("bytesBase64Encoded", base64ImageEncoded)])]]);
     ("parameters",
      JObject [("sampleCount", JNumber 1);
               ("mode", JString "upscale");
               ("upscaleConfig", JObject [("upscaleFactor", JString upscaleFactor)]);
               ("storageUri", JString targetGCSuri)])].

(** [Promise.race([client.request(opts), timer])]: the request settles
    [requestSettlesAfter] milliseconds after the race starts, or never; the
    timer rejects when [timeout] milliseconds have passed.  The promise that
    settles first decides; [requestWinsTie] decides when both settle in the
    same millisecond. *)
Definition raceWithTimeout (url : string) (reqData : JsValue) : Completion ResponseData :=
  match requestSettlesAfter w url reqData with
  | Some t =>
      if ((t <? timeout) || ((t =? timeout) && requestWinsTie w))%N
      then request w url reqData
      else Thrown (Error upscalingTimedOut)
  | None => Thrown (Error upscalingTimedOut)
  end.

(** The [try] block of step 4. *)
Definition upscaleAttempt (url : string) (reqData : JsValue) : M OperationResult :=
  res <- await (CallRequest url reqData) (raceWithTimeout url reqData) ;;
  match predictions res with
  | None => throw (Error "There were an issue, images could not be upscaled")
  | Some l =>
      match nth_error l 0 with
      | None => throw (cannotRead "undefined" "gcsUri")
      | Some prediction0 =>
          ret (Upscaled (ImagenModelResultI.gcsUri prediction0)
                        (ImagenModelResultI.mimeType prediction0))
      end
  end.

(** The [catch] block of step 4. *)
Definition upscaleCatch (error : JsError) : M OperationResult :=
  if includes responseTooLarge (errorMessage error)
  then ret (ErrorObject (Some imageSizeLimitExceeded))
  else ret (ErrorObject (Some errorWhileUpscaling)).

(** Step 2: the source image. *)
Definition sourceImage (source : Source) : M (option string) :=
  match source with
  | SourceUri uri =>
      res <- tryCatch
               (res <- await (CallDownloadMediaFromGcs uri) (downloadMediaFromGcs w uri) ;;
                if truthy (downloadError res)
                then throw (Error (replaceAll "Error: " "" (templ (downloadError res))))
                else ret res)
               (fun error => throw (Error (errorToString error))) ;;
      ret (data res)
  | SourceBase64 base64 => ret (Some base64)
  end.

Definition upscaleEndpoint : string :=
  let location := NEXT_PUBLIC_VERTEX_API_LOCATION w in
  endpoint location "imagegeneration@002" ++ ":predict".

Definition upscaleStorageUri (gcsURI userID : string) : string :=
  gcsURI ++ "/" ++ userID ++ "/upscaled-images".

(** [base64Image && base64Image.startsWith('data:') ? base64Image.split(',')[1]
    : base64Image]. *)
Definition encodedSource (base64Image : option string) : JsValue :=
  match base64Image with
  | Some s => if truthy (Some s) then stripDataPrefix s else JString s
  | None => JUndefined
  end.

Definition upscaleImage (source : Source) (upscaleFactor : string)
    (appContext : AppContext) : M OperationResult :=
  authenticated <- authenticate ;;
  if negb authenticated then ret (ErrorObject (Some unableToAuthenticate))
  else
    let imagenAPIurl := upscaleEndpoint in
    base64Image <- sourceImage source ;;
    context <- checkedContext appContext ;;
    let (gcsURI, userID) := context in
    let targetGCSuri := upscaleStorageUri gcsURI userID in
    let base64ImageEncoded := encodedSource base64Image in
    let reqData := upscaleRequest base64ImageEncoded upscaleFactor targetGCSuri in
    tryCatch (upscaleAttempt imagenAPIurl reqData) upscaleCatch.

End Operations.

(* ================================================================== *)
(** ** Vocabulary of the statements *)
(* ================================================================== *)

(** The capitalisation loop of [normalizeSentence] as a recursion on the
    words: what it appends for [words] when it starts with [newSentence]. *)
Definition capitalize (word : string) : string := toUpperCase (charAt0 word) ++ slice1 word.

Fixpoint capitalizeWords (words : list string) (newSentence : bool) : string :=
  match words with
  | [] => ""
  | word :: rest =>
      let word1 := if newSentence then capitalize word else word in
      word1 ++ " " ++ capitalizeWords rest (endsSentence word1)
  end.

Fixpoint joinWords (words : list string) : string :=
  match words with
  | [] => ""
  | word :: rest => word ++ " " ++ joinWords rest
  end.

Definition startsWithWhiteSpace (s : string) : bool :=
  match s with
  | EmptyString => false
  | String c _ => isWhiteSpace c
  end.

Fixpoint endsWithWhiteSpace (s : string) : bool :=
  match s with
  | EmptyString => false
  | String c EmptyString => isWhiteSpace c
  | String _ s' => endsWithWhiteSpace s'
  end.

(** One turn of the loop of [generateUniqueFolderId]. *)
Definition loopStep (random : nat -> Binary64.number) (number : Binary64.number) (i : nat)
  : Binary64.number :=
  Binary64.add (Binary64.mul number (Binary64.ofZ 10))
               (Binary64.floor (Binary64.mul (random (S i)) (Binary64.ofZ 10))).

(** How a collaborator's answer fails. *)
Definition isSignedFailure (answer : Completion SignedURL) : bool :=
  match answer with
  | Returned (SignedUrlString _) => false
  | _ => true
  end.

Definition isUploadFailure (answer : Completion UploadResult) : bool :=
  match answer with
  | Returned result => negb (success result)
  | Thrown _ => true
  end.

Definition isDecomposeFailure (answer : Completion (option string)) : bool :=
  match answer with
  | Returned (Some _) => false
  | _ => true
  end.

(** [l] with the element at position [i] replaced by [a]. *)
Definition setAt {A : Type} (i : nat) (a : A) (l : list A) : list A :=
  mapFrom (fun j x => if Nat.eqb j i then a else x) 0 l.

Definition mapCompletion {A B : Type} (f : A -> B) (c : Completion A) : Completion B :=
  match c with
  | Returned a => Returned (f a)
  | Thrown e => Thrown e
  end.



(** The result [m] of a normalizer holds one record per item of [images],
    at the item's position: the record its callback returned, which is a
    warning with the item's reason when the item is filtered, and an image
    or the error record otherwise. *)
Definition perItemRecords (images : list ImagenModelResultI.t)
    (callback : nat -> ImagenModelResultI.t -> M ImageI.t)
    (m : M (list ImageI.t)) : Prop :=
  exists out,
    outcome m = Returned out /\
    List.length out = List.length images /\
    forall i image, nth_error images i = Some image ->
      exists r, nth_error out i = Some r /\
                outcome (callback i image) = Returned r /\
                match ImagenModelResultI.raiFilteredReason image with
                | Some reason => r = WarningRecord reason
                | None => (exists image', r = ImageRecord image')
                          \/ r = ErrorRecord securedAccessError
                end.


(** [reqData.instances[0].referenceImages[1]]: the mask reference of an edit
    request. *)
Definition maskReferenceOf (reqData : JsValue) : M JsValue :=
  instances <- getProp reqData "instances" ;;
  instance0 <- getIndex instances 0 ;;
  referenceImages <- getProp instance0 "referenceImages" ;;
  getIndex referenceImages 1.

(** The request settled within [ms] milliseconds. *)
Definition completesWithin (ms : N) (settlesAfter : option N) : bool :=
  match settlesAfter with
  | Some t => (t <=? ms)%N
  | None => false
  end.

(** One of the two safety phrases [editImage] knows occurs in [s]. *)
Definition containsSafetyPhrase (s : string) : bool :=
  includes peoplefacePhrase s || includes filteredOutPhrase s.

(* ================================================================== *)
(** ** Vocabulary of the further properties *)
(* ================================================================== *)

(** [s] without the characters that [keep] rejects. *)
Fixpoint filterChars (keep : ascii -> bool) (s : string) : string :=
  match s with
  | EmptyString => EmptyString
  | String c s' => if keep c then String c (filterChars keep s') else filterChars keep s'
  end.

(** The characters [cleanResult] leaves in place: all but the line feed,
    the slash and the star. *)
Definition keptByCleanResult (c : ascii) : bool :=
  negb (Ascii.eqb c LF || Ascii.eqb c "/" || Ascii.eqb c "*").

(** Every character of [s] satisfies [p]; no character of [s] is [c]. *)
Fixpoint allChars (p : ascii -> bool) (s : string) : bool :=
  match s with
  | EmptyString => true
  | String c s' => p c && allChars p s'
  end.

Definition noChar (c : ascii) (s : string) : bool :=
  allChars (fun a => negb (Ascii.eqb a c)) s.

Definition isDigitChar (c : ascii) : bool :=
  let n := nat_of_ascii c in ((48 <=? n) && (n <=? 57))%nat.

Definition isAlphaNumChar (c : ascii) : bool :=
  isUpperChar c || isLowerChar c || isDigitChar c.

(** [s] holds a character that [trim] would keep. *)
Definition hasVisibleChar (s : string) : bool := negb (allChars isWhiteSpace s).

(** The digit that the [i]-th use of [Math.random()] contributes to the
    folder id: [Math.floor(Math.random() * 9) + 1] for the first one,
    [Math.floor(Math.random() * 10)] for the twelve of the loop.  The
    product is the binary64 one: it is rounded before it is floored. *)
Definition drawnDigit (random : nat -> Binary64.number) (i : nat) : Z :=
  match i with
  | O => (Binary64.toZ (Binary64.floor (Binary64.mul (random 0%nat) (Binary64.ofZ 9))) + 1)%Z
  | S _ => Binary64.toZ (Binary64.floor (Binary64.mul (random i) (Binary64.ofZ 10)))
  end.

(** The number written with the decimal [digits], the first one leading. *)
Definition decimalValue (digits : list Z) : Z :=
  fold_left (fun n d => (10 * n + d)%Z) digits 0%Z.

(** The app context passes the test of the operations: it is an object
    with a [gcsURI] and a [userID]. *)
Definition isCompleteContext (appContext : AppContext) : bool :=
  match appContext with
  | ContextData (mkAppContext (Some _) (Some _)) => true
  | _ => false
  end.

Definition isFiltered (image : ImagenModelResultI.t) : bool :=
  match ImagenModelResultI.raiFilteredReason image with
  | Some _ => true
  | None => false
  end.

Definition isUploadCall (c : Call) : bool :=
  match c with
  | CallUploadBase64Image _ _ _ => true
  | _ => false
  end.

(** [a.bytesBase64Encoded === b.bytesBase64Encoded]. *)
Definition sameBytes (a b : ImagenModelResultI.t) : bool :=
  optionStringEqb (ImagenModelResultI.bytesBase64Encoded a)
                  (ImagenModelResultI.bytesBase64Encoded b).

(** How [downloadMediaFromGcs] fails: it rejects, or answers an object with
    an [error]; and the error that step 2 of [upscaleImage] then throws in
    its [try] block. *)
Definition isDownloadFailure (answer : Completion DownloadResult) : bool :=
  match answer with
  | Returned res => truthy (downloadError res)
  | Thrown _ => true
  end.

Definition downloadFailure (answer : Completion DownloadResult) : JsError :=
  match answer with
  | Returned res => Error (replaceAll "Error: " "" (templ (downloadError res)))
  | Thrown e => e
  end.

(** One of the three safety phrases [generateImage] knows occurs in [s]. *)
Definition containsGenerateSafetyPhrase (s : string) : bool :=
  includes peoplefacePhrase s || includes filteredOutPhrase s
  || includes personGenerationPhrase s.

(* ================================================================== *)
(** ** Sample inputs *)
(* ================================================================== *)

(** [parseInt] and [parseFloat] on the numbers of the sample forms, which
    are written with digits only. *)
Definition sampleParseNumber (s : string) : JsValue :=
  match NilEmpty.uint_of_string s with
  | Some u => JNumber (Z.of_nat (Nat.of_uint u))
  | None => JUndefined
  end.

(** A world in which the storage collaborators succeed; the remote endpoint
    answers [answer] after [settlesAfter] milliseconds and [decomposeUri]
    answers [decomposed]. *)
Definition sampleWorld (answer : Completion ResponseData) (settlesAfter : option N)
    (decomposed : string -> Completion (option string)) : World :=
  {| NEXT_PUBLIC_VERTEX_API_LOCATION := Some "europe-west4";
     NEXT_PUBLIC_PROJECT_ID := Some "img-studio";
     RatioToPixel := [mkRatioToPixelEntry "1:1" 1024 1024;
                      mkRatioToPixelEntry "16:9" 1408 768];
     fullPromptFields := ["light"; "perspective"; "image_colors"; "use_case"];
     random := fun _ => 0%Z;
     formattedDate := fun _ => "November 2, 2026";
     parseInt := sampleParseNumber;
     parseFloat := sampleParseNumber;
     getClient := Returned tt;
     request := fun _ _ => answer;
     requestSettlesAfter := fun _ _ => settlesAfter;
     requestWinsTie := false;
     decomposeUri := fun _ uri => decomposed uri;
     getSignedURL := fun _ uri =>
       Returned (SignedUrlString ("https://storage.googleapis.com/" ++ replace "gs://" "" uri));
     uploadBase64Image := fun _ _ bucketName objectName =>
       Returned (mkUploadResult true (Some ("gs://" ++ bucketName ++ "/" ++ objectName)) None);
     downloadMediaFromGcs := fun _ => Returned (mkDownloadResult (Some "iVBORw0KGgo=") None) |}.

(** A world in which no client can be obtained. *)
Definition sampleWorldWithoutClient : World :=
  let w := sampleWorld (Thrown (Error "unreachable")) None (fun _ => Returned None) in
  mkWorld (NEXT_PUBLIC_VERTEX_API_LOCATION w) (NEXT_PUBLIC_PROJECT_ID w) (RatioToPixel w)
    (fullPromptFields w) (random w) (formattedDate w) (parseInt w) (parseFloat w)
    (Thrown (Error "Could not load the default credentials."))
    (request w) (requestSettlesAfter w) (requestWinsTie w) (decomposeUri w)
    (getSignedURL w) (uploadBase64Image w) (downloadMediaFromGcs w).

Definition sampleDecomposed (uri : string) : Completion (option string) :=
  Returned (Some (replace "bucket/" "" (replace "gs://" "" uri))).

Definition sampleUriItem : ImagenModelResultI.t :=
  ImagenModelResultI.mk (Some "gs://bucket/user-1/generated-images/17/sample_0.png")
    None "image/png" None None.

Definition sampleBase64Item (prompt : string) : ImagenModelResultI.t :=
  ImagenModelResultI.mk None (Some "QUJD") "image/png" (Some prompt) None.

Definition sampleFilteredItem (reason : string) : ImagenModelResultI.t :=
  ImagenModelResultI.mk None None "" None (Some reason).

Definition sampleResponse (images : list ImagenModelResultI.t) : ResponseData :=
  mkResponseData (Some [mkCandidate (Some (JObject [("role", JString "model")]))])
                 (Some images).

Definition sampleContext : AppContext :=
  ContextData (mkAppContext (Some "gs://bucket") (Some "user-1")).

Definition sampleGenerateForm : FormData :=
  [("prompt", "a cat on a sofa"); ("modelVersion", "gemini-2.5-flash-image");
   ("style", "photo"); ("secondary_style", "studio"); ("light", ""); ("perspective", "");
   ("image_colors", ""); ("use_case", ""); ("aspectRatio", "1:1"); ("seedNumber", "")].

Definition sampleEditForm : EditImageFormI.t :=
  EditImageFormI.mk "imagen-3.0-capability-001" "data:image/png;base64,QUJD"
    "data:image/png;base64,REVG" "EDIT_MODE_INPAINT_INSERTION" "a red hat" "0"
    "" "35" "2" "image/png" "allow_adult" "1:1" 1024 1024.

Definition usageGuidelinesReason : string :=
  "Unable to show generated images. All images were filtered out because they violated Vertex AI's usage guidelines. Support codes: 56562880".

Definition guidelinesLinkReason : string :=
  "All images were filtered out because they violated Vertex AI's usage guidelines: https://cloud.google.com/vertex-ai".

Definition thresholdReason : string :=
  "Your current safety filter threshold filtered out 2 generated images. Support codes: 89371032".

Definition oversizedResponse : JsError :=
  Error "Response size too large. Received at least 33556087 bytes; max is 33554432.".

(* ================================================================== *)
(** ** Facts about the string functions *)
(* ================================================================== *)

Module StringFacts.

Lemma append_assoc (a b c : string) : (a ++ b) ++ c = a ++ (b ++ c).
Proof. induction a as [|x a IH]; cbn; [reflexivity | now rewrite IH]. Qed.

Lemma append_empty_r (a : string) : a ++ "" = a.
Proof. induction a as [|x a IH]; cbn; [reflexivity | now rewrite IH]. Qed.

Lemma mapChars_append (f : ascii -> ascii) (a b : string) :
  mapChars f (a ++ b) = mapChars f a ++ mapChars f b.
Proof. induction a as [|x a IH]; cbn; [reflexivity | now rewrite IH]. Qed.

Ltac by_cases_on c := destruct c as [[] [] [] [] [] [] [] []]; reflexivity.

Lemma toLowerChar_toUpperChar (c : ascii) : toLowerChar (toUpperChar c) = toLowerChar c.
Proof. by_cases_on c. Qed.

Lemma toLowerChar_idem (c : ascii) : toLowerChar (toLowerChar c) = toLowerChar c.
Proof. by_cases_on c. Qed.

Lemma eqb_space_toLowerChar (c : ascii) : Ascii.eqb " " (toLowerChar c) = Ascii.eqb " " c.
Proof. by_cases_on c. Qed.

Lemma eqb_toLowerChar_space (c : ascii) : Ascii.eqb (toLowerChar c) space = Ascii.eqb c space.
Proof. by_cases_on c. Qed.

Lemma eqb_comma_toLowerChar (c : ascii) : Ascii.eqb "," (toLowerChar c) = Ascii.eqb "," c.
Proof. by_cases_on c. Qed.

Lemma isWhiteSpace_toLowerChar (c : ascii) : isWhiteSpace (toLowerChar c) = isWhiteSpace c.
Proof. by_cases_on c. Qed.

Lemma toLowerCase_idem (s : string) : toLowerCase (toLowerCase s) = toLowerCase s.
Proof.
  induction s as [|c s IH]; cbn; [reflexivity|].
  now rewrite toLowerChar_idem, IH.
Qed.

Lemma toLowerCase_toUpperCase (s : string) : toLowerCase (toUpperCase s) = toLowerCase s.
Proof.
  induction s as [|c s IH]; cbn; [reflexivity|].
  now rewrite toLowerChar_toUpperChar, IH.
Qed.

Lemma toLowerCase_capitalize (word : string) : toLowerCase (capitalize word) = toLowerCase word.
Proof.
  destruct word as [|c word]; [reflexivity|].
  unfold capitalize. cbn. now rewrite toLowerChar_toUpperChar.
Qed.

End StringFacts.

(* ================================================================== *)
(** ** Facts about [normalizeSentence] *)
(* ================================================================== *)

Module SentenceFacts.
Import StringFacts.

Lemma toLowerCase_cons (c : ascii) (s : string) :
  toLowerCase (String c s) = String (toLowerChar c) (toLowerCase s).
Proof. reflexivity. Qed.

Lemma toLowerCase_append (a b : string) :
  toLowerCase (a ++ b) = toLowerCase a ++ toLowerCase b.
Proof. apply mapChars_append. Qed.

Lemma capitalizeStep_fold (words : list string) (acc : string) (newSentence : bool) :
  fst (fold_left capitalizeStep words (acc, newSentence))
  = acc ++ capitalizeWords words newSentence.
Proof.
  revert acc newSentence.
  induction words as [|word rest IH]; intros acc newSentence; cbn [fold_left capitalizeWords].
  - cbn. now rewrite append_empty_r.
  - unfold capitalizeStep at 2. fold (capitalize word).
    rewrite IH, append_assoc, append_assoc.
    destruct newSentence; destruct (endsSentence _); reflexivity.
Qed.

Lemma toLowerCase_capitalizeWords (words : list string) (newSentence : bool) :
  toLowerCase (capitalizeWords words newSentence) = toLowerCase (joinWords words).
Proof.
  revert newSentence.
  induction words as [|word rest IH]; intros newSentence; [reflexivity|].
  cbn [capitalizeWords joinWords].
  rewrite !toLowerCase_append, IH.
  destruct newSentence; [|reflexivity].
  now rewrite toLowerCase_capitalize.
Qed.

Lemma splitFrom_space (c : ascii) (s : string) :
  splitFrom " " 0 (String c s)
  = if Ascii.eqb " " c
    then ("", let (w, ws) := splitFrom " " 0 s in w :: ws)
    else let (w, ws) := splitFrom " " 0 s in (String c w, ws).
Proof.
  cbn [splitFrom startsWith String.length Nat.sub].
  destruct (Ascii.eqb " " c); reflexivity.
Qed.

Lemma joinWords_split (s : string) : joinWords (split " " s) = s ++ " ".
Proof.
  unfold split. induction s as [|c s IH]; [reflexivity|].
  rewrite splitFrom_space.
  destruct (Ascii.eqb_spec " "%char c) as [<- | Hne].
  - destruct (splitFrom " " 0 s) as [w ws].
    change (joinWords ("" :: w :: ws)) with (String " " (joinWords (w :: ws))).
    now rewrite IH.
  - destruct (splitFrom " " 0 s) as [w ws].
    change (joinWords (String c w :: ws)) with (String c (joinWords (w :: ws))).
    now rewrite IH.
Qed.

Lemma startsWith_space_toLowerCase (s : string) :
  startsWith " " (toLowerCase s) = startsWith " " s.
Proof.
  destruct s as [|c s]; [reflexivity|]. cbn [toLowerCase mapChars startsWith].
  now rewrite eqb_space_toLowerChar.
Qed.

Lemma toLowerCase_replaceMultipleSpaces (s : string) :
  toLowerCase (replaceMultipleSpaces s) = replaceMultipleSpaces (toLowerCase s).
Proof.
  induction s as [|c s IH]; [reflexivity|].
  cbn [replaceMultipleSpaces toLowerCase mapChars].
  fold (toLowerCase s). rewrite eqb_toLowerChar_space, startsWith_space_toLowerCase.
  destruct (Ascii.eqb c space && startsWith " " s); [exact IH|].
  cbn [toLowerCase mapChars]. f_equal. exact IH.
Qed.

Lemma toLowerCase_trimStart (s : string) :
  toLowerCase (trimStart s) = trimStart (toLowerCase s).
Proof.
  induction s as [|c s IH]; [reflexivity|].
  cbn [trimStart toLowerCase mapChars]. rewrite isWhiteSpace_toLowerChar.
  destruct (isWhiteSpace c); [exact IH | reflexivity].
Qed.

Lemma toLowerCase_trimEnd (s : string) :
  toLowerCase (trimEnd s) = trimEnd (toLowerCase s).
Proof.
  induction s as [|c s IH]; [reflexivity|].
  cbn [trimEnd toLowerCase mapChars]. fold (toLowerCase s).
  rewrite <- IH, isWhiteSpace_toLowerChar.
  destruct (trimEnd s) as [|d t]; cbn [toLowerCase mapChars].
  - destruct (isWhiteSpace c); reflexivity.
  - reflexivity.
Qed.

Lemma toLowerCase_trim (s : string) : toLowerCase (trim s) = trim (toLowerCase s).
Proof. unfold trim. now rewrite toLowerCase_trimEnd, toLowerCase_trimStart. Qed.

Lemma startsWith_commas_toLowerCase (s : string) :
  startsWith ", ," (toLowerCase s) = startsWith ", ," s.
Proof.
  destruct s as [|a [|b [|c s]]]; cbn [toLowerCase mapChars startsWith];
    rewrite ?eqb_comma_toLowerChar, ?eqb_space_toLowerChar; reflexivity.
Qed.

Lemma toLowerCase_replaceAllFrom (skip : nat) (s : string) :
  toLowerCase (replaceAllFrom ", ," "," skip s) = replaceAllFrom ", ," "," skip (toLowerCase s).
Proof.
  revert skip. induction s as [|c s IH]; intros skip; [reflexivity|].
  rewrite (toLowerCase_cons c s). cbn [replaceAllFrom].
  destruct skip as [|k]; [|apply IH].
  rewrite <- (toLowerCase_cons c s), startsWith_commas_toLowerCase.
  destruct (startsWith ", ," (String c s)).
  - rewrite toLowerCase_append. change (toLowerCase ",") with ",".
    f_equal. apply IH.
  - rewrite toLowerCase_cons. f_equal. apply IH.
Qed.

Lemma includes_toLowerCase_spaces (s : string) :
  includes "  " (toLowerCase s) = includes "  " s.
Proof.
  induction s as [|c s IH]; [reflexivity|].
  rewrite toLowerCase_cons. cbn [includes]. rewrite IH. f_equal.
  destruct s as [|b s]; cbn [toLowerCase mapChars startsWith];
    rewrite ?eqb_space_toLowerChar; reflexivity.
Qed.

Lemma includes_toLowerCase_commas (s : string) :
  includes ", ," (toLowerCase s) = includes ", ," s.
Proof.
  induction s as [|c s IH]; [reflexivity|].
  rewrite toLowerCase_cons. cbn [includes]. rewrite IH. f_equal.
  rewrite <- toLowerCase_cons. apply startsWith_commas_toLowerCase.
Qed.

Lemma startsWithWhiteSpace_toLowerCase (s : string) :
  startsWithWhiteSpace (toLowerCase s) = startsWithWhiteSpace s.
Proof. destruct s; [reflexivity|]. cbn. apply isWhiteSpace_toLowerChar. Qed.

Lemma endsWithWhiteSpace_toLowerCase (s : string) :
  endsWithWhiteSpace (toLowerCase s) = endsWithWhiteSpace s.
Proof.
  induction s as [|c s IH]; [reflexivity|].
  cbn [toLowerCase mapChars]. fold (toLowerCase s).
  destruct s as [|d s]; [cbn; apply isWhiteSpace_toLowerChar|].
  exact IH.
Qed.

(** clean strings pass the last three steps unchanged *)

Lemma replaceAllFrom_absent (p r s : string) :
  includes p s = false -> replaceAllFrom p r 0 s = s.
Proof.
  induction s as [|c s IH]; [reflexivity|].
  cbn [includes replaceAllFrom]. intros H. apply orb_false_iff in H as [H1 H2].
  rewrite H1. f_equal. auto.
Qed.

Lemma replaceMultipleSpaces_clean (s : string) :
  includes "  " s = false -> endsWithWhiteSpace s = false ->
  replaceMultipleSpaces (s ++ " ") = s ++ " ".
Proof.
  induction s as [|c s IH]; [reflexivity|].
  intros Hinc Hend. cbn [includes] in Hinc. apply orb_false_iff in Hinc as [Hst Hinc].
  assert (Hend' : endsWithWhiteSpace s = false).
  { destruct s; [reflexivity | exact Hend]. }
  cbn [append replaceMultipleSpaces]. rewrite (IH Hinc Hend').
  destruct (Ascii.eqb_spec c space) as [-> | Hne]; [|reflexivity].
  destruct s as [|d s]; [discriminate Hend|].
  cbn [startsWith append] in *. unfold space in Hst.
  rewrite Ascii.eqb_refl in Hst. cbn [andb] in *. now rewrite Hst.
Qed.

Lemma trimEnd_clean (s : string) :
  endsWithWhiteSpace s = false -> trimEnd (s ++ " ") = s.
Proof.
  induction s as [|c s IH]; [reflexivity|].
  intros Hend. cbn [append trimEnd].
  destruct s as [|d s].
  - cbn in *. now rewrite Hend.
  - rewrite (IH Hend). reflexivity.
Qed.

Lemma trim_clean (s : string) :
  startsWithWhiteSpace s = false -> endsWithWhiteSpace s = false -> trim (s ++ " ") = s.
Proof.
  intros Hst Hend. unfold trim.
  destruct s as [|c s]; [reflexivity|].
  cbn in Hst. cbn [append trimStart]. rewrite Hst.
  change (String c (s ++ " ")) with (String c s ++ " ").
  now apply trimEnd_clean.
Qed.

(** a trimmed string neither starts nor ends with white space *)

Lemma endsWithWhiteSpace_trimEnd (s : string) : endsWithWhiteSpace (trimEnd s) = false.
Proof.
  induction s as [|c s IH]; [reflexivity|].
  cbn [trimEnd]. destruct (trimEnd s) as [|d t] eqn:E.
  - destruct (isWhiteSpace c) eqn:Ec; [reflexivity | exact Ec].
  - exact IH.
Qed.

Lemma startsWithWhiteSpace_trimStart (s : string) : startsWithWhiteSpace (trimStart s) = false.
Proof.
  induction s as [|c s IH]; [reflexivity|].
  cbn [trimStart]. destruct (isWhiteSpace c) eqn:Ec; [exact IH | exact Ec].
Qed.

Lemma startsWithWhiteSpace_trimEnd (s : string) :
  startsWithWhiteSpace s = false -> startsWithWhiteSpace (trimEnd s) = false.
Proof.
  destruct s as [|c s]; [reflexivity|].
  cbn [trimEnd startsWithWhiteSpace]. intros Hc.
  destruct (trimEnd s); [rewrite Hc; exact Hc | exact Hc].
Qed.

Lemma trimmed_ends (s : string) :
  trim s = s -> startsWithWhiteSpace s = false /\ endsWithWhiteSpace s = false.
Proof.
  intros H. rewrite <- H. unfold trim. split.
  - apply startsWithWhiteSpace_trimEnd, startsWithWhiteSpace_trimStart.
  - apply endsWithWhiteSpace_trimEnd.
Qed.

(** [normalizeSentence] changes at most the case of the letters of a string
    that is trimmed, single-spaced and free of [", ,"]. *)
Lemma toLowerCase_normalizeSentence (s : string) :
  trim s = s -> includes "  " s = false -> includes ", ," s = false ->
  toLowerCase (normalizeSentence s) = toLowerCase s.
Proof.
  intros Htrim Hsp Hco. apply trimmed_ends in Htrim as [Hst Hend].
  unfold normalizeSentence. rewrite capitalizeStep_fold. cbn [append].
  unfold replaceAll.
  rewrite toLowerCase_replaceAllFrom, toLowerCase_trim, toLowerCase_replaceMultipleSpaces.
  rewrite toLowerCase_capitalizeWords, joinWords_split.
  rewrite toLowerCase_append, toLowerCase_idem.
  change (toLowerCase " ") with " ".
  rewrite replaceMultipleSpaces_clean, trim_clean, replaceAllFrom_absent;
    rewrite ?includes_toLowerCase_spaces, ?includes_toLowerCase_commas,
            ?startsWithWhiteSpace_toLowerCase, ?endsWithWhiteSpace_toLowerCase;
    auto.
Qed.

Lemma normalizeSentence_toLowerCase (s t : string) :
  toLowerCase s = toLowerCase t -> normalizeSentence s = normalizeSentence t.
Proof. intros H. unfold normalizeSentence. now rewrite H. Qed.

End SentenceFacts.

(* ================================================================== *)
(** ** Facts about binary64 arithmetic and the folder id *)
(* ================================================================== *)

Module Binary64Facts.
Import Binary64.
Local Open Scope Z_scope.

Lemma roundHalfEven_exact (n s : Z) :
  0 <= s -> n mod 2 ^ s = 0 -> roundHalfEven n s = n / 2 ^ s.
Proof.
  intros Hs Hm. unfold roundHalfEven.
  rewrite Z.shiftr_div_pow2, Z.land_ones by lia. rewrite Hm.
  assert (0 < 2 ^ s) by (apply Z.pow_pos_nonneg; lia).
  destruct (Z.ltb_spec (2 * 0) (2 ^ s)); [reflexivity | lia].
Qed.

Lemma roundHalfEven_bounds (n s : Z) :
  0 <= n -> 0 <= s ->
  0 <= roundHalfEven n s /\ 2 * (roundHalfEven n s * 2 ^ s) <= 2 * n + 2 ^ s.
Proof.
  intros Hn Hs.
  assert (Hp : 0 < 2 ^ s) by (apply Z.pow_pos_nonneg; lia).
  pose proof (Z.div_mod n (2 ^ s) ltac:(lia)) as Hdm.
  pose proof (Z.mod_pos_bound n (2 ^ s) Hp) as Hr.
  assert (Hq : 0 <= n / 2 ^ s) by (apply Z.div_pos; lia).
  unfold roundHalfEven. rewrite Z.shiftr_div_pow2, Z.land_ones by lia.
  set (q := n / 2 ^ s) in *. set (r := n mod 2 ^ s) in *.
  destruct (Z.ltb_spec (2 * r) (2 ^ s)); [nia|].
  destruct (Z.ltb_spec (2 ^ s) (2 * r)); [nia|].
  destruct (Z.even q); nia.
Qed.

Lemma round_exact (base c t : Z) :
  0 <= base <= t -> 0 <= c < 2 ^ 53 -> round base (c * 2 ^ t) = c * 2 ^ (t - base).
Proof.
  intros Hb Hc. unfold round.
  assert (Hs : exists s, base <= s <= t /\ Z.max (Z.log2 (c * 2 ^ t) - 52) base = s).
  { destruct (Z.eq_dec c 0) as [-> | Hne].
    - exists base. rewrite Z.mul_0_l. cbn [Z.log2]. split; lia.
    - rewrite Z.log2_mul_pow2 by lia.
      assert (Z.log2 c < 53) by (apply Z.log2_lt_pow2; lia).
      eexists; split; [|reflexivity]. lia. }
  destruct Hs as (s & Hst & ->).
  assert (E : c * 2 ^ t = (c * 2 ^ (t - s)) * 2 ^ s).
  { rewrite <- Z.mul_assoc, <- Z.pow_add_r by lia. f_equal. f_equal. lia. }
  assert (Hp : 0 < 2 ^ s) by (apply Z.pow_pos_nonneg; lia).
  rewrite roundHalfEven_exact.
  - rewrite E, Z.div_mul by lia.
    rewrite <- Z.mul_assoc, <- Z.pow_add_r by lia. f_equal. f_equal. lia.
  - lia.
  - rewrite E. apply Z.mod_mul. lia.
Qed.

Lemma ofZ_add (a b : Z) :
  0 <= a -> 0 <= b -> a + b < 2 ^ 53 -> add (ofZ a) (ofZ b) = ofZ (a + b).
Proof.
  intros. unfold add, ofZ, one. rewrite <- Z.mul_add_distr_r.
  rewrite round_exact by lia. now rewrite Z.sub_0_r.
Qed.

Lemma ofZ_mul (a b : Z) :
  0 <= a -> 0 <= b -> a * b < 2 ^ 53 -> mul (ofZ a) (ofZ b) = ofZ (a * b).
Proof.
  intros Ha Hb Hab. unfold mul, ofZ.
  assert (E : a * one * (b * one) = (a * b) * 2 ^ (1074 + 1074)).
  { rewrite Z.pow_add_r by lia. fold one. generalize one. intros U. ring. }
  rewrite E, round_exact by lia.
  unfold one. f_equal.
Qed.

Lemma toZ_ofZ (n : Z) : toZ (ofZ n) = n.
Proof.
  unfold toZ, ofZ, one. rewrite Z.shiftr_div_pow2 by lia.
  apply Z.div_mul. apply Z.pow_nonzero; lia.
Qed.

Lemma toZ_div (a : number) : toZ a = a / one.
Proof. unfold toZ, one. apply Z.shiftr_div_pow2. lia. Qed.

Lemma one_split : one = 2 ^ 53 * 2 ^ 1021.
Proof. unfold one. rewrite <- Z.pow_add_r by lia. f_equal. Qed.

(** The arithmetic behind [randomDraw_bound]: a multiple of [X] below
    [2^53 * X] is at most [(2^53 - 1) * X]. *)
Lemma multiple_below (m X k : Z) :
  0 < X -> k = m * X -> k < 9007199254740992 * X -> k <= 9007199254740992 * X - X.
Proof.
  intros HX -> Hlt.
  assert (m < 9007199254740992) by (apply (Z.mul_lt_mono_pos_r X); assumption).
  nia.
Qed.

(** A draw is at most 1 - 2^-53. *)
Lemma randomDraw_bound (k : number) :
  isRandomDraw k = true -> 0 <= k <= one - 2 ^ 1021.
Proof.
  unfold isRandomDraw, isBinary64. rewrite !andb_true_iff.
  intros [[H0 Hr] Hlt].
  apply Z.leb_le in H0. apply Z.eqb_eq in Hr. apply Z.ltb_lt in Hlt.
  split; [exact H0|].
  assert (HX : 0 < 2 ^ 1021) by (apply Z.pow_pos_nonneg; clear; lia).
  assert (E1073 : 2 ^ 1073 = 4503599627370496 * 2 ^ 1021).
  { change 4503599627370496 with (2 ^ 52). rewrite <- Z.pow_add_r by (clear; lia). f_equal. }
  assert (E : one = 9007199254740992 * 2 ^ 1021) by exact one_split.
  destruct (Z.lt_ge_cases k (2 ^ 1073)) as [Hsmall | Hbig].
  - rewrite E. rewrite E1073 in Hsmall. clear - HX Hsmall.
    revert HX Hsmall. generalize (2 ^ 1021). intros X HX Hsmall. lia.
  - assert (Hl : Z.log2 k = 1073).
    { apply Z.log2_unique; [clear; lia|]. split; [exact Hbig|exact Hlt]. }
    unfold round in Hr. rewrite Hl in Hr.
    change (Z.max (1073 - 52) 0) with 1021 in Hr. rewrite Z.sub_0_r in Hr.
    rewrite E in Hlt |- *.
    apply (multiple_below (roundHalfEven k 1021)); [exact HX | now symmetry | exact Hlt].
Qed.

(** The arithmetic behind [floor_mul_random], with [U] for 1 and [X] for
    2^-53: the product [p] of a draw [k] and [D] is below [16 U], and a
    value [m * Y] within half a unit [S2 / 2] of it stays below [D U]. *)
Lemma product_below (U X D k p : Z) :
  0 < U -> 0 < X -> 9 <= D <= 16 -> 0 <= k <= U - X -> p = k * D * U ->
  0 <= p < 16 * (U * U).
Proof.
  intros HU HX HD Hk ->.
  assert (0 <= k * D < 16 * U) by nia.
  split; [apply Z.mul_nonneg_nonneg; lia|].
  rewrite Z.mul_assoc. apply Z.mul_lt_mono_pos_r; lia.
Qed.

Lemma rounded_product_below (U X D k p m Y S2 : Z) :
  0 < U -> 0 < X -> 9 <= D <= 16 -> 0 <= k <= U - X -> p = k * D * U ->
  0 <= m -> 0 < Y -> S2 = Y * U -> S2 <= 16 * X * U ->
  2 * (m * S2) <= 2 * p + S2 ->
  0 <= m * Y < D * U.
Proof.
  intros HU HX HD Hk Ep Hm HY ES Hle Hround.
  split; [nia|].
  assert (HkD : 0 <= k * D <= D * (U - X)) by nia.
  assert (Hp : p <= D * (U - X) * U)
    by (rewrite Ep; apply Z.mul_le_mono_nonneg_r; lia).
  assert (2 * (m * Y) * U < 2 * (D * U) * U) by nia.
  nia.
Qed.

(** The floor of a draw multiplied by [D] is one of 0, ..., [D] - 1. *)
Lemma floor_mul_random (k : number) (D : Z) :
  isRandomDraw k = true -> 9 <= D <= 16 ->
  exists j, floor (mul k (ofZ D)) = ofZ j /\ 0 <= j <= D - 1.
Proof.
  intros Hk HD. apply randomDraw_bound in Hk.
  assert (HU : 0 < one) by (apply Z.pow_pos_nonneg; clear; lia).
  assert (HX : 0 < 2 ^ 1021) by (apply Z.pow_pos_nonneg; clear; lia).
  assert (E2152 : 2 ^ 2152 = 16 * (one * one)).
  { unfold one. change 16 with (2 ^ 4). rewrite <- !Z.pow_add_r by (clear; lia). f_equal. }
  assert (E2099 : 2 ^ 2099 = 16 * 2 ^ 1021 * one).
  { unfold one. change 16 with (2 ^ 4). rewrite <- !Z.pow_add_r by (clear; lia). f_equal. }
  assert (Ep : k * ofZ D = k * D * one) by (unfold ofZ; generalize one; intros U; ring).
  destruct (product_below one (2 ^ 1021) D k (k * ofZ D) HU HX HD Hk Ep) as [Hp0 Hp].
  set (p := k * ofZ D) in *.
  set (s := Z.max (Z.log2 p - 52) 1074).
  assert (Hlog : Z.log2 p - 52 <= 2099).
  { destruct (Z.eq_dec p 0) as [E0 | Hne].
    - rewrite E0. change (Z.log2 0) with 0. clear. lia.
    - assert (Hlt : Z.log2 p < 2152).
      { apply Z.log2_lt_pow2; [clear - Hp0 Hne; lia|]. rewrite E2152. exact Hp. }
      clear - Hlt. lia. }
  assert (Hs : 1074 <= s <= 2099).
  { unfold s. split; [apply Z.le_max_r|]. apply Z.max_lub; [exact Hlog | clear; lia]. }
  assert (HR : 0 <= mul k (ofZ D) < D * one).
  { unfold mul. fold p. unfold round. fold s.
    destruct (roundHalfEven_bounds p s Hp0 ltac:(clear - Hs; lia)) as [Hm0 Hm].
    apply (rounded_product_below one (2 ^ 1021) D k p (roundHalfEven p s)
             (2 ^ (s - 1074)) (2 ^ s)); try assumption.
    - apply Z.pow_pos_nonneg; clear - Hs; lia.
    - unfold one. rewrite <- Z.pow_add_r by (clear - Hs; lia). f_equal. clear. lia.
    - rewrite <- E2099. apply Z.pow_le_mono_r; clear - Hs; lia. }
  exists (mul k (ofZ D) / one). split; [unfold floor; now rewrite toZ_div|].
  clear - HR HU HD. revert HR HU. generalize (mul k (ofZ D)) one. intros R U HR HU.
  split.
  - apply Z.div_pos; lia.
  - assert (R / U < D); [|lia].
    apply Z.div_lt_upper_bound; lia.
Qed.

Lemma loopStep_ofZ (random : nat -> number) (n : Z) (i : nat) :
  isRandomDraw (random (S i)) = true -> 0 <= n -> 10 * n + 9 < 2 ^ 53 ->
  exists j, loopStep random (ofZ n) i = ofZ (10 * n + j) /\ 0 <= j <= 9.
Proof.
  intros Hr Hn Hb. unfold loopStep.
  destruct (floor_mul_random _ 10 Hr ltac:(lia)) as (j & -> & Hj).
  exists j. split; [|lia].
  rewrite ofZ_mul by lia. rewrite ofZ_add by lia. f_equal. lia.
Qed.

Lemma loop_ofZ (random : nat -> number) (l : list nat) :
  (forall i, isRandomDraw (random i) = true) ->
  forall (e : Z) (n : Z),
    0 <= e -> e + Z.of_nat (List.length l) <= 12 ->
    10 ^ e <= n < 10 ^ (e + 1) ->
    exists n', fold_left (loopStep random) l (ofZ n) = ofZ n' /\
               10 ^ (e + Z.of_nat (List.length l)) <= n'
                 < 10 ^ (e + Z.of_nat (List.length l) + 1).
Proof.
  intros Hr. induction l as [|i l IH]; intros e n He Hlen Hn.
  - exists n. cbn [List.length fold_left Z.of_nat]. rewrite Z.add_0_r. auto.
  - cbn [fold_left]. cbn [List.length] in *. rewrite Nat2Z.inj_succ in *.
    assert (H10 : 0 < 10 ^ e) by (apply Z.pow_pos_nonneg; lia).
    assert (Hpow : 10 ^ (e + 1) = 10 * 10 ^ e) by (rewrite Z.pow_add_r by lia; lia).
    assert (Hpow2 : 10 ^ (e + 1 + 1) = 10 * 10 ^ (e + 1))
      by (rewrite (Z.pow_add_r 10 (e + 1) 1) by lia; lia).
    assert (Hmax : 10 ^ (e + 1 + 1) <= 10 ^ 13) by (apply Z.pow_le_mono_r; lia).
    destruct (loopStep_ofZ random n i (Hr (S i))) as (j & -> & Hj).
    + lia.
    + change (2 ^ 53) with 9007199254740992. change (10 ^ 13) with 10000000000000 in Hmax. lia.
    + destruct (IH (e + 1) (10 * n + j)) as (n' & E & Hn'); try lia.
      exists n'. split; [exact E|].
      replace (e + Z.succ (Z.of_nat (List.length l)))
        with (e + 1 + Z.of_nat (List.length l)) by lia.
      exact Hn'.
Qed.

End Binary64Facts.

(* ================================================================== *)
(** ** Facts about [Promise.all] and the callbacks *)
(* ================================================================== *)

Module NormalizerFacts.

Lemma outcome_bind_ret {A B : Type} (m : M A) (h : A -> B) :
  outcome (x <- m ;; ret (h x)) = mapCompletion h (outcome m).
Proof. destruct m as [calls [a | e]]; reflexivity. Qed.

Lemma filter_notNull (l : list ImageI.t) : filter notNull l = l.
Proof. induction l as [|x l IH]; cbn; [reflexivity | now rewrite IH]. Qed.

Lemma outcome_promiseAll_cons {A : Type} (p : M A) (rest : list (M A)) :
  outcome (promiseAll (p :: rest))
  = match outcome p, outcome (promiseAll rest) with
    | Returned a, Returned l => Returned (a :: l)
    | Thrown e, _ => Thrown e
    | Returned _, Thrown e => Thrown e
    end.
Proof.
  cbn [promiseAll]. destruct p as [calls1 r1].
  destruct (promiseAll rest) as [calls2 r2]. reflexivity.
Qed.

Lemma promiseAll_all_returned {A B : Type} (f : nat -> A -> M B) (l : list A) :
  forall k,
    (forall j x, nth_error l j = Some x -> exists r, outcome (f (k + j) x) = Returned r) ->
    exists out,
      outcome (promiseAll (mapFrom f k l)) = Returned out /\
      List.length out = List.length l /\
      forall j x, nth_error l j = Some x ->
        exists r, nth_error out j = Some r /\ outcome (f (k + j) x) = Returned r.
Proof.
  induction l as [|x l IH]; intros k H.
  - exists []. repeat split. intros [|j] y Hy; discriminate Hy.
  - destruct (H 0 x eq_refl) as [r Hr]. rewrite Nat.add_0_r in Hr.
    destruct (IH (S k)) as (out & Hout & Hlen & Hnth).
    { intros j y Hy. rewrite Nat.add_succ_comm. apply (H (S j) y Hy). }
    exists (r :: out). cbn [mapFrom]. rewrite outcome_promiseAll_cons, Hr, Hout.
    split; [reflexivity|]. split; [cbn; now rewrite Hlen|].
    intros [|j] y Hy.
    + injection Hy as <-. exists r. rewrite Nat.add_0_r. now split.
    + rewrite <- Nat.add_succ_comm. apply (Hnth j y Hy).
Qed.

Lemma promiseAll_some_thrown {A B : Type} (f : nat -> A -> M B) (l : list A) :
  forall k j x e,
    nth_error l j = Some x -> outcome (f (k + j) x) = Thrown e ->
    exists e', outcome (promiseAll (mapFrom f k l)) = Thrown e'.
Proof.
  induction l as [|y l IH]; intros k j x e Hx He.
  - destruct j; discriminate Hx.
  - cbn [mapFrom]. rewrite outcome_promiseAll_cons.
    destruct j as [|j].
    + injection Hx as ->. rewrite Nat.add_0_r in He. rewrite He. eauto.
    + rewrite <- Nat.add_succ_comm in He.
      destruct (IH (S k) j x e Hx He) as [e' ->].
      destruct (outcome (f k y)); eauto.
Qed.


Lemma nth_error_mapFrom {A B : Type} (f : nat -> A -> B) (l : list A) :
  forall k j, nth_error (mapFrom f k l) j = option_map (f (k + j)) (nth_error l j).
Proof.
  induction l as [|x l IH]; intros k [|j]; cbn [mapFrom nth_error option_map]; try reflexivity.
  - now rewrite Nat.add_0_r.
  - rewrite IH. now rewrite Nat.add_succ_comm.
Qed.

(** [setAt i a l] holds [a] at position [i] and the elements of [l] elsewhere. *)
Lemma nth_error_setAt {A : Type} (i j : nat) (a : A) (l : list A) :
  nth_error (setAt i a l) j
  = if Nat.eqb j i then option_map (fun _ => a) (nth_error l j) else nth_error l j.
Proof.
  unfold setAt. rewrite nth_error_mapFrom. cbn [Nat.add].
  destruct (Nat.eqb j i); destruct (nth_error l j); reflexivity.
Qed.

End NormalizerFacts.

Module CallbackFacts.
Import NormalizerFacts.

Section Callbacks.
Variable w : World.
Variables (aspectRatio : string) (width height : Z).
Variables (usedPrompt userID modelVersion mode : string).

Lemma uriCallback_filtered (i : nat) (image : ImagenModelResultI.t) (reason : string) :
  ImagenModelResultI.raiFilteredReason image = Some reason ->
  uriCallback w aspectRatio width height usedPrompt userID modelVersion mode i image
  = ret (WarningRecord reason).
Proof. intros H. unfold uriCallback. now rewrite H. Qed.

Lemma uriCallback_decomposed (i : nat) (image : ImagenModelResultI.t) (fileName : string) :
  ImagenModelResultI.raiFilteredReason image = None ->
  decomposeUri w i (orEmpty (ImagenModelResultI.gcsUri image)) = Returned (Some fileName) ->
  (exists url image',
     getSignedURL w i (orEmpty (ImagenModelResultI.gcsUri image)) = Returned (SignedUrlString url)
     /\ ImageI.src image' = url
     /\ outcome (uriCallback w aspectRatio width height usedPrompt userID modelVersion mode
                   i image)
        = Returned (ImageRecord image'))
  \/ (isSignedFailure (getSignedURL w i (orEmpty (ImagenModelResultI.gcsUri image))) = true
      /\ outcome (uriCallback w aspectRatio width height usedPrompt userID modelVersion mode
                    i image)
         = Returned (ErrorRecord securedAccessError)).
Proof.
  intros Hf Hd. unfold uriCallback. rewrite Hf.
  unfold await, bind, tryCatch, outcome. rewrite Hd.
  destruct (getSignedURL w i _) as [[url | err] | e]; cbn.
  - left. eexists _, _. split; [reflexivity|]. split; [|reflexivity]. reflexivity.
  - right. split; reflexivity.
  - right. split; reflexivity.
Qed.

Lemma uriCallback_not_decomposed (i : nat) (image : ImagenModelResultI.t) :
  ImagenModelResultI.raiFilteredReason image = None ->
  isDecomposeFailure (decomposeUri w i (orEmpty (ImagenModelResultI.gcsUri image))) = true ->
  exists e,
    outcome (uriCallback w aspectRatio width height usedPrompt userID modelVersion mode
               i image) = Thrown e
    /\ callsOf (uriCallback w aspectRatio width height usedPrompt userID modelVersion mode
                  i image)
               = [CallDecomposeUri (orEmpty (ImagenModelResultI.gcsUri image))].
Proof.
  intros Hf Hd. unfold uriCallback. rewrite Hf.
  unfold await, bind, tryCatch, outcome, callsOf.
  destruct (decomposeUri w i _) as [[fileName | ] | e]; [discriminate Hd | |]; cbn; eauto.
Qed.

Lemma base64Callback_filtered images bucketName folderName
    (i : nat) (image : ImagenModelResultI.t) (reason : string) :
  ImagenModelResultI.raiFilteredReason image = Some reason ->
  base64Callback w images bucketName folderName aspectRatio width height
    usedPrompt userID modelVersion mode i image
  = ret (WarningRecord reason).
Proof. intros H. unfold base64Callback. now rewrite H. Qed.

Lemma base64Callback_not_filtered images bucketName folderName
    (i : nat) (image : ImagenModelResultI.t) :
  ImagenModelResultI.raiFilteredReason image = None ->
  let base64Image := orEmpty (ImagenModelResultI.bytesBase64Encoded image) in
  let objectName := fullOjectName folderName images image in
  let uploaded := uploadBase64Image w i base64Image bucketName objectName in
  (exists result url image',
     uploaded = Returned result /\ success result = true
     /\ getSignedURL w i (orEmpty (fileUrl result)) = Returned (SignedUrlString url)
     /\ ImageI.src image' = url
     /\ outcome (base64Callback w images bucketName folderName aspectRatio width height
              usedPrompt userID modelVersion mode i image) = Returned (ImageRecord image'))
  \/ ((isUploadFailure uploaded = true
       \/ exists result, uploaded = Returned result
                         /\ isSignedFailure (getSignedURL w i (orEmpty (fileUrl result))) = true)
      /\ outcome (base64Callback w images bucketName folderName aspectRatio width height
              usedPrompt userID modelVersion mode i image)
         = Returned (ErrorRecord securedAccessError)).
Proof.
  intros Hf. cbv zeta. unfold base64Callback. rewrite Hf.
  unfold await, bind, tryCatch, outcome.
  destruct (uploadBase64Image w i _ _ _) as [result | e]; cbn.
  - destruct (success result) eqn:Hs; cbn.
    + destruct (getSignedURL w i (orEmpty (fileUrl result))) as [[url | err] | e] eqn:Hg; cbn.
      * left. exists result, url. eexists. repeat split; try reflexivity; assumption.
      * right. split; [|reflexivity]. right. exists result. rewrite Hg. now split.
      * right. split; [|reflexivity]. right. exists result. rewrite Hg. now split.
    + right. split; [|reflexivity]. left. unfold isUploadFailure. rewrite ?Hs. reflexivity.
  - right. split; [|reflexivity]. now left.
Qed.

End Callbacks.

End CallbackFacts.

Module BatchFacts.
Import NormalizerFacts CallbackFacts.

Lemma perItemRecords_intro (images : list ImagenModelResultI.t)
    (callback : nat -> ImagenModelResultI.t -> M ImageI.t) :
  (forall i image, nth_error images i = Some image ->
     exists r, outcome (callback i image) = Returned r /\
               match ImagenModelResultI.raiFilteredReason image with
               | Some reason => r = WarningRecord reason
               | None => (exists image', r = ImageRecord image')
                         \/ r = ErrorRecord securedAccessError
               end) ->
  perItemRecords images callback
    (results <- promiseAll (mapFrom callback 0 images) ;; ret (filter notNull results)).
Proof.
  intros H.
  destruct (promiseAll_all_returned callback images 0) as (out & Hout & Hlen & Hnth).
  { intros j x Hx. destruct (H j x Hx) as (r & Hr & _). eauto. }
  exists out. rewrite outcome_bind_ret, Hout. cbn [mapCompletion].
  rewrite filter_notNull. split; [reflexivity|]. split; [exact Hlen|].
  intros i image Hi. destruct (Hnth i image Hi) as (r & Hr & Ho).
  destruct (H i image Hi) as (r' & Ho' & Hshape).
  cbn [Nat.add] in Ho. rewrite Ho in Ho'. injection Ho' as <-.
  exists r. auto.
Qed.

Section Batch.
Variable w : World.
Variable images : list ImagenModelResultI.t.
Variables (targetGcsURI aspectRatio : string) (width height : Z).
Variables (usedPrompt userID modelVersion mode : string).

Lemma buildImageListFromURI_records :
  (forall i image, nth_error images i = Some image ->
     ImagenModelResultI.raiFilteredReason image = None ->
     isDecomposeFailure (decomposeUri w i (orEmpty (ImagenModelResultI.gcsUri image))) = false) ->
  perItemRecords images
    (uriCallback w aspectRatio width height usedPrompt userID modelVersion mode)
    (buildImageListFromURI w images aspectRatio width height usedPrompt userID modelVersion mode).
Proof.
  intros Hd. apply perItemRecords_intro. intros i image Hi.
  destruct (ImagenModelResultI.raiFilteredReason image) as [reason|] eqn:Hf.
  - exists (WarningRecord reason). split; [|reflexivity].
    now rewrite (uriCallback_filtered w _ _ _ _ _ _ _ i image reason Hf).
  - specialize (Hd i image Hi Hf).
    destruct (decomposeUri w i _) as [[fileName|]|e] eqn:Hdec; try discriminate Hd.
    destruct (uriCallback_decomposed w aspectRatio width height usedPrompt userID
                modelVersion mode i image fileName Hf Hdec)
      as [(url & image' & _ & _ & Ho) | (_ & Ho)].
    + exists (ImageRecord image'). split; [exact Ho|]. left. eauto.
    + exists (ErrorRecord securedAccessError). split; [exact Ho|]. now right.
Qed.

Lemma buildImageListFromBase64_records :
  perItemRecords images
    (base64Callback w images (bucketNameOf targetGcsURI) (folderNameOf w targetGcsURI)
       aspectRatio width height usedPrompt userID modelVersion mode)
    (buildImageListFromBase64 w images targetGcsURI aspectRatio width height
       usedPrompt userID modelVersion mode).
Proof.
  apply perItemRecords_intro. intros i image Hi.
  destruct (ImagenModelResultI.raiFilteredReason image) as [reason|] eqn:Hf.
  - exists (WarningRecord reason). split; [|reflexivity].
    now rewrite (base64Callback_filtered w _ _ _ _ _ _ _ _ _ _ i image reason Hf).
  - destruct (base64Callback_not_filtered w aspectRatio width height usedPrompt userID
                modelVersion mode images (bucketNameOf targetGcsURI)
                (folderNameOf w targetGcsURI) i image Hf)
      as [(result & url & image' & _ & _ & _ & _ & Ho) | (_ & Ho)].
    + exists (ImageRecord image'). split; [exact Ho|]. left. eauto.
    + exists (ErrorRecord securedAccessError). split; [exact Ho|]. now right.
Qed.

Lemma buildImageListFromURI_rejects (i : nat) (image : ImagenModelResultI.t) :
  nth_error images i = Some image ->
  ImagenModelResultI.raiFilteredReason image = None ->
  isDecomposeFailure (decomposeUri w i (orEmpty (ImagenModelResultI.gcsUri image))) = true ->
  exists e,
    outcome (buildImageListFromURI w images aspectRatio width height
               usedPrompt userID modelVersion mode) = Thrown e.
Proof.
  intros Hi Hf Hd.
  destruct (uriCallback_not_decomposed w aspectRatio width height usedPrompt userID
              modelVersion mode i image Hf Hd) as (e & He & _).
  destruct (promiseAll_some_thrown
              (uriCallback w aspectRatio width height usedPrompt userID modelVersion mode)
              images 0 i image e Hi He) as [e' He'].
  exists e'. unfold buildImageListFromURI. now rewrite outcome_bind_ret, He'.
Qed.

(** failure injection *)






End Batch.

End BatchFacts.

(* ================================================================== *)
(** ** Facts about the operations *)
(* ================================================================== *)

Module OperationFacts.

Lemma generateRequest_parameters (w : World) (formData : FormData) (fullPrompt : string) :
  parametersAspectRatio (generateRequest w formData fullPrompt)
  = throw (cannotRead "undefined" "aspectRatio").
Proof. reflexivity. Qed.

Lemma findM_throws {A : Type} (p : A -> M bool) (e : JsError) (l : list A) :
  (forall x, p x = throw e) ->
  findM p l = ret None \/ findM p l = throw e.
Proof.
  intros H. destruct l as [|x l]; [now left|]. right.
  cbn [findM]. now rewrite H.
Qed.

Lemma generateCatch_missing_property (key : string) :
  key = "aspectRatio" ->
  generateCatch (cannotRead "undefined" key) = ret (ErrorObject (Some unexpectedError)).
Proof. intros ->. vm_compute. reflexivity. Qed.





Lemma includes_append_l (p a s : string) :
  includes p s = true -> includes p (a ++ s) = true.
Proof.
  intros H. induction a as [|c a IH]; [exact H|].
  cbn [append includes]. rewrite IH. apply orb_true_r.
Qed.

Lemma editCatch_safety_phrase (message : string) :
  containsSafetyPhrase message = true ->
  editCatch (Error message) = ret (ErrorObject (Some message)).
Proof.
  intros H. unfold editCatch.
  destruct message as [|c message]; [discriminate H|].
  change (errorToString (Error (String c message))) with ("Error: " ++ String c message).
  assert (Hinc : includes peoplefacePhrase ("Error: " ++ String c message)
                 || includes filteredOutPhrase ("Error: " ++ String c message) = true).
  { unfold containsSafetyPhrase in H.
    apply orb_true_iff in H as [H | H]; apply orb_true_iff; [left | right];
      now apply includes_append_l. }
  rewrite Hinc. reflexivity.
Qed.

Lemma editCatch_calls (message : string) :
  callsOf (editCatch (Error message)) = []
  /\ forall images, outcome (editCatch (Error message)) <> Returned (ImageList images).
Proof.
  unfold editCatch.
  destruct (_ || _); cbn; split; try reflexivity; intros images H; discriminate H.
Qed.

Section Edit.
Variable w : World.
Variable formData : EditImageFormI.t.
Variables (gcsURI userID reason : string).
Variables (res : ResponseData) (prediction0 : ImagenModelResultI.t).
Variable rest : list ImagenModelResultI.t.

(** With a filtered first prediction, [editImage] is the two calls of steps
    1 and 3 followed by the [catch] block of step 3. *)
Lemma editImage_filtered_step3 :
  getClient w = Returned tt ->
  request w (editEndpoint w formData) (editRequest w formData (editStorageUri gcsURI userID))
  = Returned res ->
  predictions res = Some (prediction0 :: rest) ->
  ImagenModelResultI.raiFilteredReason prediction0 = Some reason ->
  editImage w formData (ContextData (mkAppContext (Some gcsURI) (Some userID)))
  = (let (calls, r) := editCatch (Error (cleanResult reason)) in
     (([CallGetClient;
        CallRequest (editEndpoint w formData)
                    (editRequest w formData (editStorageUri gcsURI userID))] ++ calls)%list,
      r)).
Proof.
  intros Hauth Hreq Hpred Hfilter.
  unfold editImage, authenticate. rewrite Hauth.
  cbn [await bind tryCatch ret negb checkedContext throw app].
  unfold editAttempt. rewrite Hreq. cbn [await bind]. rewrite Hpred.
  cbn [nth_error]. rewrite Hfilter. cbn [bind throw tryCatch app].
  destruct (editCatch (Error (cleanResult reason))) as [calls [result | e]];
    cbn [bind ret app]; rewrite ?app_nil_r; reflexivity.
Qed.

End Edit.

Section Upscale.
Variable w : World.
Variables (source : Source) (upscaleFactor gcsURI userID : string).
Variable base64Image : option string.

(** Once a client and the source image are there, [upscaleImage] settles as
    step 4 does. *)
Lemma upscaleImage_step4 :
  getClient w = Returned tt ->
  outcome (sourceImage w source) = Returned base64Image ->
  outcome (upscaleImage w source upscaleFactor
             (ContextData (mkAppContext (Some gcsURI) (Some userID))))
  = outcome (tryCatch
               (upscaleAttempt w (upscaleEndpoint w)
                  (upscaleRequest (encodedSource base64Image) upscaleFactor
                     (upscaleStorageUri gcsURI userID)))
               upscaleCatch).
Proof.
  intros Hauth Hsource.
  unfold upscaleImage, authenticate. rewrite Hauth.
  cbn [await bind tryCatch ret negb app].
  destruct (sourceImage w source) as [calls1 [b | e]]; [|discriminate Hsource].
  cbn in Hsource. injection Hsource as ->.
  cbn [bind checkedContext ret app].
  destruct (tryCatch _ upscaleCatch) as [calls2 r].
  reflexivity.
Qed.

End Upscale.

End OperationFacts.

(* ================================================================== *)
(** ** Facts about the string operations *)
(* ================================================================== *)

Module CharFacts.

Lemma replaceAll_char (c : ascii) (s : string) :
  replaceAll (String c "") "" s = filterChars (fun a => negb (Ascii.eqb c a)) s.
Proof.
  unfold replaceAll. induction s as [|a s IH]; [reflexivity|].
  cbn [replaceAllFrom startsWith String.length Nat.sub filterChars append].
  rewrite andb_true_r. destruct (Ascii.eqb c a); cbn [negb]; now rewrite IH.
Qed.

Lemma filterChars_filterChars (p q : ascii -> bool) (s : string) :
  filterChars p (filterChars q s) = filterChars (fun a => q a && p a) s.
Proof.
  induction s as [|a s IH]; [reflexivity|].
  cbn [filterChars]. destruct (q a); cbn [filterChars andb]; [|exact IH].
  destruct (p a); now rewrite IH.
Qed.

Lemma filterChars_ext (p q : ascii -> bool) (s : string) :
  (forall a, p a = q a) -> filterChars p s = filterChars q s.
Proof.
  intros H. induction s as [|a s IH]; [reflexivity|].
  cbn [filterChars]. now rewrite H, IH.
Qed.

Lemma filterChars_idem (p : ascii -> bool) (s : string) :
  filterChars p (filterChars p s) = filterChars p s.
Proof.
  rewrite filterChars_filterChars. apply filterChars_ext. intros a. now destruct (p a).
Qed.

Lemma allChars_filterChars (p : ascii -> bool) (s : string) :
  allChars p (filterChars p s) = true.
Proof.
  induction s as [|a s IH]; [reflexivity|].
  cbn [filterChars]. destruct (p a) eqn:E; [|exact IH].
  cbn [allChars]. now rewrite E, IH.
Qed.

Lemma cleanResult_filterChars (s : string) :
  cleanResult s = filterChars keptByCleanResult s.
Proof.
  unfold cleanResult. rewrite !replaceAll_char, !filterChars_filterChars.
  apply filterChars_ext. intros a. unfold keptByCleanResult.
  rewrite (Ascii.eqb_sym a LF), (Ascii.eqb_sym a "/"), (Ascii.eqb_sym a "*").
  destruct (Ascii.eqb LF a), (Ascii.eqb "/" a), (Ascii.eqb "*" a); reflexivity.
Qed.

End CharFacts.

Module ShapeFacts.
Import StringFacts SentenceFacts.

Lemma string_length_ind (P : string -> Prop) :
  (forall s, (forall t, (String.length t < String.length s)%nat -> P t) -> P s) ->
  forall s, P s.
Proof.
  intros H s.
  assert (G : forall n t, (String.length t < n)%nat -> P t).
  { induction n as [|n IH]; intros t Ht; [lia|].
    apply H. intros u Hu. apply IH. lia. }
  apply (G (S (String.length s))). lia.
Qed.

Lemma startsWith_append (p s : string) : startsWith p (p ++ s) = true.
Proof.
  induction p as [|a p IH]; [reflexivity|].
  cbn [append startsWith]. now rewrite Ascii.eqb_refl, IH.
Qed.

Lemma startsWith_prefix (p s : string) :
  startsWith p s = true -> s = p ++ dropChars (String.length p) s.
Proof.
  revert s. induction p as [|a p IH]; intros s H; [reflexivity|].
  destruct s as [|b s]; [discriminate H|].
  cbn [startsWith] in H. apply andb_true_iff in H as [Hab Hp].
  apply Ascii.eqb_eq in Hab as ->.
  cbn [append String.length dropChars]. f_equal. now apply IH.
Qed.

Lemma dropChars_append (a s : string) : dropChars (String.length a) (a ++ s) = s.
Proof. induction a as [|c a IH]; [reflexivity | exact IH]. Qed.

Lemma includes_cons (p : string) (c : ascii) (s : string) :
  includes p (String c s) = startsWith p (String c s) || includes p s.
Proof. reflexivity. Qed.

Lemma startsWith_spaces (c : ascii) (s : string) :
  startsWith "  " (String c s) = Ascii.eqb " " c && startsWith " " s.
Proof. destruct s; reflexivity. Qed.

Lemma includes_tail (p : string) (c : ascii) (s : string) :
  includes p (String c s) = false -> includes p s = false.
Proof. cbn [includes]. intros H. now apply orb_false_iff in H. Qed.

(** *** [replaceAll] past a match and past a character *)

Lemma replaceAllFrom_skip (p r a s : string) :
  replaceAllFrom p r (String.length a) (a ++ s) = replaceAllFrom p r 0 s.
Proof.
  induction a as [|c a IH]; [reflexivity|].
  cbn [String.length append replaceAllFrom]. exact IH.
Qed.

Lemma replaceAll_match (c : ascii) (p r s : string) :
  replaceAll (String c p) r (String c p ++ s) = r ++ replaceAll (String c p) r s.
Proof.
  unfold replaceAll. cbn [append]. cbn [replaceAllFrom].
  change (String c (p ++ s)) with (String c p ++ s). rewrite startsWith_append.
  cbn [String.length Nat.sub]. rewrite Nat.sub_0_r. now rewrite replaceAllFrom_skip.
Qed.

Lemma replaceAll_no_match (p r : string) (c : ascii) (s : string) :
  startsWith p (String c s) = false ->
  replaceAll p r (String c s) = String c (replaceAll p r s).
Proof. unfold replaceAll. cbn [replaceAllFrom]. now intros ->. Qed.

(** How [replaceAll] goes through a string: at a match or past a character. *)
Lemma replaceAll_cases (c : ascii) (p r s : string) :
  (exists t, s = String c p ++ t
             /\ replaceAll (String c p) r s = r ++ replaceAll (String c p) r t)
  \/ s = ""
  \/ (exists a t, s = String a t /\ startsWith (String c p) s = false
                  /\ replaceAll (String c p) r s = String a (replaceAll (String c p) r t)).
Proof.
  destruct (startsWith (String c p) s) eqn:E.
  - left. exists (dropChars (String.length (String c p)) s).
    apply startsWith_prefix in E. split; [exact E|].
    rewrite E at 1. apply replaceAll_match.
  - destruct s as [|a t]; [now right; left|].
    right; right. exists a, t. split; [reflexivity|]. split; [reflexivity|].
    now apply replaceAll_no_match.
Qed.

Lemma length_append (a b : string) :
  String.length (a ++ b) = (String.length a + String.length b)%nat.
Proof. induction a as [|c a IH]; [reflexivity|]. cbn. now rewrite IH. Qed.

(** *** The double commas *)

Lemma charAt0_replaceAll_commas (s : string) :
  charAt0 (replaceAll ", ," "," s) = charAt0 s.
Proof.
  destruct (replaceAll_cases "," " ," "," s)
    as [(t & -> & ->) | [-> | (a & t & -> & _ & ->)]]; reflexivity.
Qed.

Lemma startsWith_char_charAt0 (c : ascii) (s t : string) :
  charAt0 s = charAt0 t -> startsWith (String c "") s = startsWith (String c "") t.
Proof. destruct s, t; cbn; try discriminate; try reflexivity. now intros [= ->]. Qed.

Lemma startsWithWhiteSpace_charAt0 (s t : string) :
  charAt0 s = charAt0 t -> startsWithWhiteSpace s = startsWithWhiteSpace t.
Proof. destruct s, t; cbn; try discriminate; try reflexivity. now intros [= ->]. Qed.

Lemma includes_spaces_replaceAll_commas (s : string) :
  includes "  " s = false -> includes "  " (replaceAll ", ," "," s) = false.
Proof.
  induction s as [s IH] using string_length_ind. intros H.
  destruct (replaceAll_cases "," " ," "," s)
    as [(t & -> & ->) | [-> | (a & t & -> & _ & ->)]]; [| reflexivity |].
  - cbn [append includes startsWith]. cbn [Ascii.eqb Bool.eqb andb orb].
    apply IH; [cbn; lia|].
    cbn [append] in H. now do 3 apply includes_tail in H.
  - rewrite includes_cons in H |- *. apply orb_false_iff in H as [H1 H2].
    rewrite (IH t) by (cbn; lia || assumption). rewrite orb_false_r.
    rewrite startsWith_spaces in H1 |- *.
    rewrite (startsWith_char_charAt0 " " _ t (charAt0_replaceAll_commas t)). exact H1.
Qed.

Lemma endsWithWhiteSpace_cons (c : ascii) (s : string) :
  s <> "" -> endsWithWhiteSpace (String c s) = endsWithWhiteSpace s.
Proof. destruct s; [congruence | reflexivity]. Qed.

Lemma replaceAll_commas_empty (s : string) :
  replaceAll ", ," "," s = "" -> s = "".
Proof.
  intros H. pose proof (charAt0_replaceAll_commas s) as E. rewrite H in E.
  destruct s; [reflexivity | discriminate E].
Qed.

Lemma endsWithWhiteSpace_replaceAll_commas (s : string) :
  endsWithWhiteSpace s = false -> endsWithWhiteSpace (replaceAll ", ," "," s) = false.
Proof.
  induction s as [s IH] using string_length_ind. intros H.
  destruct (replaceAll_cases "," " ," "," s)
    as [(t & -> & ->) | [-> | (a & t & -> & _ & ->)]]; [| reflexivity |].
  - cbn [append]. destruct (replaceAll ", ," "," t) as [|b u] eqn:E; [reflexivity|].
    rewrite endsWithWhiteSpace_cons by discriminate. rewrite <- E.
    apply IH; [cbn; lia|].
    destruct t as [|d t]; [discriminate E|].
    exact H.
  - destruct t as [|d t]; [exact H|].
    rewrite endsWithWhiteSpace_cons in H by discriminate.
    rewrite endsWithWhiteSpace_cons.
    + apply IH; [cbn; lia | exact H].
    + intros E. apply replaceAll_commas_empty in E. discriminate E.
Qed.

Lemma length_replaceAll_commas (s : string) :
  (String.length (replaceAll ", ," "," s) <= String.length s)%nat.
Proof.
  induction s as [s IH] using string_length_ind.
  destruct (replaceAll_cases "," " ," "," s)
    as [(t & -> & ->) | [-> | (a & t & -> & _ & ->)]]; [| cbn; lia |].
  - cbn [append String.length]. specialize (IH t ltac:(cbn; lia)). lia.
  - cbn [String.length]. specialize (IH t ltac:(cbn; lia)). lia.
Qed.

(** *** The runs of spaces *)

Lemma startsWith_space_replaceMultipleSpaces (s : string) :
  startsWith " " (replaceMultipleSpaces s) = startsWith " " s.
Proof.
  induction s as [|c s IH]; [reflexivity|].
  cbn [replaceMultipleSpaces].
  destruct (Ascii.eqb_spec c space) as [-> | Hne]; cbn [andb]; [|reflexivity].
  destruct (startsWith " " s) eqn:E; [|reflexivity].
  rewrite IH. reflexivity.
Qed.

Lemma includes_spaces_replaceMultipleSpaces (s : string) :
  includes "  " (replaceMultipleSpaces s) = false.
Proof.
  induction s as [|c s IH]; [reflexivity|].
  cbn [replaceMultipleSpaces].
  destruct (Ascii.eqb c space && startsWith " " s) eqn:E; [exact IH|].
  rewrite includes_cons, IH, orb_false_r, startsWith_spaces.
  rewrite startsWith_space_replaceMultipleSpaces.
  rewrite (Ascii.eqb_sym " " c). exact E.
Qed.

Lemma length_replaceMultipleSpaces (s : string) :
  (String.length (replaceMultipleSpaces s) <= String.length s)%nat.
Proof.
  induction s as [|c s IH]; [reflexivity|].
  cbn [replaceMultipleSpaces]. destruct (_ && _); cbn [String.length]; lia.
Qed.

(** *** [trim] *)

Lemma includes_trimStart (p s : string) :
  includes p s = false -> includes p (trimStart s) = false.
Proof.
  induction s as [|c s IH]; [auto|].
  intros H. cbn [trimStart]. destruct (isWhiteSpace c); [|exact H].
  apply IH. now apply includes_tail in H.
Qed.

Lemma startsWith_space_trimEnd (s : string) :
  startsWith " " (trimEnd s) = true -> startsWith " " s = true.
Proof.
  destruct s as [|c s]; [auto|].
  cbn [trimEnd].
  destruct (trimEnd s); [destruct (isWhiteSpace c)|]; cbn [startsWith]; auto; discriminate.
Qed.

Lemma includes_spaces_trimEnd (s : string) :
  includes "  " s = false -> includes "  " (trimEnd s) = false.
Proof.
  induction s as [|c s IH]; [auto|].
  intros H. rewrite includes_cons in H. apply orb_false_iff in H as [H1 H2].
  specialize (IH H2). cbn [trimEnd].
  destruct (trimEnd s) as [|d t] eqn:E.
  - destruct (isWhiteSpace c); [reflexivity|]. cbn. now rewrite andb_false_r.
  - rewrite includes_cons, IH, orb_false_r.
    rewrite startsWith_spaces in H1 |- *.
    destruct (Ascii.eqb " " c); [|reflexivity]. cbn [andb] in *.
    destruct (startsWith " " (String d t)) eqn:Ed; [|reflexivity].
    rewrite <- E in Ed. apply startsWith_space_trimEnd in Ed. congruence.
Qed.

Lemma length_trimStart (s : string) : (String.length (trimStart s) <= String.length s)%nat.
Proof.
  induction s as [|c s IH]; [reflexivity|].
  cbn [trimStart]. destruct (isWhiteSpace c); cbn [String.length]; lia.
Qed.

Lemma length_trimEnd (s : string) : (String.length (trimEnd s) <= String.length s)%nat.
Proof.
  induction s as [|c s IH]; [reflexivity|].
  cbn [trimEnd]. destruct (trimEnd s); [destruct (isWhiteSpace c)|]; cbn [String.length] in *; lia.
Qed.

Lemma endsWithWhiteSpace_trimStart (s : string) :
  trimStart s <> "" -> endsWithWhiteSpace (trimStart s) = endsWithWhiteSpace s.
Proof.
  induction s as [|c s IH]; [reflexivity|].
  cbn [trimStart]. destruct (isWhiteSpace c) eqn:Ec; [|reflexivity].
  intros H. rewrite (IH H). symmetry. apply endsWithWhiteSpace_cons.
  intros ->. now apply H.
Qed.

Lemma trimEnd_cons (c : ascii) (s : string) :
  trimEnd (String c s)
  = match trimEnd s with
    | "" => if isWhiteSpace c then "" else String c ""
    | String d t => String c (String d t)
    end.
Proof. cbn [trimEnd]. now destruct (trimEnd s). Qed.

Lemma length_trimEnd_lt (s : string) :
  endsWithWhiteSpace s = true -> (String.length (trimEnd s) < String.length s)%nat.
Proof.
  induction s as [|c s IH]; [discriminate|].
  destruct s as [|d s].
  - cbn [endsWithWhiteSpace trimEnd]. intros ->. cbn [String.length]. lia.
  - rewrite endsWithWhiteSpace_cons by discriminate. intros H. specialize (IH H).
    rewrite trimEnd_cons. destruct (trimEnd (String d s)); [destruct (isWhiteSpace c)|];
      cbn [String.length] in *; lia.
Qed.

Lemma length_trim_lt (s : string) :
  endsWithWhiteSpace s = true -> (String.length (trim s) < String.length s)%nat.
Proof.
  intros H. unfold trim. destruct (trimStart s) as [|c t] eqn:E.
  - destruct s; [discriminate H | cbn; lia].
  - pose proof (length_trimStart s) as Hle. rewrite E in Hle.
    assert (Hend : endsWithWhiteSpace (String c t) = true).
    { rewrite <- E. rewrite endsWithWhiteSpace_trimStart; [exact H | now rewrite E]. }
    apply length_trimEnd_lt in Hend. lia.
Qed.

Lemma endsWithWhiteSpace_append_space (s : string) : endsWithWhiteSpace (s ++ " ") = true.
Proof.
  induction s as [|c s IH]; [reflexivity|].
  cbn [append]. rewrite endsWithWhiteSpace_cons; [exact IH|]. now destruct s.
Qed.

Lemma endsWithWhiteSpace_replaceMultipleSpaces (s : string) :
  endsWithWhiteSpace s = true -> endsWithWhiteSpace (replaceMultipleSpaces s) = true.
Proof.
  induction s as [|c s IH]; [discriminate|].
  destruct s as [|d s].
  { cbn [replaceMultipleSpaces startsWith]. now rewrite andb_false_r. }
  rewrite endsWithWhiteSpace_cons by discriminate. intros H. specialize (IH H).
  cbn [replaceMultipleSpaces] in *.
  destruct (Ascii.eqb c space && startsWith " " (String d s)); [exact IH|].
  rewrite endsWithWhiteSpace_cons; [exact IH|].
  intros E. rewrite E in IH. discriminate IH.
Qed.

Lemma length_mapChars (f : ascii -> ascii) (s : string) :
  String.length (mapChars f s) = String.length s.
Proof. induction s as [|c s IH]; [reflexivity|]. cbn. now rewrite IH. Qed.

Lemma length_capitalize (word : string) : String.length (capitalize word) = String.length word.
Proof. destruct word; reflexivity. Qed.

Lemma length_capitalizeWords (words : list string) (newSentence : bool) :
  String.length (capitalizeWords words newSentence) = String.length (joinWords words).
Proof.
  revert newSentence. induction words as [|word words IH]; intros newSentence; [reflexivity|].
  cbn [capitalizeWords joinWords]. rewrite !length_append, IH.
  destruct newSentence; [now rewrite length_capitalize | reflexivity].
Qed.

Lemma capitalizeWords_ends (words : list string) (newSentence : bool) :
  words <> [] -> endsWithWhiteSpace (capitalizeWords words newSentence) = true.
Proof.
  revert newSentence. induction words as [|word words IH]; intros newSentence H; [congruence|].
  cbn [capitalizeWords]. set (word1 := if newSentence then _ else _).
  destruct words as [|word' words].
  - cbn [capitalizeWords]. apply endsWithWhiteSpace_append_space.
  - specialize (IH (endsSentence word1) ltac:(discriminate)).
    set (rest := capitalizeWords _ _) in *.
    assert (Hrest : rest <> "") by (intros E; rewrite E in IH; discriminate IH).
    clearbody rest. clear - IH Hrest.
    induction word1 as [|c u IHu].
    + cbn [append]. rewrite endsWithWhiteSpace_cons; assumption.
    + cbn [append]. rewrite endsWithWhiteSpace_cons; [exact IHu|]. now destruct u.
Qed.

Lemma split_not_nil (sep s : string) : split sep s <> [].
Proof. unfold split. destruct (splitFrom sep 0 s). discriminate. Qed.

(** [normalizeSentence] returns at most as many characters as it is given. *)
Lemma normalizeSentence_length (s : string) :
  (String.length (normalizeSentence s) <= String.length s)%nat.
Proof.
  unfold normalizeSentence. rewrite capitalizeStep_fold. cbn [append].
  set (words := split " " (toLowerCase s)).
  assert (Hjoin : String.length (capitalizeWords words true) = S (String.length s)).
  { rewrite length_capitalizeWords. unfold words. rewrite joinWords_split, length_append.
    unfold toLowerCase. rewrite length_mapChars. cbn. lia. }
  assert (Hend : endsWithWhiteSpace (capitalizeWords words true) = true)
    by (apply capitalizeWords_ends, split_not_nil).
  apply endsWithWhiteSpace_replaceMultipleSpaces, length_trim_lt in Hend.
  pose proof (length_replaceMultipleSpaces (capitalizeWords words true)).
  pose proof (length_replaceAll_commas
                (trim (replaceMultipleSpaces (capitalizeWords words true)))).
  lia.
Qed.

(** The shape of what [normalizeSentence] returns. *)
Lemma normalizeSentence_shape (s : string) :
  startsWithWhiteSpace (normalizeSentence s) = false
  /\ endsWithWhiteSpace (normalizeSentence s) = false
  /\ includes "  " (normalizeSentence s) = false.
Proof.
  unfold normalizeSentence.
  set (t := replaceMultipleSpaces _).
  split; [|split].
  - rewrite (startsWithWhiteSpace_charAt0 _ _ (charAt0_replaceAll_commas _)).
    apply startsWithWhiteSpace_trimEnd, startsWithWhiteSpace_trimStart.
  - apply endsWithWhiteSpace_replaceAll_commas, endsWithWhiteSpace_trimEnd.
  - apply includes_spaces_replaceAll_commas, includes_spaces_trimEnd, includes_trimStart.
    apply includes_spaces_replaceMultipleSpaces.
Qed.

(** *** The first character *)

Lemma isWhiteSpace_toUpperChar (c : ascii) : isWhiteSpace (toUpperChar c) = isWhiteSpace c.
Proof. by_cases_on c. Qed.

Lemma charAt0_split_space (c : ascii) (s : string) :
  Ascii.eqb " " c = false ->
  exists word words, split " " (String c s) = String c word :: words.
Proof.
  intros Hc. unfold split. rewrite splitFrom_space, Hc.
  destruct (splitFrom " " 0 s) as [word words]. now exists word, words.
Qed.

Lemma not_space (c : ascii) : isWhiteSpace c = false -> Ascii.eqb " " c = false.
Proof.
  intros H. destruct (Ascii.eqb_spec " " c) as [<- | Hne]; [discriminate H | reflexivity].
Qed.

(** The first character of a sentence that does not start with white space
    is capitalized and stays first. *)
Lemma normalizeSentence_first (c : ascii) (s : string) :
  isWhiteSpace c = false ->
  charAt0 (normalizeSentence (String c s)) = String (toUpperChar (toLowerChar c)) "".
Proof.
  intros Hc. unfold normalizeSentence.
  rewrite charAt0_replaceAll_commas, toLowerCase_cons.
  assert (Hlow : isWhiteSpace (toLowerChar c) = false)
    by now rewrite isWhiteSpace_toLowerChar.
  destruct (charAt0_split_space (toLowerChar c) (toLowerCase s) (not_space _ Hlow))
    as (word & words & ->).
  rewrite capitalizeStep_fold.
  change ("" ++ capitalizeWords (String (toLowerChar c) word :: words) true)
    with (String (toUpperChar (toLowerChar c))
            (word ++ " " ++ capitalizeWords words
                              (endsSentence (capitalize (String (toLowerChar c) word))))).
  set (u := toUpperChar (toLowerChar c)).
  assert (Hu : isWhiteSpace u = false) by (unfold u; now rewrite isWhiteSpace_toUpperChar).
  set (x := word ++ _). clearbody x.
  cbn [replaceMultipleSpaces]. rewrite (Ascii.eqb_sym u space).
  unfold space. rewrite (not_space u Hu). cbn [andb].
  unfold trim. cbn [trimStart]. rewrite Hu. rewrite trimEnd_cons.
  destruct (trimEnd (replaceMultipleSpaces x)); [rewrite Hu|]; reflexivity.
Qed.

(** *** The article of [generatePrompt] *)

Lemma allChars_append (p : ascii -> bool) (a b : string) :
  allChars p (a ++ b) = allChars p a && allChars p b.
Proof.
  induction a as [|c a IH]; [reflexivity|].
  cbn [append allChars]. now rewrite IH, andb_assoc.
Qed.

Lemma allChars_isWhiteSpace_toLowerCase (s : string) :
  allChars isWhiteSpace (toLowerCase s) = allChars isWhiteSpace s.
Proof.
  induction s as [|c s IH]; [reflexivity|].
  rewrite toLowerCase_cons. cbn [allChars]. now rewrite isWhiteSpace_toLowerChar, IH.
Qed.

Lemma allChars_isWhiteSpace_replaceMultipleSpaces (s : string) :
  allChars isWhiteSpace (replaceMultipleSpaces s) = allChars isWhiteSpace s.
Proof.
  induction s as [|c s IH]; [reflexivity|].
  cbn [replaceMultipleSpaces allChars].
  destruct (Ascii.eqb_spec c space) as [-> | Hne]; cbn [andb].
  - destruct (startsWith " " s); cbn [allChars]; now rewrite IH.
  - cbn [allChars]. now rewrite IH.
Qed.

Lemma trimEnd_empty (s : string) : trimEnd s = "" -> allChars isWhiteSpace s = true.
Proof.
  induction s as [|c s IH]; [reflexivity|].
  rewrite trimEnd_cons. destruct (trimEnd s); [|discriminate].
  destruct (isWhiteSpace c) eqn:Ec; [|discriminate].
  intros _. cbn [allChars]. now rewrite Ec, IH.
Qed.

Lemma charAt0_trimEnd (s : string) : trimEnd s <> "" -> charAt0 (trimEnd s) = charAt0 s.
Proof.
  destruct s as [|c s]; [reflexivity|].
  rewrite trimEnd_cons.
  destruct (trimEnd s); [destruct (isWhiteSpace c)|]; intros H; cbn [charAt0]; congruence.
Qed.

Lemma split_article (s : string) : split " " ("a " ++ s) = "a" :: split " " s.
Proof.
  unfold split. cbn [append]. rewrite !splitFrom_space.
  cbn [Ascii.eqb Bool.eqb]. destruct (splitFrom " " 0 s). reflexivity.
Qed.

(** A sentence that opens with the article "A" followed by something to
    read still does so once normalized. *)
Lemma normalizeSentence_article (s : string) :
  hasVisibleChar s = true -> startsWith "A " (normalizeSentence ("A " ++ s)) = true.
Proof.
  intros Hs. unfold normalizeSentence.
  rewrite toLowerCase_append. change (toLowerCase "A ") with "a ".
  rewrite split_article, capitalizeStep_fold.
  set (words := split " " (toLowerCase s)).
  change ("" ++ capitalizeWords ("a" :: words) true)
    with (String "A" (String " " (capitalizeWords words false))).
  set (z := capitalizeWords words false).
  assert (Hz : allChars isWhiteSpace z = false).
  { rewrite <- allChars_isWhiteSpace_toLowerCase. unfold z, words.
    rewrite toLowerCase_capitalizeWords, joinWords_split.
    rewrite allChars_isWhiteSpace_toLowerCase, allChars_append.
    rewrite allChars_isWhiteSpace_toLowerCase.
    unfold hasVisibleChar in Hs. apply negb_true_iff in Hs. now rewrite Hs. }
  change (replaceMultipleSpaces (String "A" (String " " z)))
    with (String "A" (replaceMultipleSpaces (String " " z))).
  set (v := replaceMultipleSpaces (String " " z)).
  assert (Hv1 : startsWith " " v = true)
    by (unfold v; now rewrite startsWith_space_replaceMultipleSpaces).
  assert (Hv2 : allChars isWhiteSpace v = false)
    by (unfold v; now rewrite allChars_isWhiteSpace_replaceMultipleSpaces).
  clearbody v. unfold trim. cbn [trimStart]. change (isWhiteSpace "A") with false. cbv iota.
  rewrite trimEnd_cons.
  destruct (trimEnd v) as [|d t] eqn:E.
  { apply trimEnd_empty in E. congruence. }
  assert (Hd : charAt0 (String d t) = charAt0 v)
    by (rewrite <- E; apply charAt0_trimEnd; now rewrite E).
  destruct v as [|d' v']; [discriminate Hv1|].
  cbn in Hd. injection Hd as ->.
  cbn [startsWith] in Hv1. apply andb_true_iff in Hv1 as [Hd _].
  apply Ascii.eqb_eq in Hd as <-.
  rewrite !replaceAll_no_match by reflexivity. reflexivity.
Qed.

Lemma hasVisibleChar_of (a b : string) : hasVisibleChar (a ++ " of " ++ b) = true.
Proof.
  unfold hasVisibleChar. rewrite allChars_append.
  change (allChars isWhiteSpace (" of " ++ b)) with false. now rewrite andb_false_r.
Qed.

Lemma generatePrompt_article (fullPromptFields : list string) (formData : FormData) :
  exists s, hasVisibleChar s = true
            /\ generatePrompt fullPromptFields formData = normalizeSentence ("A " ++ s).
Proof.
  unfold generatePrompt.
  set (parameters := fold_left _ fullPromptFields "").
  set (modifiers := if useCaseIs formData "Astronomical, landscape (wide-angle)" then _ else _).
  clearbody parameters modifiers.
  set (styles := templ (formGet formData "secondary_style") ++ " "
                   ++ templ (formGet formData "style")).
  set (prompt := templ (formGet formData "prompt")).
  destruct (negb (String.eqb parameters "")).
  - exists (styles ++ " of " ++ prompt ++ ", " ++ parameters ++ modifiers).
    split; [apply hasVisibleChar_of|]. unfold styles. now rewrite ?append_assoc.
  - exists (styles ++ " of " ++ prompt ++ modifiers).
    split; [apply hasVisibleChar_of|]. unfold styles. now rewrite ?append_assoc.
Qed.

End ShapeFacts.

(* ================================================================== *)
(** ** Facts about the digits of the folder id *)
(* ================================================================== *)

Module FolderIdFacts.
Import Binary64 Binary64Facts.
Local Open Scope Z_scope.

Lemma drawnDigit_first (random : nat -> number) :
  isRandomDraw (random 0%nat) = true ->
  floor (mul (random 0%nat) (ofZ 9)) = ofZ (drawnDigit random 0 - 1)
  /\ 1 <= drawnDigit random 0 <= 9.
Proof.
  intros Hr. destruct (floor_mul_random _ 9 Hr ltac:(lia)) as (j & E & Hj).
  unfold drawnDigit. rewrite E, toZ_ofZ. split; [f_equal; lia | lia].
Qed.

Lemma drawnDigit_next (random : nat -> number) (i : nat) :
  isRandomDraw (random (S i)) = true ->
  floor (mul (random (S i)) (ofZ 10)) = ofZ (drawnDigit random (S i))
  /\ 0 <= drawnDigit random (S i) <= 9.
Proof.
  intros Hr. destruct (floor_mul_random _ 10 Hr ltac:(lia)) as (j & E & Hj).
  unfold drawnDigit. rewrite E, toZ_ofZ. now split.
Qed.

Lemma loopStep_digit (random : nat -> number) (n : Z) (i : nat) :
  isRandomDraw (random (S i)) = true -> 0 <= n -> 10 * n + 9 < 2 ^ 53 ->
  loopStep random (ofZ n) i = ofZ (10 * n + drawnDigit random (S i)).
Proof.
  intros Hr Hn Hb. unfold loopStep.
  destruct (drawnDigit_next random i Hr) as [-> Hd].
  rewrite ofZ_mul by lia. rewrite ofZ_add by lia. f_equal. lia.
Qed.

Lemma loop_digits (random : nat -> number) (l : list nat) :
  (forall i, isRandomDraw (random i) = true) ->
  forall (e : Z) (n : Z),
    0 <= e -> e + Z.of_nat (List.length l) <= 12 ->
    0 <= n < 10 ^ (e + 1) ->
    fold_left (loopStep random) l (ofZ n)
    = ofZ (fold_left (fun m i => 10 * m + drawnDigit random (S i)) l n).
Proof.
  intros Hr. induction l as [|i l IH]; intros e n He Hlen Hn; [reflexivity|].
  cbn [fold_left]. cbn [List.length] in Hlen. rewrite Nat2Z.inj_succ in Hlen.
  assert (H10 : 0 < 10 ^ e) by (apply Z.pow_pos_nonneg; lia).
  assert (Hpow : 10 ^ (e + 1) = 10 * 10 ^ e) by (rewrite Z.pow_add_r by lia; lia).
  assert (Hpow2 : 10 ^ (e + 1 + 1) = 10 * 10 ^ (e + 1))
    by (rewrite (Z.pow_add_r 10 (e + 1) 1) by lia; lia).
  assert (Hmax : 10 ^ (e + 1 + 1) <= 10 ^ 13) by (apply Z.pow_le_mono_r; lia).
  destruct (drawnDigit_next random i (Hr (S i))) as [_ Hd].
  rewrite loopStep_digit.
  - apply (IH (e + 1)); lia.
  - apply Hr.
  - lia.
  - change (2 ^ 53) with 9007199254740992. change (10 ^ 13) with 10000000000000 in Hmax. lia.
Qed.

Lemma generateUniqueFolderId_unfold (random : nat -> number) :
  generateUniqueFolderId random
  = fold_left
      (fun number i =>
         add (mul number (ofZ 10)) (floor (mul (random (S i)) (ofZ 10))))
      (seq 0 12)
      (add (floor (mul (random 0%nat) (ofZ 9))) (ofZ 1)).
Proof. reflexivity. Qed.

Lemma fold_left_loopStep (random : nat -> number) (l : list nat) (number : number) :
  fold_left
    (fun number i => add (mul number (ofZ 10)) (floor (mul (random (S i)) (ofZ 10))))
    l number
  = fold_left (loopStep random) l number.
Proof. reflexivity. Qed.

Lemma generateUniqueFolderId_loop (random : nat -> number) :
  generateUniqueFolderId random
  = fold_left (loopStep random) (seq 0 12)
      (add (floor (mul (random 0%nat) (ofZ 9))) (ofZ 1)).
Proof. rewrite <- fold_left_loopStep. apply generateUniqueFolderId_unfold. Qed.

Lemma fold_left_map_digits (f : nat -> Z) (l : list nat) (n : Z) :
  fold_left (fun m d => 10 * m + d) (map f l) n = fold_left (fun m i => 10 * m + f i) l n.
Proof. revert n. induction l as [|i l IH]; intros n; [reflexivity | apply IH]. Qed.

Lemma decimalValue_cons (d : Z) (l : list Z) :
  decimalValue (d :: l) = fold_left (fun m x => 10 * m + x) l d.
Proof. reflexivity. Qed.

Lemma decimalValue_digits (digit : nat -> Z) :
  fold_left (fun m i => 10 * m + digit (S i)) (seq 0 12) (digit 0%nat)
  = decimalValue (map digit (seq 0 13)).
Proof.
  change (seq 0 13) with (0%nat :: seq 1 12).
  rewrite map_cons, decimalValue_cons, <- seq_shift, map_map.
  symmetry. apply (fold_left_map_digits (fun i => digit (S i))).
Qed.

Lemma generateUniqueFolderId_digits (random : nat -> number) :
  (forall i, isRandomDraw (random i) = true) ->
  generateUniqueFolderId random = ofZ (decimalValue (map (drawnDigit random) (seq 0 13))).
Proof.
  intros Hr. rewrite generateUniqueFolderId_loop.
  destruct (drawnDigit_first random (Hr 0%nat)) as [-> Hd].
  rewrite ofZ_add by (change (2 ^ 53) with 9007199254740992; lia).
  replace (drawnDigit random 0 - 1 + 1) with (drawnDigit random 0) by lia.
  rewrite (loop_digits random (seq 0 12) Hr 0 (drawnDigit random 0)).
  - now rewrite decimalValue_digits.
  - lia.
  - rewrite length_seq. lia.
  - change (10 ^ (0 + 1)) with 10. lia.
Qed.

End FolderIdFacts.

(* ================================================================== *)
(** ** Facts about [split], [replace] and the names built from them *)
(* ================================================================== *)

Module NameFacts.
Import StringFacts SentenceFacts CharFacts ShapeFacts.

Lemma startsWith_cons_cons (a b : ascii) (p s : string) :
  startsWith (String a p) (String b s) = Ascii.eqb a b && startsWith p s.
Proof. reflexivity. Qed.

Lemma startsWith_other_char (a b : ascii) (p s : string) :
  Ascii.eqb a b = false -> startsWith (String a p) (String b s) = false.
Proof. intros H. now rewrite startsWith_cons_cons, H. Qed.

(** *** [replace] *)

Lemma replace_unfold (p r s : string) :
  replace p r s
  = if startsWith p s then r ++ dropChars (String.length p) s
    else match s with
         | "" => ""
         | String c s' => String c (replace p r s')
         end.
Proof. destruct s; reflexivity. Qed.

Lemma replace_prefix (p r s : string) : replace p r (p ++ s) = r ++ s.
Proof. now rewrite replace_unfold, startsWith_append, dropChars_append. Qed.

Lemma remove_prefix (p s : string) : replace p "" (p ++ s) = s.
Proof. apply replace_prefix. Qed.

Lemma replace_absent (p r s : string) : includes p s = false -> replace p r s = s.
Proof.
  induction s as [|c s IH]; intros H.
  - destruct p; [discriminate H | reflexivity].
  - rewrite includes_cons in H. apply orb_false_iff in H as [H1 H2].
    rewrite replace_unfold, H1. f_equal. now apply IH.
Qed.

Lemma replace_other_char (a c : ascii) (p r s : string) :
  Ascii.eqb a c = false ->
  replace (String a p) r (String c s) = String c (replace (String a p) r s).
Proof. intros H. now rewrite replace_unfold, startsWith_other_char. Qed.

(** [replace] goes past the characters that are not the first of its
    pattern. *)
Lemma replace_other_chars (a : ascii) (p r x s : string) :
  noChar a x = true ->
  replace (String a p) r (x ++ s) = x ++ replace (String a p) r s.
Proof.
  induction x as [|c x IH]; intros H; [reflexivity|].
  cbn [noChar allChars] in H. apply andb_true_iff in H as [Hc Hx].
  apply negb_true_iff in Hc. rewrite Ascii.eqb_sym in Hc.
  cbn [append]. rewrite replace_other_char by exact Hc. f_equal. now apply IH.
Qed.

(** *** [split] *)

Lemma splitFrom_skip (sep a s : string) :
  splitFrom sep (String.length a) (a ++ s) = splitFrom sep 0 s.
Proof. induction a as [|c a IH]; [reflexivity | exact IH]. Qed.

Lemma split_match (c : ascii) (p s : string) :
  split (String c p) (String c p ++ s) = "" :: split (String c p) s.
Proof.
  unfold split. cbn [append]. cbn [splitFrom].
  change (String c (p ++ s)) with (String c p ++ s). rewrite startsWith_append.
  cbn [String.length Nat.sub]. rewrite Nat.sub_0_r, splitFrom_skip.
  now destruct (splitFrom (String c p) 0 s).
Qed.

Lemma split_no_match (sep : string) (c : ascii) (s : string) :
  startsWith sep (String c s) = false ->
  split sep (String c s)
  = match split sep s with
    | w :: ws => String c w :: ws
    | [] => []
    end.
Proof.
  intros H. unfold split. cbn [splitFrom]. rewrite H.
  now destruct (splitFrom sep 0 s).
Qed.

Lemma split_absent (sep s : string) : includes sep s = false -> split sep s = [s].
Proof.
  induction s as [|c s IH]; intros H; [reflexivity|].
  rewrite includes_cons in H. apply orb_false_iff in H as [H1 H2].
  rewrite split_no_match by exact H1. now rewrite IH.
Qed.

(** The piece before the first separator, when the characters before it
    are not the first of the separator. *)
Lemma split_other_chars (a : ascii) (p x s : string) :
  noChar a x = true ->
  split (String a p) (x ++ String a p ++ s) = x :: split (String a p) s.
Proof.
  induction x as [|c x IH]; intros H.
  - cbn [append]. change (String a (p ++ s)) with (String a p ++ s). apply split_match.
  - cbn [noChar allChars] in H. apply andb_true_iff in H as [Hc Hx].
    apply negb_true_iff in Hc. rewrite Ascii.eqb_sym in Hc.
    change (String c x ++ String a p ++ s) with (String c (x ++ String a p ++ s)).
    rewrite split_no_match by (now apply startsWith_other_char).
    now rewrite (IH Hx).
Qed.

(** *** The bucket and the folder of a target *)

Lemma noChar_cons (a c : ascii) (s : string) :
  noChar a (String c s) = negb (Ascii.eqb c a) && noChar a s.
Proof. reflexivity. Qed.

(** No occurrence of [bucket ++ "/"] starts in the scheme of the target. *)
Lemma split_scheme (bucket s : string) :
  bucket <> "" -> noChar "/" bucket = true -> noChar ":" bucket = true ->
  split (bucket ++ "/") ("gs://" ++ bucket ++ "/" ++ s) = "gs://" :: split (bucket ++ "/") s.
Proof.
  intros Hne Hslash Hcolon.
  destruct bucket as [|c b]; [congruence|].
  rewrite noChar_cons in Hslash, Hcolon.
  apply andb_true_iff in Hslash as [Hc1 Hslash], Hcolon as [Hc2 Hcolon].
  apply negb_true_iff in Hc1, Hc2.
  assert (H0 : forall t, startsWith (String c b ++ "/") (String "g" (String "s" (String ":" t)))
                         = false).
  { intros t. cbn [append]. rewrite startsWith_cons_cons.
    destruct b as [|c' b].
    - cbn [append]. rewrite startsWith_cons_cons.
      change (Ascii.eqb "/" "s") with false. apply andb_false_r.
    - cbn [append]. rewrite startsWith_cons_cons.
      rewrite noChar_cons in Hcolon. apply andb_true_iff in Hcolon as [Hc3 Hcolon].
      apply negb_true_iff in Hc3.
      destruct b as [|c'' b].
      + cbn [append]. rewrite startsWith_cons_cons.
        change (Ascii.eqb "/" ":") with false. cbn [andb]. now rewrite !andb_false_r.
      + cbn [append]. rewrite startsWith_cons_cons.
        rewrite noChar_cons in Hcolon. apply andb_true_iff in Hcolon as [Hc4 _].
        apply negb_true_iff in Hc4. rewrite Hc4. cbn [andb]. now rewrite !andb_false_r. }
  assert (H1 : forall t, startsWith (String c b ++ "/") (String "s" (String ":" t)) = false).
  { intros t. cbn [append]. rewrite startsWith_cons_cons.
    destruct b as [|c' b].
    - cbn [append]. rewrite startsWith_cons_cons.
      change (Ascii.eqb "/" ":") with false. apply andb_false_r.
    - cbn [append]. rewrite startsWith_cons_cons.
      rewrite noChar_cons in Hcolon. apply andb_true_iff in Hcolon as [Hc3 _].
      apply negb_true_iff in Hc3. rewrite Hc3. cbn [andb]. apply andb_false_r. }
  change ("gs://" ++ String c b ++ "/" ++ s)
    with (String "g" (String "s" (String ":" (String "/" (String "/" (String c b ++ "/" ++ s)))))).
  rewrite split_no_match by apply H0.
  rewrite split_no_match by apply H1.
  rewrite split_no_match by (now apply startsWith_other_char).
  rewrite split_no_match by (now apply startsWith_other_char).
  rewrite split_no_match by (now apply startsWith_other_char).
  replace (String c b ++ "/" ++ s) with ((String c b ++ "/") ++ s)
    by (now rewrite append_assoc).
  change (String c b ++ "/") with (String c (b ++ "/")).
  now rewrite split_match.
Qed.

Lemma bucketNameOf_target (bucket path : string) :
  noChar "/" bucket = true ->
  bucketNameOf ("gs://" ++ bucket ++ "/" ++ path) = bucket.
Proof.
  intros H. unfold bucketNameOf.
  rewrite (replace_prefix "gs://" "" (bucket ++ "/" ++ path)).
  change ("" ++ bucket ++ "/" ++ path) with (bucket ++ "/" ++ path).
  now rewrite (split_other_chars "/" "" bucket path H).
Qed.

Lemma folderNameOf_target (w : World) (bucket path : string) :
  bucket <> "" -> noChar "/" bucket = true -> noChar ":" bucket = true ->
  includes (bucket ++ "/") path = false ->
  folderNameOf w ("gs://" ++ bucket ++ "/" ++ path)
  = path ++ "/" ++ Binary64.toString (generateUniqueFolderId (random w)).
Proof.
  intros Hne Hslash Hcolon Hpath. unfold folderNameOf.
  rewrite bucketNameOf_target by exact Hslash.
  rewrite split_scheme by assumption.
  now rewrite split_absent by exact Hpath.
Qed.

(** *** Decimal numerals *)

Lemma string_of_uint_digits (d : Decimal.uint) :
  allChars isDigitChar (NilEmpty.string_of_uint d) = true.
Proof. induction d; cbn [NilEmpty.string_of_uint allChars]; auto. Qed.

Lemma ZToString_digits (z : Z) : (0 <= z)%Z -> allChars isDigitChar (ZToString z) = true.
Proof.
  intros Hz. unfold ZToString. destruct z as [|p|p]; [reflexivity | | lia].
  cbn [Z.to_int NilZero.string_of_int]. unfold NilZero.string_of_uint.
  pose proof (string_of_uint_digits (Pos.to_uint p)) as H.
  destruct (Pos.to_uint p); exact H.
Qed.

(** *** [findIndex] *)

Lemma sameBytes_refl (image : ImagenModelResultI.t) : sameBytes image image = true.
Proof.
  unfold sameBytes. destruct (ImagenModelResultI.bytesBase64Encoded image); [|reflexivity].
  apply String.eqb_refl.
Qed.

(** [findIndex] returns the position of the first item that satisfies the
    test, when one does. *)
Lemma findIndexFrom_first {A : Type} (p : A -> bool) (l : list A) :
  forall (k : Z) (i : nat) (x : A),
    nth_error l i = Some x -> p x = true ->
    exists j y,
      (j <= i)%nat /\ nth_error l j = Some y /\ p y = true
      /\ (forall j' y', (j' < j)%nat -> nth_error l j' = Some y' -> p y' = false)
      /\ findIndexFrom p k l = (k + Z.of_nat j)%Z.
Proof.
  induction l as [|a l IH]; intros k i x Hi Hx; [destruct i; discriminate Hi|].
  cbn [findIndexFrom]. destruct (p a) eqn:Ea.
  - exists 0%nat, a. repeat split; try lia; try assumption.
  - destruct i as [|i]; [injection Hi as ->; congruence|].
    destruct (IH (k + 1)%Z i x Hi Hx) as (j & y & Hle & Hj & Hy & Hfirst & E).
    exists (S j), y. repeat split; try lia; try assumption.
    intros [|j'] y' Hj' Hy'; [injection Hy' as <-; exact Ea|].
    apply (Hfirst j' y'); [lia | exact Hy'].
Qed.

(** *** The key of an uploaded item *)

Lemma allChars_impl (p q : ascii -> bool) (s : string) :
  (forall c, p c = true -> q c = true) -> allChars p s = true -> allChars q s = true.
Proof.
  intros H. induction s as [|c s IH]; [reflexivity|].
  cbn [allChars]. intros Hs. apply andb_true_iff in Hs as [Hc Hs].
  now rewrite (H c Hc), IH.
Qed.

Lemma isAlphaNumChar_toLowerChar (c : ascii) :
  isAlphaNumChar (toLowerChar c) = isAlphaNumChar c.
Proof. by_cases_on c. Qed.

Lemma allChars_alphaNum_toLowerCase (s : string) :
  allChars isAlphaNumChar (toLowerCase s) = allChars isAlphaNumChar s.
Proof.
  induction s as [|c s IH]; [reflexivity|].
  rewrite toLowerCase_cons. cbn [allChars]. now rewrite isAlphaNumChar_toLowerChar, IH.
Qed.

Lemma alphaNum_noChar (a : ascii) (s : string) :
  isAlphaNumChar a = false -> allChars isAlphaNumChar s = true -> noChar a s = true.
Proof.
  intros Ha. apply allChars_impl. intros c Hc.
  destruct (Ascii.eqb_spec c a) as [-> | Hne]; [congruence | reflexivity].
Qed.

Lemma digits_noChar (a : ascii) (s : string) :
  isDigitChar a = false -> allChars isDigitChar s = true -> noChar a s = true.
Proof.
  intros Ha. apply allChars_impl. intros c Hc.
  destruct (Ascii.eqb_spec c a) as [-> | Hne]; [congruence | reflexivity].
Qed.

Lemma noChar_append (a : ascii) (x y : string) :
  noChar a (x ++ y) = noChar a x && noChar a y.
Proof. apply allChars_append. Qed.

Lemma startsWith_noChar (a : ascii) (p s : string) :
  startsWith p s = true -> noChar a s = true -> noChar a p = true.
Proof.
  revert s. induction p as [|c p IH]; intros s Hp Hs; [reflexivity|].
  destruct s as [|d s]; [discriminate Hp|].
  rewrite startsWith_cons_cons in Hp. apply andb_true_iff in Hp as [Hcd Hp].
  apply Ascii.eqb_eq in Hcd as ->.
  rewrite noChar_cons in Hs |- *. apply andb_true_iff in Hs as [Hd Hs].
  now rewrite Hd, (IH s Hp Hs).
Qed.

(** A pattern with a character that [s] does not hold does not occur in [s]. *)
Lemma includes_other_char (a : ascii) (p s : string) :
  noChar a p = false -> noChar a s = true -> includes p s = false.
Proof.
  intros Hp. induction s as [|c s IH]; intros Hs.
  - destruct p; [discriminate Hp | reflexivity].
  - rewrite includes_cons.
    destruct (startsWith p (String c s)) eqn:E.
    + apply (startsWith_noChar a) in E; [congruence | exact Hs].
    + rewrite noChar_cons in Hs. apply andb_true_iff in Hs as [_ Hs]. now apply IH.
Qed.

(** *** Data URLs *)

Lemma stripDataPrefix_data_url (mediaType payload : string) :
  noChar "," mediaType = true -> noChar "," payload = true ->
  stripDataPrefix ("data:" ++ mediaType ++ "," ++ payload) = JString payload.
Proof.
  intros Hm Hp. unfold stripDataPrefix. rewrite startsWith_append.
  rewrite <- (append_assoc "data:" mediaType ("," ++ payload)).
  rewrite (split_other_chars "," "" ("data:" ++ mediaType) payload)
    by (rewrite noChar_append, Hm; reflexivity).
  rewrite split_absent by (apply (includes_other_char ","); [reflexivity | exact Hp]).
  reflexivity.
Qed.

Lemma stripDataPrefix_no_comma (rest : string) :
  noChar "," rest = true -> stripDataPrefix ("data:" ++ rest) = JUndefined.
Proof.
  intros Hr. unfold stripDataPrefix. rewrite startsWith_append.
  rewrite split_absent; [reflexivity|].
  apply (includes_other_char ","); [reflexivity|].
  rewrite noChar_append, Hr. reflexivity.
Qed.

Lemma removeSlashes_append (x y : string) :
  replaceAll "/" "" (x ++ y) = replaceAll "/" "" x ++ replaceAll "/" "" y.
Proof.
  rewrite !replaceAll_char. induction x as [|c x IH]; [reflexivity|].
  cbn [append filterChars]. destruct (negb (Ascii.eqb "/" c)); cbn [append]; now rewrite IH.
Qed.

Lemma removeSlashes_clean (x : string) : noChar "/" x = true -> replaceAll "/" "" x = x.
Proof.
  rewrite replaceAll_char. induction x as [|c x IH]; [reflexivity|].
  rewrite noChar_cons. intros H. apply andb_true_iff in H as [Hc Hx].
  cbn [filterChars]. rewrite (Ascii.eqb_sym "/" c), Hc. now rewrite IH.
Qed.

Lemma replace_generated_in_edited (r : string) :
  replace "generated-images" "" ("edited-images" ++ r)
  = "edited-images" ++ replace "generated-images" "" r.
Proof. reflexivity. Qed.

(** The identifier derived from the object name
    [<userID>/<folder>/<id>/sample_<index>.<ext>]. *)
Lemma deriveID_uploaded (userID folder id index format : string) :
  noChar "/" userID = true ->
  folder = "generated-images" \/ folder = "edited-images" ->
  allChars isDigitChar id = true ->
  allChars isDigitChar index = true ->
  allChars isAlphaNumChar format = true ->
  deriveID ((userID ++ "/" ++ folder ++ "/" ++ id) ++ "/" ++ ("sample_" ++ index)
              ++ "." ++ toLowerCase format)
           userID format
  = id ++ index.
Proof.
  intros Huser Hfolder Hid Hindex Hformat.
  rewrite <- allChars_alphaNum_toLowerCase in Hformat.
  set (ext := toLowerCase format) in *.
  assert (Hfolder' : noChar "/" folder = true) by (destruct Hfolder as [-> | ->]; reflexivity).
  assert (Hrest : forall a, isAlphaNumChar a = false -> isDigitChar a = false ->
                            noChar a "sample_" = true -> noChar a "." = true ->
                            noChar a (id ++ "sample_" ++ index ++ "." ++ ext) = true).
  { intros a Ha Hd Hs Hdot. rewrite !noChar_append, Hs, Hdot.
    now rewrite !(digits_noChar a) by assumption; rewrite (alphaNum_noChar a) by assumption. }
  unfold deriveID. fold ext.
  assert (E1 : replaceAll "/" ""
                 ((userID ++ "/" ++ folder ++ "/" ++ id) ++ "/" ++ ("sample_" ++ index)
                    ++ "." ++ ext)
               = userID ++ folder ++ id ++ "sample_" ++ index ++ "." ++ ext).
  { rewrite !removeSlashes_append.
    change (replaceAll "/" "" "/") with "". change (replaceAll "/" "" "sample_") with "sample_".
    change (replaceAll "/" "" ".") with ".".
    rewrite !removeSlashes_clean;
      try assumption;
      try (apply digits_noChar; [reflexivity | assumption]);
      try (apply alphaNum_noChar; [reflexivity | assumption]).
    change ("" ++ id) with id. change ("" ++ "sample_" ++ index) with ("sample_" ++ index).
    now rewrite !append_assoc. }
  rewrite E1, remove_prefix.
  set (rest := id ++ "sample_" ++ index ++ "." ++ ext) in *.
  assert (E2 : replace "edited-images" "" (replace "generated-images" "" (folder ++ rest))
               = rest).
  { assert (Hdash : noChar "-" rest = true) by (apply Hrest; reflexivity).
    destruct Hfolder as [-> | ->].
    - rewrite remove_prefix.
      apply replace_absent, (includes_other_char "-"); [reflexivity | exact Hdash].
    - rewrite replace_generated_in_edited.
      rewrite (replace_absent "generated-images" "" rest)
        by (apply (includes_other_char "-"); [reflexivity | exact Hdash]).
      now rewrite remove_prefix. }
  rewrite E2. unfold rest.
  rewrite (replace_other_chars "s" "ample_" "" id)
    by (apply digits_noChar; [reflexivity | assumption]).
  rewrite (remove_prefix "sample_" (index ++ "." ++ ext)).
  change ("." ++ ext) with (String "." ext).
  rewrite (replace_other_chars "." ext "" id)
    by (apply digits_noChar; [reflexivity | assumption]).
  rewrite (replace_other_chars "." ext "" index)
    by (apply digits_noChar; [reflexivity | assumption]).
  rewrite <- (append_empty_r (String "." ext)) at 2.
  rewrite remove_prefix. now rewrite append_empty_r.
Qed.

End NameFacts.

(* ================================================================== *)
(** ** Facts about the calls of the normalizers *)
(* ================================================================== *)

Module ProtocolFacts.
Import NormalizerFacts CallbackFacts NameFacts.

Section Callbacks.
Variable w : World.
Variables (aspectRatio : string) (width height : Z).
Variables (usedPrompt userID modelVersion mode : string).

Lemma uriCallback_calls (i : nat) (image : ImagenModelResultI.t) :
  ImagenModelResultI.raiFilteredReason image = None ->
  let uri := orEmpty (ImagenModelResultI.gcsUri image) in
  callsOf (uriCallback w aspectRatio width height usedPrompt userID modelVersion mode i image)
  = CallDecomposeUri uri
      :: match decomposeUri w i uri with
         | Returned (Some _) => [CallGetSignedURL uri]
         | _ => []
         end.
Proof.
  intros Hf uri. unfold uriCallback. rewrite Hf. fold uri.
  unfold await, bind, tryCatch, callsOf.
  destruct (decomposeUri w i uri) as [[fileName|]|e]; cbn; try reflexivity.
  destruct (getSignedURL w i uri) as [[url|err]|e]; reflexivity.
Qed.

Lemma base64Callback_calls images bucketName folderName
    (i : nat) (image : ImagenModelResultI.t) :
  ImagenModelResultI.raiFilteredReason image = None ->
  let base64Image := orEmpty (ImagenModelResultI.bytesBase64Encoded image) in
  let objectName := fullOjectName folderName images image in
  callsOf (base64Callback w images bucketName folderName aspectRatio width height
             usedPrompt userID modelVersion mode i image)
  = CallUploadBase64Image base64Image bucketName objectName
      :: match uploadBase64Image w i base64Image bucketName objectName with
         | Returned result =>
             if success result then [CallGetSignedURL (orEmpty (fileUrl result))] else []
         | Thrown _ => []
         end.
Proof.
  intros Hf base64Image objectName. unfold base64Callback. rewrite Hf.
  fold base64Image. fold objectName.
  unfold await, bind, tryCatch, callsOf.
  destruct (uploadBase64Image w i base64Image bucketName objectName) as [result|e];
    [|reflexivity].
  destruct (success result); cbn; [|reflexivity].
  destruct (getSignedURL w i _) as [[url|err]|e]; reflexivity.
Qed.

(** The key of the record that the base64 callback returns. *)
Lemma base64Callback_key images bucketName folderName
    (i : nat) (image : ImagenModelResultI.t) (r : ImageI.fields) :
  outcome (base64Callback w images bucketName folderName aspectRatio width height
             usedPrompt userID modelVersion mode i image)
  = Returned (ImageRecord r) ->
  ImageI.key r = deriveID (fullOjectName folderName images image) userID (formatOf image).
Proof.
  unfold base64Callback.
  destruct (ImagenModelResultI.raiFilteredReason image); [discriminate|].
  unfold await, bind, tryCatch, outcome.
  destruct (uploadBase64Image w i _ _ _) as [result|e]; [|discriminate].
  destruct (success result); cbn; [|discriminate].
  destruct (getSignedURL w i _) as [[url|err]|e]; cbn; try discriminate.
  now intros [= <-].
Qed.

End Callbacks.

(** The calls of [Promise.all] are the calls of its promises. *)
Lemma callsOf_promiseAll {A : Type} (promises : list (M A)) :
  callsOf (promiseAll promises) = List.concat (map callsOf promises).
Proof.
  induction promises as [|p rest IH]; [reflexivity|].
  cbn [promiseAll map List.concat]. destruct p as [calls1 r1].
  rewrite <- IH. destruct (promiseAll rest) as [calls2 r2]. reflexivity.
Qed.

Lemma callsOf_bind_ret {A B : Type} (m : M A) (h : A -> B) :
  callsOf (x <- m ;; ret (h x)) = callsOf m.
Proof. destruct m as [calls [a | e]]; cbn; [apply app_nil_r | reflexivity]. Qed.

Lemma filter_concat_mapFrom {A : Type} (keep : Call -> bool)
    (callback : nat -> A -> M ImageI.t) (selected : A -> list Call) (l : list A) :
  forall k,
    (forall j x, nth_error l j = Some x ->
       filter keep (callsOf (callback (k + j)%nat x)) = selected x) ->
    filter keep (List.concat (map callsOf (mapFrom callback k l))) = List.concat (map selected l).
Proof.
  induction l as [|x l IH]; intros k H; [reflexivity|].
  cbn [mapFrom map List.concat]. rewrite filter_app.
  pose proof (H 0%nat x eq_refl) as H0. rewrite Nat.add_0_r in H0. rewrite H0.
  f_equal. apply IH. intros j y Hy. rewrite Nat.add_succ_comm. apply (H (S j) y Hy).
Qed.

Lemma concat_map_filtered {A B : Type} (keep : A -> bool) (f : A -> B) (l : list A) :
  List.concat (map (fun x => if keep x then [f x] else []) l) = map f (filter keep l).
Proof.
  induction l as [|x l IH]; [reflexivity|].
  cbn [map List.concat filter]. destruct (keep x); cbn [app map]; now rewrite IH.
Qed.

End ProtocolFacts.

(* ================================================================== *)
(** ** Facts about the steps of the operations *)
(* ================================================================== *)

Module StepFacts.
Import NormalizerFacts CallbackFacts BatchFacts OperationFacts.

Lemma checkedContext_incomplete (appContext : AppContext) :
  isCompleteContext appContext = false ->
  checkedContext appContext = throw (Error "No provided app context").
Proof. destruct appContext as [| |[[gcsURI|] [userID|]]]; try reflexivity. discriminate. Qed.

(** *** Generate *)

Lemma generateCatch_returns (e : JsError) :
  exists message, generateCatch e = ret (ErrorObject (Some message)).
Proof. unfold generateCatch. destruct (_ || _); eexists; reflexivity. Qed.

(** Step 4 of [generateImage] always throws: at the latest when it reads
    [opts.data.parameters.aspectRatio]. *)
Lemma generateAttempt_throws (w : World) (formData : FormData)
    (fullPrompt url generationGcsURI userID modelVersion : string) :
  exists e,
    generateAttempt w url (generateRequest w formData fullPrompt)
      generationGcsURI userID modelVersion
    = ([CallRequest url (generateRequest w formData fullPrompt)], Thrown e)
    /\ (forall res, request w url (generateRequest w formData fullPrompt) = Returned res ->
          generateCatch e = ret (ErrorObject (Some unexpectedError))).
Proof.
  unfold generateAttempt.
  destruct (request w url (generateRequest w formData fullPrompt)) as [res|e0].
  2:{ exists e0. split; [reflexivity|]. intros res H. discriminate H. }
  cbn [await bind].
  destruct (candidates res) as [[|candidate0 rest]|].
  - eexists. split; [reflexivity|]. intros _ _. vm_compute. reflexivity.
  - cbn [await bind ret app nth_error].
    destruct (content candidate0) as [body|].
    + set (p := fun item : RatioToPixelEntry => _).
      destruct (findM_throws p (cannotRead "undefined" "aspectRatio") (RatioToPixel w))
        as [-> | ->].
      * intros x. unfold p. now rewrite generateRequest_parameters.
      * cbn [bind ret app].
        destruct (predictions res) as [resultImages|].
        -- cbn [bind ret app]. rewrite generateRequest_parameters.
           cbn [bind ret throw app].
           eexists. split; [reflexivity|]. intros _ _. vm_compute. reflexivity.
        -- eexists. split; [reflexivity|]. intros _ _. vm_compute. reflexivity.
      * eexists. split; [reflexivity|]. intros _ _. vm_compute. reflexivity.
    + eexists. split; [reflexivity|]. intros _ _. vm_compute. reflexivity.
  - eexists. split; [reflexivity|]. intros _ _. vm_compute. reflexivity.
Qed.

Lemma stripErrorPrefix_Error (message : string) :
  stripErrorPrefix ("Error: " ++ message) = message.
Proof. reflexivity. Qed.

Lemma errorToString_Error (message : string) (errors : option (list ErrorEntry)) :
  message <> "" -> errorToString (mkJsError "Error" message errors) = "Error: " ++ message.
Proof. destruct message; [congruence | reflexivity]. Qed.

(** The [catch] blocks return the message of an [Error] that holds a safety
    phrase they know. *)
Lemma generateCatch_safety_phrase (message : string) (errors : option (list ErrorEntry)) :
  includes peoplefacePhrase message || includes filteredOutPhrase message
    || includes personGenerationPhrase message = true ->
  generateCatch (mkJsError "Error" message errors) = ret (ErrorObject (Some message)).
Proof.
  intros H. unfold generateCatch.
  assert (Hne : message <> "") by (intros ->; discriminate H).
  rewrite (errorToString_Error message errors Hne).
  assert (Hinc : includes peoplefacePhrase ("Error: " ++ message)
                 || includes filteredOutPhrase ("Error: " ++ message)
                 || includes personGenerationPhrase ("Error: " ++ message) = true).
  { apply orb_true_iff in H as [H | H]; [apply orb_true_iff in H as [H | H]|];
      apply (includes_append_l _ "Error: ") in H; rewrite H;
      rewrite ?orb_true_r; reflexivity. }
  rewrite Hinc. now rewrite stripErrorPrefix_Error.
Qed.

Lemma editCatch_rejected_request (message : string) (errors : option (list ErrorEntry)) :
  containsSafetyPhrase message = true ->
  editCatch (mkJsError "Error" message errors) = ret (ErrorObject (Some message)).
Proof.
  intros H. unfold editCatch.
  assert (Hne : message <> "") by (intros ->; discriminate H).
  rewrite (errorToString_Error message errors Hne).
  assert (Hinc : includes peoplefacePhrase ("Error: " ++ message)
                 || includes filteredOutPhrase ("Error: " ++ message) = true).
  { unfold containsSafetyPhrase in H.
    apply orb_true_iff in H as [H | H];
      apply (includes_append_l _ "Error: ") in H; rewrite H;
      rewrite ?orb_true_r; reflexivity. }
  rewrite Hinc. reflexivity.
Qed.

(** *** Edit *)

Lemma instancesPrompt_editRequest (w : World) (formData : EditImageFormI.t)
    (editGcsURI : string) :
  instancesPrompt (editRequest w formData editGcsURI)
  = ret (JString (EditImageFormI.prompt formData)).
Proof. reflexivity. Qed.

Section Edit.
Variable w : World.
Variable formData : EditImageFormI.t.
Variables (gcsURI userID : string).
Variable res : ResponseData.

(** Without a first prediction, step 3 throws an error that its [catch]
    block cannot read. *)
Lemma editImage_no_prediction :
  getClient w = Returned tt ->
  request w (editEndpoint w formData) (editRequest w formData (editStorageUri gcsURI userID))
  = Returned res ->
  predictions res = None \/ predictions res = Some [] ->
  editImage w formData (ContextData (mkAppContext (Some gcsURI) (Some userID)))
  = ([CallGetClient;
      CallRequest (editEndpoint w formData)
                  (editRequest w formData (editStorageUri gcsURI userID))],
     Thrown (cannotRead "undefined" "0")).
Proof.
  intros Hauth Hreq Hpred.
  unfold editImage, authenticate. rewrite Hauth.
  cbn [await bind tryCatch ret negb checkedContext throw app].
  unfold editAttempt. rewrite Hreq. cbn [await bind].
  destruct Hpred as [-> | ->]; reflexivity.
Qed.

(** With a first prediction that is not filtered, [editImage] is the two
    calls of steps 1 and 3 followed by step 4. *)
Lemma editImage_step4 (prediction0 : ImagenModelResultI.t)
    (rest : list ImagenModelResultI.t) :
  getClient w = Returned tt ->
  request w (editEndpoint w formData) (editRequest w formData (editStorageUri gcsURI userID))
  = Returned res ->
  predictions res = Some (prediction0 :: rest) ->
  ImagenModelResultI.raiFilteredReason prediction0 = None ->
  editImage w formData (ContextData (mkAppContext (Some gcsURI) (Some userID)))
  = (let (calls, r) :=
       editOutput w formData (editRequest w formData (editStorageUri gcsURI userID)) res
         (editStorageUri gcsURI userID) userID in
     (([CallGetClient;
        CallRequest (editEndpoint w formData)
                    (editRequest w formData (editStorageUri gcsURI userID))] ++ calls)%list,
      r)).
Proof.
  intros Hauth Hreq Hpred Hfilter.
  unfold editImage, authenticate. rewrite Hauth.
  cbn [await bind tryCatch ret negb checkedContext throw app].
  unfold editAttempt. rewrite Hreq. cbn [await bind]. rewrite Hpred.
  cbn [nth_error]. rewrite Hfilter. cbn [bind ret tryCatch app].
  destruct (editOutput w formData _ res (editStorageUri gcsURI userID) userID)
    as [calls r].
  reflexivity.
Qed.

(** What step 4 returns: the list of the normalizer it chose, or the error
    value of its [catch] block when that normalizer rejects. *)
Lemma editOutput_outcome (resultImages : list ImagenModelResultI.t) :
  predictions res = Some resultImages ->
  outcome (editOutput w formData (editRequest w formData (editStorageUri gcsURI userID)) res
             (editStorageUri gcsURI userID) userID)
  = match outcome
            (if forallb hasBytesBase64Encoded resultImages
             then buildImageListFromBase64 w resultImages (editStorageUri gcsURI userID)
                    (EditImageFormI.ratio formData) (EditImageFormI.width formData)
                    (EditImageFormI.height formData) (EditImageFormI.prompt formData)
                    (userIDOrEmpty userID) (EditImageFormI.modelVersion formData) "Generated"
             else buildImageListFromURI w resultImages
                    (EditImageFormI.ratio formData) (EditImageFormI.width formData)
                    (EditImageFormI.height formData) (EditImageFormI.prompt formData)
                    (userIDOrEmpty userID) (EditImageFormI.modelVersion formData) "Edited")
    with
    | Returned images => Returned (ImageList images)
    | Thrown _ => Returned (ErrorObject (Some issueWhileEditing))
    end.
Proof.
  intros Hpred. unfold editOutput. rewrite Hpred. cbn [bind ret app].
  rewrite instancesPrompt_editRequest. cbn [bind ret app asString].
  destruct (if forallb hasBytesBase64Encoded resultImages then _ else _)
    as [calls [images | e]]; reflexivity.
Qed.

End Edit.

(** *** Upscale *)

Lemma sourceImage_download_failure (w : World) (uri : string) :
  isDownloadFailure (downloadMediaFromGcs w uri) = true ->
  sourceImage w (SourceUri uri)
  = ([CallDownloadMediaFromGcs uri],
     Thrown (Error (errorToString (downloadFailure (downloadMediaFromGcs w uri))))).
Proof.
  unfold sourceImage, await, bind, tryCatch, isDownloadFailure, downloadFailure.
  destruct (downloadMediaFromGcs w uri) as [res|e]; [|reflexivity].
  intros ->. reflexivity.
Qed.

End StepFacts.

(* ================================================================== *)
(** ** Facts about the words of a sentence *)
(* ================================================================== *)

Module WordFacts.
Import StringFacts SentenceFacts CharFacts ShapeFacts NameFacts.

(** What holds of a lower-case letter and of its capital: they are not white
    space, not a comma, and the capital is another character. *)
Lemma lower_not_space (c : ascii) : isLowerChar c = true -> Ascii.eqb c " " = false.
Proof. destruct c as [[] [] [] [] [] [] [] []]; try reflexivity; discriminate. Qed.

Lemma lower_not_comma (c : ascii) : isLowerChar c = true -> Ascii.eqb c "," = false.
Proof. destruct c as [[] [] [] [] [] [] [] []]; try reflexivity; discriminate. Qed.

Lemma lower_not_white (c : ascii) : isLowerChar c = true -> isWhiteSpace c = false.
Proof. destruct c as [[] [] [] [] [] [] [] []]; try reflexivity; discriminate. Qed.

Lemma lower_toLowerChar (c : ascii) : isLowerChar c = true -> toLowerChar c = c.
Proof. destruct c as [[] [] [] [] [] [] [] []]; try reflexivity; discriminate. Qed.

Lemma upper_not_space (c : ascii) :
  isLowerChar c = true -> Ascii.eqb (toUpperChar c) " " = false.
Proof. destruct c as [[] [] [] [] [] [] [] []]; try reflexivity; discriminate. Qed.

Lemma upper_not_comma (c : ascii) :
  isLowerChar c = true -> Ascii.eqb (toUpperChar c) "," = false.
Proof. destruct c as [[] [] [] [] [] [] [] []]; try reflexivity; discriminate. Qed.

Lemma upper_not_white (c : ascii) :
  isLowerChar c = true -> isWhiteSpace (toUpperChar c) = false.
Proof. destruct c as [[] [] [] [] [] [] [] []]; try reflexivity; discriminate. Qed.

Lemma upper_not_lower (c : ascii) : isLowerChar c = true -> toUpperChar c <> c.
Proof. destruct c as [[] [] [] [] [] [] [] []]; try discriminate; intros _ H; discriminate H. Qed.

Lemma lower_noChar (a : ascii) (u : string) :
  isLowerChar a = false -> allChars isLowerChar u = true -> noChar a u = true.
Proof.
  intros Ha. apply allChars_impl. intros c Hc.
  destruct (Ascii.eqb_spec c a) as [-> | Hne]; [congruence | reflexivity].
Qed.

Lemma toLowerCase_lower (u : string) : allChars isLowerChar u = true -> toLowerCase u = u.
Proof.
  induction u as [|c u IH]; [reflexivity|].
  cbn [allChars]. intros H. apply andb_true_iff in H as [Hc Hu].
  rewrite toLowerCase_cons, (lower_toLowerChar c Hc), (IH Hu). reflexivity.
Qed.

(** A word: a non-empty string of lower-case letters, and its capitalized
    form. *)
Lemma capitalize_word (u : string) :
  u <> "" -> allChars isLowerChar u = true ->
  exists c rest,
    u = String c rest /\ capitalize u = String (toUpperChar c) rest
    /\ isLowerChar c = true /\ allChars isLowerChar rest = true.
Proof.
  intros Hne Hu. destruct u as [|c rest]; [congruence|].
  cbn [allChars] in Hu. apply andb_true_iff in Hu as [Hc Hrest].
  exists c, rest. repeat split; assumption.
Qed.

Lemma capitalize_changes (v : string) :
  v <> "" -> allChars isLowerChar v = true -> capitalize v <> v.
Proof.
  intros Hne Hv. destruct (capitalize_word v Hne Hv) as (c & rest & -> & -> & Hc & _).
  intros [= H]. now apply (upper_not_lower c Hc).
Qed.

Lemma capitalize_noChar (a : ascii) (u : string) :
  isLowerChar a = false -> (forall c, isLowerChar c = true -> Ascii.eqb (toUpperChar c) a = false) ->
  u <> "" -> allChars isLowerChar u = true -> noChar a (capitalize u) = true.
Proof.
  intros Ha Hup Hne Hu. destruct (capitalize_word u Hne Hu) as (c & rest & -> & -> & Hc & Hrest).
  rewrite noChar_cons, (Hup c Hc). now apply lower_noChar.
Qed.

Lemma capitalize_append (u s : string) :
  u <> "" -> capitalize (u ++ s) = capitalize u ++ s.
Proof. intros Hne. destruct u; [congruence | reflexivity]. Qed.

Lemma endsWithChar_append (c : ascii) (s : string) : endsWithChar c (s ++ String c "") = true.
Proof.
  induction s as [|a s IH]; [cbn; apply Ascii.eqb_refl|].
  cbn [append]. destruct s as [|b s]; [cbn; apply Ascii.eqb_refl | exact IH].
Qed.

Lemma endsSentence_full_stop (s : string) : endsSentence (s ++ ".") = true.
Proof. unfold endsSentence. now rewrite endsWithChar_append. Qed.

(** *** Words through the last three steps *)

Lemma replaceMultipleSpaces_other_chars (x s : string) :
  noChar " " x = true -> replaceMultipleSpaces (x ++ s) = x ++ replaceMultipleSpaces s.
Proof.
  induction x as [|c x IH]; intros H; [reflexivity|].
  rewrite noChar_cons in H. apply andb_true_iff in H as [Hc Hx].
  apply negb_true_iff in Hc.
  cbn [append replaceMultipleSpaces]. unfold space. rewrite Hc. cbn [andb].
  now rewrite (IH Hx).
Qed.

Lemma replaceMultipleSpaces_word (v : string) :
  noChar " " v = true -> replaceMultipleSpaces (v ++ " ") = v ++ " ".
Proof. intros H. now rewrite replaceMultipleSpaces_other_chars. Qed.

Lemma startsWith_space_word (v s : string) :
  v <> "" -> noChar " " v = true -> startsWith " " (v ++ s) = false.
Proof.
  intros Hne H. destruct v as [|c v]; [congruence|].
  rewrite noChar_cons in H. apply andb_true_iff in H as [Hc _].
  apply negb_true_iff in Hc. cbn [append]. rewrite startsWith_cons_cons.
  now rewrite Ascii.eqb_sym, Hc.
Qed.

Lemma replaceMultipleSpaces_space_word (v : string) :
  v <> "" -> noChar " " v = true ->
  replaceMultipleSpaces (" " ++ v ++ " ") = " " ++ v ++ " ".
Proof.
  intros Hne H. cbn [append replaceMultipleSpaces].
  rewrite (startsWith_space_word v " " Hne H), andb_false_r.
  now rewrite replaceMultipleSpaces_word.
Qed.

Lemma replaceMultipleSpaces_spaces_word (v : string) :
  v <> "" -> noChar " " v = true ->
  replaceMultipleSpaces ("  " ++ v ++ " ") = " " ++ v ++ " ".
Proof.
  intros Hne H.
  change ("  " ++ v ++ " ") with (String " " (" " ++ v ++ " ")).
  cbn [replaceMultipleSpaces].
  change (startsWith " " (" " ++ v ++ " ")) with true.
  change (Ascii.eqb " " space && true) with true. cbv iota.
  now apply replaceMultipleSpaces_space_word.
Qed.

Lemma endsWithWhiteSpace_append (x v : string) :
  v <> "" -> endsWithWhiteSpace (x ++ v) = endsWithWhiteSpace v.
Proof.
  intros Hne. induction x as [|c x IH]; [reflexivity|].
  cbn [append]. rewrite endsWithWhiteSpace_cons; [exact IH|].
  destruct x; [exact Hne | discriminate].
Qed.

Lemma endsWithWhiteSpace_lower (v : string) :
  allChars isLowerChar v = true -> endsWithWhiteSpace v = false.
Proof.
  induction v as [|c v IH]; [reflexivity|].
  cbn [allChars]. intros H. apply andb_true_iff in H as [Hc Hv].
  destruct v as [|d v]; [now apply lower_not_white | now apply IH].
Qed.

(** The two sentences [x. y], once their words are joined: the last three
    steps of [normalizeSentence] leave one space between them and none after
    them, whether one space or two stood between them. *)
Lemma finish_two_words (x y gap : string) :
  gap = " " \/ gap = "  " ->
  x <> "" -> y <> "" ->
  noChar " " x = true -> noChar "," x = true -> startsWithWhiteSpace x = false ->
  noChar " " y = true -> noChar "," y = true -> endsWithWhiteSpace y = false ->
  replaceAll ", ," ","
    (trim (replaceMultipleSpaces (x ++ "." ++ gap ++ y ++ " ")))
  = x ++ ". " ++ y.
Proof.
  intros Hgap Hx Hy Hx1 Hx2 Hx3 Hy1 Hy2 Hy3.
  rewrite (replaceMultipleSpaces_other_chars x) by exact Hx1.
  assert (E : replaceMultipleSpaces ("." ++ gap ++ y ++ " ") = ". " ++ y ++ " ").
  { change ("." ++ gap ++ y ++ " ") with (String "." (gap ++ y ++ " ")).
    cbn [replaceMultipleSpaces]. change (Ascii.eqb "." space) with false. cbn [andb].
    destruct Hgap as [-> | ->].
    - now rewrite (replaceMultipleSpaces_space_word y Hy Hy1).
    - now rewrite (replaceMultipleSpaces_spaces_word y Hy Hy1). }
  rewrite E.
  replace (x ++ ". " ++ y ++ " ") with ((x ++ ". " ++ y) ++ " ")
    by (now rewrite !append_assoc).
  rewrite trim_clean.
  - apply replaceAllFrom_absent. apply (includes_other_char ","); [reflexivity|].
    rewrite !noChar_append, Hx2, Hy2. reflexivity.
  - destruct x as [|c x]; [congruence | exact Hx3].
  - rewrite !endsWithWhiteSpace_append by (assumption || discriminate). exact Hy3.
Qed.

(** [normalizeSentence] on two one-word sentences separated by one space or
    by two: after one space the second word is capitalized, after two it
    is left as it is. *)
Lemma normalizeSentence_two_words (u v : string) :
  u <> "" -> v <> "" -> allChars isLowerChar u = true -> allChars isLowerChar v = true ->
  normalizeSentence (capitalize u ++ ". " ++ v) = capitalize u ++ ". " ++ capitalize v
  /\ normalizeSentence (u ++ ".  " ++ v) = capitalize u ++ ". " ++ v.
Proof.
  intros Hu Hv Lu Lv.
  assert (Su : noChar " " u = true) by (now apply lower_noChar).
  assert (Sv : noChar " " v = true) by (now apply lower_noChar).
  assert (Cv : noChar "," v = true) by (now apply lower_noChar).
  assert (SU : noChar " " (capitalize u) = true)
    by (apply capitalize_noChar; [reflexivity | apply upper_not_space | assumption..]).
  assert (CU : noChar "," (capitalize u) = true)
    by (apply capitalize_noChar; [reflexivity | apply upper_not_comma | assumption..]).
  assert (SV : noChar " " (capitalize v) = true)
    by (apply capitalize_noChar; [reflexivity | apply upper_not_space | assumption..]).
  assert (CV : noChar "," (capitalize v) = true)
    by (apply capitalize_noChar; [reflexivity | apply upper_not_comma | assumption..]).
  assert (WU : startsWithWhiteSpace (capitalize u) = false).
  { destruct (capitalize_word u Hu Lu) as (c & rest & _ & -> & Hc & _).
    now apply upper_not_white. }
  assert (NU : capitalize u <> "").
  { destruct (capitalize_word u Hu Lu) as (c & rest & _ & -> & _). discriminate. }
  assert (NV : capitalize v <> "").
  { destruct (capitalize_word v Hv Lv) as (c & rest & _ & -> & _). discriminate. }
  assert (EV : endsWithWhiteSpace (capitalize v) = false).
  { destruct (capitalize_word v Hv Lv) as (c & rest & _ & -> & Hc & Hrest).
    destruct rest as [|d rest]; [now apply upper_not_white|].
    rewrite endsWithWhiteSpace_cons by discriminate. now apply endsWithWhiteSpace_lower. }
  assert (Ev : endsWithWhiteSpace v = false) by (now apply endsWithWhiteSpace_lower).
  assert (Split1 : forall s, split " " (u ++ ". " ++ s) = (u ++ ".") :: split " " s).
  { intros s.
    replace (u ++ ". " ++ s) with ((u ++ ".") ++ " " ++ s) by (now rewrite !append_assoc).
    apply (split_other_chars " " ""). now rewrite noChar_append, Su. }
  assert (Split0 : split " " v = [v])
    by (apply split_absent, (includes_other_char " "); [reflexivity | exact Sv]).
  split.
  - unfold normalizeSentence.
    rewrite !toLowerCase_append, toLowerCase_capitalize.
    rewrite (toLowerCase_lower u Lu), (toLowerCase_lower v Lv).
    change (toLowerCase ". ") with ". ".
    rewrite Split1, Split0, capitalizeStep_fold.
    cbn [capitalizeWords]. rewrite (capitalize_append u "." Hu), endsSentence_full_stop.
    change ("" ++ (capitalize u ++ ".") ++ " " ++ capitalize v ++ " " ++ "")
      with ((capitalize u ++ ".") ++ " " ++ capitalize v ++ " " ++ "").
    rewrite append_empty_r, append_assoc.
    now apply (finish_two_words (capitalize u) (capitalize v) " "); auto.
  - unfold normalizeSentence.
    rewrite !toLowerCase_append.
    rewrite (toLowerCase_lower u Lu), (toLowerCase_lower v Lv).
    change (toLowerCase ".  ") with ".  ".
    change (u ++ ".  " ++ v) with (u ++ ". " ++ " " ++ v).
    rewrite Split1.
    change (" " ++ v) with (String " " "" ++ v). rewrite (split_match " " "" v), Split0.
    rewrite capitalizeStep_fold.
    cbn [capitalizeWords]. rewrite (capitalize_append u "." Hu), endsSentence_full_stop.
    change (capitalize "") with "". change (endsSentence "") with false.
    change ("" ++ (capitalize u ++ ".") ++ " " ++ "" ++ " " ++ v ++ " " ++ "")
      with ((capitalize u ++ ".") ++ "  " ++ v ++ " " ++ "").
    rewrite append_empty_r, append_assoc.
    now apply (finish_two_words (capitalize u) v "  "); auto.
Qed.

Lemma append_cancel_l (x a b : string) : x ++ a = x ++ b -> a = b.
Proof.
  induction x as [|c x IH]; [auto|].
  cbn [append]. intros [= H]. now apply IH.
Qed.

End WordFacts.

(* ================================================================== *)
(** ** Checks of the model against known results *)
(* ================================================================== *)

Example normalizeSentence_example :
  normalizeSentence "a photo  of a CAT. it sits, , there! ok"
  = "A photo of a cat. It sits, there! Ok".
Proof. reflexivity. Qed.

(** Other inputs on which a second pass of [normalizeSentence] changes the
    result: overlapping [", ,"] and a leading space. *)
Example normalizeSentence_second_pass :
  normalizeSentence "a, , , b" = "A, , b"
  /\ normalizeSentence "A, , b" = "A, b"
  /\ normalizeSentence " a" = "a"
  /\ normalizeSentence "a" = "A".
Proof. repeat split. Qed.

Example generatePrompt_example :
  generatePrompt ["light"; "perspective"; "image_colors"; "use_case"] sampleGenerateForm
  = "A studio photo of a cat on a sofa".
Proof. reflexivity. Qed.

Example split_example :
  split "/" "bucket/a/b" = ["bucket"; "a"; "b"]
  /\ split "bucket/" "gs://bucket/u/generated-images" = ["gs://"; "u/generated-images"]
  /\ split " " " a  b" = [""; "a"; ""; "b"].
Proof. repeat split. Qed.

Example cleanResult_example : cleanResult "a/b*c" = "abc".
Proof. reflexivity. Qed.

(** 0.1 + 0.2 and 0.1 * 3 are both 0.30000000000000004, and 2^53 + 1 is not
    a binary64 value. *)
Example binary64_example :
  let tenth := (3602879701896397 * 2 ^ (1074 - 55))%Z in
  let fifth := (3602879701896397 * 2 ^ (1074 - 54))%Z in
  let sum := (5404319552844596 * 2 ^ (1074 - 54))%Z in
  Binary64.add tenth fifth = sum
  /\ Binary64.mul tenth (Binary64.ofZ 3) = sum
  /\ Binary64.isBinary64 (2 ^ 53 + 1)%Z = false.
Proof. vm_compute. repeat split. Qed.

(** The product [Math.random() * 9] is rounded before it is floored: for the
    largest binary64 value below 1/9 the exact product is below 1, and the
    program computes 1. *)
Example floor_rounds_first :
  let ninth := ((Binary64.one / 9 / 2 ^ 1018) * 2 ^ 1018)%Z in
  Binary64.isRandomDraw ninth = true
  /\ (ninth * 9 < Binary64.one)%Z
  /\ Binary64.floor (Binary64.mul ninth (Binary64.ofZ 9)) = Binary64.ofZ 1.
Proof. vm_compute. repeat split. Qed.

Example generateUniqueFolderId_example :
  Binary64.toString (generateUniqueFolderId (fun _ => 0%Z)) = "1000000000000"
  /\ Binary64.toString (generateUniqueFolderId (fun _ => (Binary64.one - 2 ^ 1021)%Z))
     = "9999999999999".
Proof. vm_compute. split; reflexivity. Qed.

(** [editImage] on a response with a stored image and a filtered one. *)
Example editImage_example :
  let w := sampleWorld (Returned (sampleResponse [sampleUriItem;
                                                   sampleFilteredItem thresholdReason]))
             (Some 1200%N) sampleDecomposed in
  outcome (editImage w sampleEditForm sampleContext)
  = Returned
      (ImageList
         [ImageRecord
            {| ImageI.src :=
                 "https://storage.googleapis.com/bucket/user-1/generated-images/17/sample_0.png";
               ImageI.gcsUri := Some "gs://bucket/user-1/generated-images/17/sample_0.png";
               ImageI.format := "PNG";
               ImageI.prompt := "a red hat";
               ImageI.altText := "Generated image user-1/generated-images/17/sample_0.png";
               ImageI.key := "170";
               ImageI.width := 1024;
               ImageI.height := 1024;
               ImageI.ratio := "1:1";
               ImageI.date := "November 2, 2026";
               ImageI.author := "user-1";
               ImageI.modelVersion := "imagen-3.0-capability-001";
               ImageI.mode := "Edited" |};
          WarningRecord thresholdReason]).
Proof. vm_compute. reflexivity. Qed.

(** [upscaleImage] on a stored source, when the request succeeds in time. *)
Example upscaleImage_example :
  let w := sampleWorld (Returned (sampleResponse [sampleUriItem])) (Some 1200%N)
             sampleDecomposed in
  upscaleImage w (SourceUri "gs://bucket/user-1/cat.png") "x2" sampleContext
  = ([CallGetClient;
      CallDownloadMediaFromGcs "gs://bucket/user-1/cat.png";
      CallRequest (upscaleEndpoint w)
        (upscaleRequest (JString "iVBORw0KGgo=") "x2" "gs://bucket/user-1/upscaled-images")],
     Returned (Upscaled (Some "gs://bucket/user-1/generated-images/17/sample_0.png")
                        "image/png")).
Proof. vm_compute. reflexivity. Qed.

Example setAt_example : setAt 1 0 [5; 6; 7] = [5; 0; 7].
Proof. reflexivity. Qed.

(* ================================================================== *)
(** ** The properties of the specification *)
(* ================================================================== *)

Import StringFacts SentenceFacts Binary64Facts.
Import NormalizerFacts CallbackFacts BatchFacts OperationFacts.

(** *** C1: one record per item, in the order of the items *)

(** C1, as stated, fails for [buildImageListFromURI]: when [decomposeUri]
    gives no file name for an item, the call rejects and returns no list, here
    for a batch of a single storage-URI item. *)
Lemma C1_decomposeUri_failure_rejects_batch :
  outcome (buildImageListFromURI (sampleWorld (Returned (sampleResponse [])) (Some 1200%N)
                                    (fun _ => Returned None))
             [sampleUriItem] "1:1" 1024 1024 "a cat" "user-1" "imagen-4.0" "Generated")
  = Thrown (cannotRead "undefined" "replaceAll").
Proof. reflexivity. Qed.

(** C1 (amended): for every input sequence, [buildImageListFromBase64]
    returns a sequence of the same length in which the element at each
    position is the record of the item at that position: a warning with the
    item's reason when the item is filtered, an image or the error record
    otherwise.  [buildImageListFromURI] does so whenever [decomposeUri] yields
    a file name for every item that is not filtered. *)
Theorem C1_normalizers_keep_one_record_per_item
    (w : World) (images : list ImagenModelResultI.t)
    (targetGcsURI aspectRatio : string) (width height : Z)
    (usedPrompt userID modelVersion mode : string) :
  ((forall i image,
       nth_error images i = Some image ->
       ImagenModelResultI.raiFilteredReason image = None ->
       isDecomposeFailure (decomposeUri w i (orEmpty (ImagenModelResultI.gcsUri image)))
       = false) ->
   perItemRecords images
     (uriCallback w aspectRatio width height usedPrompt userID modelVersion mode)
     (buildImageListFromURI w images aspectRatio width height
        usedPrompt userID modelVersion mode))
  /\ perItemRecords images
       (base64Callback w images (bucketNameOf targetGcsURI) (folderNameOf w targetGcsURI)
          aspectRatio width height usedPrompt userID modelVersion mode)
       (buildImageListFromBase64 w images targetGcsURI aspectRatio width height
          usedPrompt userID modelVersion mode).
Proof.
  split.
  - intros Hdecomposed. now apply buildImageListFromURI_records.
  - apply buildImageListFromBase64_records.
Qed.

(** An instance of C1: a batch of a storage-URI item, a filtered item and a
    base64 item, in a world whose collaborators succeed. *)
Lemma C1_witness :
  let w := sampleWorld (Returned (sampleResponse [])) (Some 1200%N) sampleDecomposed in
  let images := [sampleUriItem; sampleFilteredItem thresholdReason; sampleBase64Item "a dog"] in
  perItemRecords images
    (uriCallback w "1:1" 1024 1024 "a cat" "user-1" "imagen-4.0" "Generated")
    (buildImageListFromURI w images "1:1" 1024 1024 "a cat" "user-1" "imagen-4.0" "Generated")
  /\ perItemRecords images
       (base64Callback w images (bucketNameOf "gs://bucket/user-1/generated-images")
          (folderNameOf w "gs://bucket/user-1/generated-images")
          "1:1" 1024 1024 "a cat" "user-1" "imagen-4.0" "Generated")
       (buildImageListFromBase64 w images "gs://bucket/user-1/generated-images"
          "1:1" 1024 1024 "a cat" "user-1" "imagen-4.0" "Generated").
Proof.
  intros w images.
  destruct (C1_normalizers_keep_one_record_per_item w images
              "gs://bucket/user-1/generated-images" "1:1" 1024 1024
              "a cat" "user-1" "imagen-4.0" "Generated") as [Huri Hbase64].
  split; [|exact Hbase64].
  apply Huri. intros i image Hi Hfiltered. reflexivity.
Defined.

(** *** C2: object names of the base64 path *)

(** C2 fails on the code: the index in the object name is the position of
    the first item of the batch with the same bytes, found by [findIndex],
    and not the item's own position.  Two items at distinct positions that
    are not filtered and carry the same bytes and MIME type are uploaded
    under one and the same object name. *)
Theorem C2_same_bytes_same_object_name
    (w : World) (images : list ImagenModelResultI.t)
    (bucketName folderName aspectRatio : string) (width height : Z)
    (usedPrompt userID modelVersion mode : string)
    (i j : nat) (a b : ImagenModelResultI.t) :
  nth_error images i = Some a ->
  nth_error images j = Some b ->
  i <> j ->
  ImagenModelResultI.raiFilteredReason a = None ->
  ImagenModelResultI.raiFilteredReason b = None ->
  ImagenModelResultI.bytesBase64Encoded a = ImagenModelResultI.bytesBase64Encoded b ->
  ImagenModelResultI.mimeType a = ImagenModelResultI.mimeType b ->
  exists base64Image objectName,
    hd_error (callsOf (base64Callback w images bucketName folderName aspectRatio width height
                         usedPrompt userID modelVersion mode i a))
    = Some (CallUploadBase64Image base64Image bucketName objectName)
    /\ hd_error (callsOf (base64Callback w images bucketName folderName aspectRatio width
                            height usedPrompt userID modelVersion mode j b))
       = Some (CallUploadBase64Image base64Image bucketName objectName).
Proof.
  intros _ _ _ Ha Hb Hbytes Hmime.
  exists (orEmpty (ImagenModelResultI.bytesBase64Encoded a)).
  exists (fullOjectName folderName images a).
  assert (Hname : fullOjectName folderName images b = fullOjectName folderName images a).
  { unfold fullOjectName, fileNameOf, formatOf. now rewrite Hbytes, Hmime. }
  split.
  - unfold base64Callback. rewrite Ha. unfold callsOf, tryCatch, bind, await.
    destruct (uploadBase64Image w i _ _ _) as [result | e]; [|reflexivity].
    destruct (success result); cbn; [|reflexivity].
    destruct (getSignedURL w i _) as [[url | err] | e]; reflexivity.
  - unfold base64Callback. rewrite Hb, Hname, <- Hbytes.
    unfold callsOf, tryCatch, bind, await.
    destruct (uploadBase64Image w j _ _ _) as [result | e]; [|reflexivity].
    destruct (success result); cbn; [|reflexivity].
    destruct (getSignedURL w j _) as [[url | err] | e]; reflexivity.
Qed.

(** An instance of C2: two items with the bytes "QUJD" at positions 0 and 1. *)
Lemma C2_witness :
  let w := sampleWorld (Returned (sampleResponse [])) (Some 1200%N) sampleDecomposed in
  let images := [sampleBase64Item "a cat"; sampleBase64Item "a dog"] in
  let folderName := folderNameOf w "gs://bucket/user-1/generated-images" in
  exists base64Image objectName,
    hd_error (callsOf (base64Callback w images "bucket" folderName "1:1" 1024 1024
                         "a pet" "user-1" "imagen-4.0" "Generated" 0 (sampleBase64Item "a cat")))
    = Some (CallUploadBase64Image base64Image "bucket" objectName)
    /\ hd_error (callsOf (base64Callback w images "bucket" folderName "1:1" 1024 1024
                            "a pet" "user-1" "imagen-4.0" "Generated" 1
                            (sampleBase64Item "a dog")))
       = Some (CallUploadBase64Image base64Image "bucket" objectName).
Proof.
  intros w images folderName.
  apply (C2_same_bytes_same_object_name w images "bucket" folderName "1:1" 1024 1024
           "a pet" "user-1" "imagen-4.0" "Generated" 0 1
           (sampleBase64Item "a cat") (sampleBase64Item "a dog"));
    try reflexivity.
  discriminate.
Defined.

(** *** C3: what [generateImage] returns for a successful response *)

(** C3 fails on the code: the request body of [generateImage] holds
    [contents] and [generationConfig] only, so reading
    [opts.data.parameters.aspectRatio] throws a [TypeError] before a
    normalizer is called.  For every response that carries content and a
    predictions list, the operation makes the two calls of steps 1 and 4 and
    returns the generic error value. *)
Theorem C3_generateImage_returns_error_for_every_response
    (w : World) (formData : FormData) (isGeminiRewrite : bool)
    (modelVersion gcsURI userID : string)
    (res : ResponseData) (candidate0 : Candidate) (rest : list Candidate)
    (body : JsValue) (resultImages : list ImagenModelResultI.t) :
  getClient w = Returned tt ->
  formGet formData "modelVersion" = Some modelVersion ->
  request w (generateEndpoint w modelVersion)
    (generateRequest w formData (generatePrompt (fullPromptFields w) formData))
  = Returned res ->
  candidates res = Some (candidate0 :: rest) ->
  content candidate0 = Some body ->
  predictions res = Some resultImages ->
  generateImage w formData isGeminiRewrite
    (ContextData (mkAppContext (Some gcsURI) (Some userID)))
  = ([CallGetClient;
      CallRequest (generateEndpoint w modelVersion)
        (generateRequest w formData (generatePrompt (fullPromptFields w) formData))],
     Returned (ErrorObject (Some unexpectedError))).
Proof.
  intros Hauth Hmodel Hreq Hcand Hcontent Hpred.
  unfold generateImage, authenticate. rewrite Hauth, Hmodel.
  cbn [await bind tryCatch ret negb checkedContext throw app].
  unfold generateAttempt. rewrite Hreq.
  cbn [await bind ret app nth_error]. rewrite Hcand.
  cbn [await bind ret app nth_error]. rewrite Hcontent, Hpred.
  set (p := fun item : RatioToPixelEntry => _).
  destruct (findM_throws p (cannotRead "undefined" "aspectRatio") (RatioToPixel w))
    as [-> | ->].
  - intros x. unfold p. now rewrite generateRequest_parameters.
  - cbn [bind ret app]. rewrite generateRequest_parameters.
    cbn [bind ret throw tryCatch app].
    rewrite generateCatch_missing_property by reflexivity. reflexivity.
  - cbn [bind ret throw tryCatch app].
    rewrite generateCatch_missing_property by reflexivity. reflexivity.
Qed.

(** An instance of C3: a response with content and one base64 prediction. *)
Lemma C3_witness :
  let w := sampleWorld (Returned (sampleResponse [sampleBase64Item "a cat on a sofa"]))
             (Some 1200%N) sampleDecomposed in
  generateImage w sampleGenerateForm false sampleContext
  = ([CallGetClient;
      CallRequest (generateEndpoint w "gemini-2.5-flash-image")
        (generateRequest w sampleGenerateForm
           (generatePrompt (fullPromptFields w) sampleGenerateForm))],
     Returned (ErrorObject (Some unexpectedError))).
Proof.
  intros w.
  apply (C3_generateImage_returns_error_for_every_response w sampleGenerateForm false
           "gemini-2.5-flash-image" "gs://bucket" "user-1"
           (sampleResponse [sampleBase64Item "a cat on a sofa"])
           (mkCandidate (Some (JObject [("role", JString "model")]))) []
           (JObject [("role", JString "model")]) [sampleBase64Item "a cat on a sofa"]);
    reflexivity.
Defined.

(** *** C4: a filtered first prediction in [editImage] *)

(** C4, as stated, fails: for a reason that holds neither of the two safety
    phrases the call does not return an error value, it rejects; and for a
    reason that holds one, the value returned holds the reason without its
    slashes. *)
Lemma C4_unknown_reason_rejects :
  outcome (editImage
             (sampleWorld (Returned (sampleResponse [sampleFilteredItem thresholdReason]))
                (Some 1200%N) sampleDecomposed)
             sampleEditForm sampleContext)
  = Thrown (cannotRead "undefined" "0")
  /\ outcome (editImage
                (sampleWorld (Returned (sampleResponse [sampleFilteredItem guidelinesLinkReason]))
                   (Some 1200%N) sampleDecomposed)
                sampleEditForm sampleContext)
     = Returned (ErrorObject (Some "All images were filtered out because they violated Vertex AI's usage guidelines: https:cloud.google.comvertex-ai")).
Proof. vm_compute. split; reflexivity. Qed.

(** C4 (amended): when the first prediction of the response carries
    [raiFilteredReason], [editImage] calls no storage collaborator (it
    normalizes no item) and returns no image list; when the reason, once
    [cleanResult] removed its line feeds, slashes and stars, holds one of the
    two known safety phrases, the call returns the error value with that
    cleaned reason. *)
Theorem C4_editImage_filtered_first_prediction
    (w : World) (formData : EditImageFormI.t) (gcsURI userID reason : string)
    (res : ResponseData) (prediction0 : ImagenModelResultI.t)
    (rest : list ImagenModelResultI.t) :
  getClient w = Returned tt ->
  request w (editEndpoint w formData) (editRequest w formData (editStorageUri gcsURI userID))
  = Returned res ->
  predictions res = Some (prediction0 :: rest) ->
  ImagenModelResultI.raiFilteredReason prediction0 = Some reason ->
  let call := editImage w formData (ContextData (mkAppContext (Some gcsURI) (Some userID))) in
  callsOf call
  = [CallGetClient;
     CallRequest (editEndpoint w formData)
                 (editRequest w formData (editStorageUri gcsURI userID))]
  /\ (forall images, outcome call <> Returned (ImageList images))
  /\ (containsSafetyPhrase (cleanResult reason) = true ->
      outcome call = Returned (ErrorObject (Some (cleanResult reason)))).
Proof.
  intros Hauth Hreq Hpred Hfilter call. unfold call.
  rewrite (editImage_filtered_step3 w formData gcsURI userID reason res prediction0 rest
             Hauth Hreq Hpred Hfilter).
  destruct (editCatch_calls (cleanResult reason)) as [Hcalls Hno].
  split; [|split].
  - destruct (editCatch _) as [calls r]. cbn in *. now rewrite Hcalls.
  - intros images. specialize (Hno images).
    destruct (editCatch _) as [calls [result | e]]; cbn in *; congruence.
  - intros Hphrase. now rewrite (editCatch_safety_phrase _ Hphrase).
Qed.

(** An instance of C4: the first prediction is filtered for a reason that holds
    the usage-guidelines phrase. *)
Lemma C4_witness :
  let w := sampleWorld (Returned (sampleResponse [sampleFilteredItem usageGuidelinesReason]))
             (Some 1200%N) sampleDecomposed in
  let call := editImage w sampleEditForm sampleContext in
  callsOf call
  = [CallGetClient;
     CallRequest (editEndpoint w sampleEditForm)
                 (editRequest w sampleEditForm (editStorageUri "gs://bucket" "user-1"))]
  /\ (forall images, outcome call <> Returned (ImageList images))
  /\ (containsSafetyPhrase (cleanResult usageGuidelinesReason) = true ->
      outcome call = Returned (ErrorObject (Some (cleanResult usageGuidelinesReason)))).
Proof.
  intros w.
  apply (C4_editImage_filtered_first_prediction w sampleEditForm "gs://bucket" "user-1"
           usageGuidelinesReason
           (sampleResponse [sampleFilteredItem usageGuidelinesReason])
           (sampleFilteredItem usageGuidelinesReason) []);
    reflexivity.
Defined.

(** *** C5: failures of the signed URL and of the upload *)



(** *** C6: the two error messages of [upscaleImage] *)

(** C6: when the call reaches step 4 (a client was obtained, the source
    image is there, the app context is complete) and step 4 throws an error,
    [upscaleImage] returns the oversized-image message when the error's
    message contains "Response size too large.", and the generic upscale
    message for every other error. *)
Theorem C6_upscaleImage_failure_message
    (w : World) (source : Source) (upscaleFactor gcsURI userID : string)
    (base64Image : option string) (e : JsError) :
  getClient w = Returned tt ->
  outcome (sourceImage w source) = Returned base64Image ->
  outcome (upscaleAttempt w (upscaleEndpoint w)
             (upscaleRequest (encodedSource base64Image) upscaleFactor
                (upscaleStorageUri gcsURI userID)))
  = Thrown e ->
  outcome (upscaleImage w source upscaleFactor
             (ContextData (mkAppContext (Some gcsURI) (Some userID))))
  = Returned (ErrorObject
                (Some (if includes responseTooLarge (errorMessage e)
                       then imageSizeLimitExceeded
                       else errorWhileUpscaling))).
Proof.
  intros Hauth Hsource Hfail.
  rewrite (upscaleImage_step4 w source upscaleFactor gcsURI userID base64Image Hauth Hsource).
  destruct (upscaleAttempt w _ _) as [calls [r | e']]; [discriminate Hfail|].
  cbn in Hfail. injection Hfail as ->.
  unfold tryCatch, upscaleCatch.
  destruct (includes responseTooLarge (errorMessage e)); reflexivity.
Qed.

(** An instance of C6: the request is rejected for an oversized response. *)
Lemma C6_witness :
  outcome (upscaleImage (sampleWorld (Thrown oversizedResponse) (Some 1200%N) sampleDecomposed)
             (SourceBase64 "data:image/png;base64,QUJD") "x4" sampleContext)
  = Returned (ErrorObject (Some imageSizeLimitExceeded)).
Proof.
  apply (C6_upscaleImage_failure_message
           (sampleWorld (Thrown oversizedResponse) (Some 1200%N) sampleDecomposed)
           (SourceBase64 "data:image/png;base64,QUJD") "x4" "gs://bucket" "user-1"
           (Some "data:image/png;base64,QUJD") oversizedResponse);
    reflexivity.
Defined.

(** *** C7: the timeout of [upscaleImage] *)

(** C7: the timer of the race is set to 60000 milliseconds; when the call
    reaches step 4 and the request has not settled within that time (or never
    settles), the race rejects with "Upscaling timed out" and [upscaleImage]
    returns the generic upscale error value. *)
Theorem C7_upscaleImage_timeout
    (w : World) (source : Source) (upscaleFactor gcsURI userID : string)
    (base64Image : option string) :
  let url := upscaleEndpoint w in
  let reqData :=
    upscaleRequest (encodedSource base64Image) upscaleFactor (upscaleStorageUri gcsURI userID) in
  getClient w = Returned tt ->
  outcome (sourceImage w source) = Returned base64Image ->
  completesWithin timeout (requestSettlesAfter w url reqData) = false ->
  timeout = 60000%N
  /\ raceWithTimeout w url reqData = Thrown (Error "Upscaling timed out")
  /\ outcome (upscaleImage w source upscaleFactor
                (ContextData (mkAppContext (Some gcsURI) (Some userID))))
     = Returned (ErrorObject (Some errorWhileUpscaling)).
Proof.
  intros url reqData Hauth Hsource Hlate.
  assert (Hrace : raceWithTimeout w url reqData = Thrown (Error upscalingTimedOut)).
  { unfold raceWithTimeout. unfold completesWithin in Hlate.
    destruct (requestSettlesAfter w url reqData) as [t|]; [|reflexivity].
    apply N.leb_gt in Hlate.
    destruct (N.ltb_spec t timeout); [lia|].
    destruct (N.eqb_spec t timeout); [lia|]. reflexivity. }
  split; [reflexivity|]. split; [exact Hrace|].
  rewrite (upscaleImage_step4 w source upscaleFactor gcsURI userID base64Image Hauth Hsource).
  fold url. fold reqData. unfold upscaleAttempt. rewrite Hrace. reflexivity.
Qed.

(** An instance of C7: the request settles after 60001 milliseconds. *)
Lemma C7_witness :
  let w := sampleWorld (Returned (sampleResponse [sampleUriItem])) (Some 60001%N)
             sampleDecomposed in
  timeout = 60000%N
  /\ raceWithTimeout w (upscaleEndpoint w)
       (upscaleRequest (encodedSource (Some "QUJD")) "x2"
          (upscaleStorageUri "gs://bucket" "user-1"))
     = Thrown (Error "Upscaling timed out")
  /\ outcome (upscaleImage w (SourceBase64 "QUJD") "x2" sampleContext)
     = Returned (ErrorObject (Some errorWhileUpscaling)).
Proof.
  intros w.
  apply (C7_upscaleImage_timeout w (SourceBase64 "QUJD") "x2" "gs://bucket" "user-1"
           (Some "QUJD"));
    reflexivity.
Defined.

(** *** C8: [normalizeSentence] applied twice *)

(** C8, as stated, fails: a word that follows two spaces after the end of a
    sentence is not capitalized by the first pass and is by the second. *)
Lemma C8_second_pass_differs :
  normalizeSentence "a.  b" = "A. b"
  /\ normalizeSentence (normalizeSentence "a.  b") = "A. B".
Proof. split; reflexivity. Qed.

(** C8 fails on the code: when two spaces follow the full stop that ends a
    sentence, the loop of [normalizeSentence] takes the empty word between
    them for the first word of the next sentence and resets [newSentence] on
    it, so the word that starts the next sentence keeps its lower-case
    letter, against the comment of the loop ("Capitalize the first letter of
    each sentence").  The spaces are collapsed only after the loop, so a
    second pass capitalizes that word: for all words [u] and [v] of
    lower-case letters, what [normalizeSentence] returns for [u.  v] is not
    what it returns for its own result. *)
Theorem C8_word_after_two_spaces_keeps_its_lower_case (u v : string) :
  u <> "" -> v <> "" ->
  allChars isLowerChar u = true -> allChars isLowerChar v = true ->
  let once := normalizeSentence (u ++ ".  " ++ v) in
  once = capitalize u ++ ". " ++ v
  /\ normalizeSentence once = capitalize u ++ ". " ++ capitalize v
  /\ normalizeSentence once <> once.
Proof.
  intros Hu Hv Lu Lv once.
  destruct (WordFacts.normalizeSentence_two_words u v Hu Hv Lu Lv) as [Hsecond Hfirst].
  fold once in Hfirst. rewrite Hfirst, Hsecond.
  split; [reflexivity|]. split; [reflexivity|].
  intros H. apply WordFacts.append_cancel_l in H.
  apply (WordFacts.append_cancel_l ". ") in H.
  now apply (WordFacts.capitalize_changes v Hv Lv).
Qed.

(** An instance of C8: the sentences "a" and "b", two spaces between them. *)
Lemma C8_witness :
  normalizeSentence ("a" ++ ".  " ++ "b") = capitalize "a" ++ ". " ++ "b"
  /\ normalizeSentence (normalizeSentence ("a" ++ ".  " ++ "b"))
     = capitalize "a" ++ ". " ++ capitalize "b"
  /\ normalizeSentence (normalizeSentence ("a" ++ ".  " ++ "b"))
     <> normalizeSentence ("a" ++ ".  " ++ "b").
Proof.
  apply (C8_word_after_two_spaces_keeps_its_lower_case "a" "b");
    [discriminate | discriminate | reflexivity | reflexivity].
Defined.

(** Where a second pass changes nothing: on an ASCII string that has no white
    space at its ends, no two spaces in a row and no occurrence of [", ,"],
    [normalizeSentence] changes the case of letters only, and applying it
    again gives the same string.  The condition is sufficient, not
    necessary. *)
Lemma normalizeSentence_idempotent_on_clean_input (s : string) :
  isAsciiString s = true ->
  trim s = s ->
  includes "  " s = false ->
  includes ", ," s = false ->
  normalizeSentence (normalizeSentence s) = normalizeSentence s
  /\ toLowerCase (normalizeSentence s) = toLowerCase s.
Proof.
  intros _ Htrim Hspaces Hcommas.
  assert (Hcase : toLowerCase (normalizeSentence s) = toLowerCase s)
    by now apply toLowerCase_normalizeSentence.
  split; [|exact Hcase].
  now apply normalizeSentence_toLowerCase.
Qed.

(** *** C9: a failing [decomposeUri] *)

(** C9: in [buildImageListFromURI], when [decomposeUri] rejects or gives no
    file name for an item that is not filtered, the item's callback throws
    after that single call, without asking for a signed URL, and the whole
    call rejects. *)
Theorem C9_decomposeUri_failure_rejects_call
    (w : World) (images : list ImagenModelResultI.t)
    (aspectRatio : string) (width height : Z)
    (usedPrompt userID modelVersion mode : string)
    (i : nat) (image : ImagenModelResultI.t) :
  nth_error images i = Some image ->
  ImagenModelResultI.raiFilteredReason image = None ->
  isDecomposeFailure (decomposeUri w i (orEmpty (ImagenModelResultI.gcsUri image))) = true ->
  let callback :=
    uriCallback w aspectRatio width height usedPrompt userID modelVersion mode i image in
  (exists e, outcome callback = Thrown e)
  /\ callsOf callback = [CallDecomposeUri (orEmpty (ImagenModelResultI.gcsUri image))]
  /\ (exists e, outcome (buildImageListFromURI w images aspectRatio width height
                           usedPrompt userID modelVersion mode) = Thrown e).
Proof.
  intros Hi Hf Hd callback.
  destruct (uriCallback_not_decomposed w aspectRatio width height usedPrompt userID
              modelVersion mode i image Hf Hd) as (e & He & Hcalls).
  split; [exists e; exact He|]. split; [exact Hcalls|].
  now apply buildImageListFromURI_rejects with (i := i) (image := image).
Qed.

(** An instance of C9: [decomposeUri] rejects for the item at position 1. *)
Lemma C9_witness :
  let w := sampleWorld (Returned (sampleResponse [])) (Some 1200%N)
             (fun _ => Thrown (Error "bucket not reachable")) in
  let images := [sampleFilteredItem thresholdReason; sampleUriItem] in
  let callback :=
    uriCallback w "1:1" 1024 1024 "a cat" "user-1" "imagen-4.0" "Edited" 1 sampleUriItem in
  (exists e, outcome callback = Thrown e)
  /\ callsOf callback = [CallDecomposeUri (orEmpty (ImagenModelResultI.gcsUri sampleUriItem))]
  /\ (exists e, outcome (buildImageListFromURI w images "1:1" 1024 1024
                           "a cat" "user-1" "imagen-4.0" "Edited") = Thrown e).
Proof.
  intros w images.
  apply (C9_decomposeUri_failure_rejects_call w images "1:1" 1024 1024
           "a cat" "user-1" "imagen-4.0" "Edited" 1 sampleUriItem);
    reflexivity.
Defined.

(** *** C10: the range of [generateUniqueFolderId] *)

(** C10: whatever binary64 values in [0, 1) the thirteen uses of
    [Math.random()] return, [generateUniqueFolderId] returns an integer [n]
    with 10^12 <= n <= 10^13 - 1. *)
Theorem C10_generateUniqueFolderId_range (random : nat -> Binary64.number) :
  (forall i, Binary64.isRandomDraw (random i) = true) ->
  exists n : Z,
    generateUniqueFolderId random = Binary64.ofZ n /\ (10 ^ 12 <= n <= 10 ^ 13 - 1)%Z.
Proof.
  intros Hr. unfold generateUniqueFolderId.
  destruct (floor_mul_random _ 9 (Hr 0%nat) ltac:(lia)) as (j & -> & Hj).
  rewrite ofZ_add by (change (2 ^ 53)%Z with 9007199254740992%Z; lia).
  destruct (loop_ofZ random (seq 0 12) Hr 0 (j + 1)) as (n & E & Hn).
  - lia.
  - rewrite length_seq. lia.
  - change (10 ^ 0)%Z with 1%Z. change (10 ^ (0 + 1))%Z with 10%Z. lia.
  - exists n. split; [exact E|].
    rewrite length_seq in Hn.
    change (10 ^ (0 + Z.of_nat 12))%Z with (10 ^ 12)%Z in Hn.
    change (10 ^ (0 + Z.of_nat 12 + 1))%Z with (10 ^ 13)%Z in Hn. lia.
Qed.

(** An instance of C10: every draw is 0. *)
Lemma C10_witness :
  exists n : Z,
    generateUniqueFolderId (fun _ => 0%Z) = Binary64.ofZ n /\ (10 ^ 12 <= n <= 10 ^ 13 - 1)%Z.
Proof.
  apply (C10_generateUniqueFolderId_range (fun _ => 0%Z)).
  intros i. reflexivity.
Defined.

(** *** Further properties of the specification *)

(** X1: an item that carries a safety-filter marker yields the warning
    record with that reason in both normalizers, and its callback calls no
    collaborator: nothing is uploaded and no signed URL is asked for. *)
Theorem X1_filtered_item_yields_warning
    (w : World) (images : list ImagenModelResultI.t)
    (bucketName folderName aspectRatio : string) (width height : Z)
    (usedPrompt userID modelVersion mode : string)
    (i : nat) (image : ImagenModelResultI.t) (reason : string) :
  ImagenModelResultI.raiFilteredReason image = Some reason ->
  uriCallback w aspectRatio width height usedPrompt userID modelVersion mode i image
  = ([], Returned (WarningRecord reason))
  /\ base64Callback w images bucketName folderName aspectRatio width height
       usedPrompt userID modelVersion mode i image
     = ([], Returned (WarningRecord reason)).
Proof.
  intros Hfiltered. split.
  - now apply uriCallback_filtered.
  - now apply base64Callback_filtered.
Qed.

(** An instance of X1: an item filtered by the safety threshold. *)
Lemma X1_witness :
  let w := sampleWorld (Returned (sampleResponse [])) (Some 1200%N) sampleDecomposed in
  let image := sampleFilteredItem thresholdReason in
  uriCallback w "1:1" 1024 1024 "a cat" "user-1" "imagen-4.0" "Generated" 0 image
  = ([], Returned (WarningRecord thresholdReason))
  /\ base64Callback w [image] "bucket" "user-1/generated-images/17" "1:1" 1024 1024
       "a cat" "user-1" "imagen-4.0" "Generated" 0 image
     = ([], Returned (WarningRecord thresholdReason)).
Proof.
  intros w image.
  apply (X1_filtered_item_yields_warning w [image] "bucket" "user-1/generated-images/17"
           "1:1" 1024 1024 "a cat" "user-1" "imagen-4.0" "Generated" 0 image thresholdReason).
  reflexivity.
Defined.

(** X2: with [editMode = 'EDIT_MODE_BGSWAP'] the mask reference of the edit
    request carries no mask image and no [dilation], and its mask mode is
    the background one. *)
Theorem X2_background_swap_request
    (w : World) (formData : EditImageFormI.t) (editGcsURI : string) :
  EditImageFormI.editMode formData = "EDIT_MODE_BGSWAP" ->
  maskReferenceOf (editRequest w formData editGcsURI)
  = ret (JObject [("referenceType", JString "REFERENCE_TYPE_MASK");
                  ("referenceId", JNumber 2);
                  ("maskImageConfig",
                   JObject [("maskMode", JString "MASK_MODE_BACKGROUND")])]).
Proof.
  intros Hmode. unfold editRequest. rewrite Hmode. reflexivity.
Qed.

(** An instance of X2: the sample form, switched to background swap. *)
Lemma X2_witness :
  let formData :=
    EditImageFormI.mk "imagen-3.0-capability-001" "data:image/png;base64,QUJD"
      "data:image/png;base64,REVG" "EDIT_MODE_BGSWAP" "a beach" "0"
      "" "35" "2" "image/png" "allow_adult" "1:1" 1024 1024 in
  let w := sampleWorld (Returned (sampleResponse [])) (Some 1200%N) sampleDecomposed in
  maskReferenceOf (editRequest w formData "gs://bucket/user-1/edited-images")
  = ret (JObject [("referenceType", JString "REFERENCE_TYPE_MASK");
                  ("referenceId", JNumber 2);
                  ("maskImageConfig",
                   JObject [("maskMode", JString "MASK_MODE_BACKGROUND")])]).
Proof.
  intros formData w.
  apply (X2_background_swap_request w formData "gs://bucket/user-1/edited-images").
  reflexivity.
Defined.

(** X3: when no client can be obtained, each of the three operations
    returns the authentication error value after that single call. *)
Theorem X3_authentication_failure
    (w : World) (e : JsError)
    (generateForm : FormData) (isGeminiRewrite : bool)
    (editForm : EditImageFormI.t) (source : Source) (upscaleFactor : string)
    (appContext : AppContext) :
  getClient w = Thrown e ->
  let denied := ([CallGetClient], Returned (ErrorObject (Some unableToAuthenticate))) in
  generateImage w generateForm isGeminiRewrite appContext = denied
  /\ editImage w editForm appContext = denied
  /\ upscaleImage w source upscaleFactor appContext = denied.
Proof.
  intros Hauth denied.
  unfold generateImage, editImage, upscaleImage, authenticate. rewrite Hauth.
  repeat split.
Qed.

(** An instance of X3: the default credentials cannot be loaded. *)
Lemma X3_witness :
  let denied := ([CallGetClient], Returned (ErrorObject (Some unableToAuthenticate))) in
  generateImage sampleWorldWithoutClient sampleGenerateForm false sampleContext = denied
  /\ editImage sampleWorldWithoutClient sampleEditForm sampleContext = denied
  /\ upscaleImage sampleWorldWithoutClient (SourceUri "gs://bucket/user-1/cat.png") "x2"
       sampleContext = denied.
Proof.
  apply (X3_authentication_failure sampleWorldWithoutClient
           (Error "Could not load the default credentials.")
           sampleGenerateForm false sampleEditForm
           (SourceUri "gs://bucket/user-1/cat.png") "x2" sampleContext).
  reflexivity.
Defined.

(* ================================================================== *)
(** ** Further properties of the code *)
(* ================================================================== *)

Import CharFacts ShapeFacts FolderIdFacts NameFacts ProtocolFacts StepFacts.

(** X4: [cleanResult] removes the line feeds, the slashes and the stars and
    nothing else: its result is the input without these characters, the
    others in their order.  The result holds none of the three characters,
    and cleaning it again changes nothing. *)
Theorem X4_cleanResult_removes_three_characters (s : string) :
  cleanResult s = filterChars keptByCleanResult s
  /\ allChars keptByCleanResult (cleanResult s) = true
  /\ cleanResult (cleanResult s) = cleanResult s.
Proof.
  rewrite !cleanResult_filterChars. split; [reflexivity|]. split.
  - apply allChars_filterChars.
  - apply filterChars_idem.
Qed.

(** X5: whatever ASCII string it is given, [normalizeSentence] returns a
    string that neither starts nor ends with white space and that holds no
    two spaces in a row. *)
Theorem X5_normalizeSentence_trims_and_collapses (s : string) :
  isAsciiString s = true ->
  startsWithWhiteSpace (normalizeSentence s) = false
  /\ endsWithWhiteSpace (normalizeSentence s) = false
  /\ includes "  " (normalizeSentence s) = false.
Proof. intros _. apply normalizeSentence_shape. Qed.

(** An instance of X5: a sentence with spaces at its ends and runs of spaces. *)
Lemma X5_witness :
  let s := "  a  photo , , of   a cat.   " in
  startsWithWhiteSpace (normalizeSentence s) = false
  /\ endsWithWhiteSpace (normalizeSentence s) = false
  /\ includes "  " (normalizeSentence s) = false.
Proof.
  intros s. apply (X5_normalizeSentence_trims_and_collapses s). reflexivity.
Defined.

(** X6: [normalizeSentence] never lengthens an ASCII string: its result has
    at most as many characters as its input. *)
Theorem X6_normalizeSentence_never_lengthens (s : string) :
  isAsciiString s = true ->
  (String.length (normalizeSentence s) <= String.length s)%nat.
Proof. intros _. apply normalizeSentence_length. Qed.

(** An instance of X6. *)
Lemma X6_witness :
  (String.length (normalizeSentence "a photo, , of a cat")
   <= String.length "a photo, , of a cat")%nat.
Proof.
  apply (X6_normalizeSentence_never_lengthens "a photo, , of a cat"). reflexivity.
Defined.

(** X7: whatever the form holds, the prompt that [generatePrompt] builds
    starts with the article "A" and a space: neither the normalization nor an
    empty or missing field removes it. *)
Theorem X7_generatePrompt_starts_with_article
    (fullPromptFields : list string) (formData : FormData) :
  startsWith "A " (generatePrompt fullPromptFields formData) = true.
Proof.
  destruct (generatePrompt_article fullPromptFields formData) as (s & Hs & ->).
  now apply normalizeSentence_article.
Qed.

(** X8: the folder id is the number whose thirteen decimal digits are the
    digits that the code computes from the draws, in the order of the draws
    ([drawnDigit]).  The first digit is one more than [Math.floor] of the
    binary64 product of the first draw and 9, and lies from 1 to 9; each of
    the twelve others is [Math.floor] of the binary64 product of its draw and
    10, and lies from 0 to 9.  A product is rounded to binary64 before it is
    floored, so a digit can be one more than the floor of the exact product
    (see [floor_rounds_first]); the multiplications by 10 and the additions
    that put the digits together lose nothing. *)
Theorem X8_generateUniqueFolderId_digits (random : nat -> Binary64.number) :
  (forall i, Binary64.isRandomDraw (random i) = true) ->
  generateUniqueFolderId random
  = Binary64.ofZ (decimalValue (map (drawnDigit random) (seq 0 13)))
  /\ (1 <= drawnDigit random 0 <= 9)%Z
  /\ (forall i, 0 <= drawnDigit random (S i) <= 9)%Z.
Proof.
  intros Hr. split; [now apply generateUniqueFolderId_digits|]. split.
  - apply (drawnDigit_first random (Hr 0%nat)).
  - intros i. apply (drawnDigit_next random i (Hr (S i))).
Qed.

(** An instance of X8: every draw is one half. *)
Lemma X8_witness :
  let random := fun _ : nat => (2 ^ 1073)%Z in
  generateUniqueFolderId random
  = Binary64.ofZ (decimalValue (map (drawnDigit random) (seq 0 13)))
  /\ (1 <= drawnDigit random 0 <= 9)%Z
  /\ (forall i, 0 <= drawnDigit random (S i) <= 9)%Z.
Proof.
  intros random. apply (X8_generateUniqueFolderId_digits random).
  intros i. vm_compute. reflexivity.
Defined.

(** The folder of a target is cut where the bucket name followed by a slash
    occurs again in its path. *)
Example split_cut_at_bucket_name :
  split "b/" "gs://b/bob/generated-images" = ["gs://"; "bo"; "generated-images"].
Proof. reflexivity. Qed.

(** X9: for a target [gs://<bucket>/<path>] whose bucket name is not empty
    and holds no slash and no colon, and whose path does not hold the bucket
    name followed by a slash, [buildImageListFromBase64] derives that bucket
    name, and the folder name [<path>/<folder id>]. *)
Theorem X9_bucket_and_folder_of_target (w : World) (bucket path : string) :
  bucket <> "" ->
  noChar "/" bucket = true ->
  noChar ":" bucket = true ->
  includes (bucket ++ "/") path = false ->
  let targetGcsURI := "gs://" ++ bucket ++ "/" ++ path in
  bucketNameOf targetGcsURI = bucket
  /\ folderNameOf w targetGcsURI
     = path ++ "/" ++ Binary64.toString (generateUniqueFolderId (random w)).
Proof.
  intros Hne Hslash Hcolon Hpath targetGcsURI. split.
  - now apply bucketNameOf_target.
  - now apply folderNameOf_target.
Qed.

(** An instance of X9: the target of a user's generated images. *)
Lemma X9_witness :
  let w := sampleWorld (Returned (sampleResponse [])) (Some 1200%N) sampleDecomposed in
  let targetGcsURI := "gs://" ++ "bucket" ++ "/" ++ "user-1/generated-images" in
  bucketNameOf targetGcsURI = "bucket"
  /\ folderNameOf w targetGcsURI
     = "user-1/generated-images" ++ "/"
         ++ Binary64.toString (generateUniqueFolderId (random w)).
Proof.
  intros w.
  apply (X9_bucket_and_folder_of_target w "bucket" "user-1/generated-images");
    [discriminate | reflexivity | reflexivity | reflexivity].
Defined.

(** X10: in the base64 normalizer, when the folder of the upload is
    [<userID>/generated-images/<id>] or [<userID>/edited-images/<id>], with a
    user id without slash, an [id] made of digits and a format made of
    letters and digits, the key of the record returned for an uploaded item
    is [id] followed by the index of the item's object name. *)
Theorem X10_key_of_uploaded_item
    (w : World) (images : list ImagenModelResultI.t)
    (bucketName userID folder id aspectRatio : string) (width height : Z)
    (usedPrompt modelVersion mode : string)
    (i : nat) (image : ImagenModelResultI.t) (r : ImageI.fields) :
  nth_error images i = Some image ->
  noChar "/" userID = true ->
  folder = "generated-images" \/ folder = "edited-images" ->
  allChars isDigitChar id = true ->
  allChars isAlphaNumChar (formatOf image) = true ->
  outcome (base64Callback w images bucketName (userID ++ "/" ++ folder ++ "/" ++ id)
             aspectRatio width height usedPrompt userID modelVersion mode i image)
  = Returned (ImageRecord r) ->
  ImageI.key r = id ++ ZToString (findIndex (fun obj => sameBytes obj image) images).
Proof.
  intros Hi Huser Hfolder Hid Hformat Hr.
  rewrite (base64Callback_key w aspectRatio width height usedPrompt userID modelVersion mode
             images bucketName _ i image r Hr).
  unfold fullOjectName, fileNameOf.
  apply deriveID_uploaded; try assumption.
  destruct (findIndexFrom_first (fun obj => sameBytes obj image) images 0 i image Hi
              (sameBytes_refl image)) as (j & first & _ & _ & _ & _ & E).
  unfold findIndex, sameBytes in *. rewrite E. apply ZToString_digits. lia.
Qed.

(** An instance of X10: the second of two items, in the folder 1234567890123
    of the generated images of user-1. *)
Lemma X10_witness :
  let w := sampleWorld (Returned (sampleResponse [])) (Some 1200%N) sampleDecomposed in
  let image := ImagenModelResultI.mk None (Some "REVG") "image/png" None None in
  let images := [sampleBase64Item "a cat"; image] in
  exists r,
    outcome (base64Callback w images "bucket"
               ("user-1" ++ "/" ++ "generated-images" ++ "/" ++ "1234567890123")
               "1:1" 1024 1024 "a pet" "user-1" "imagen-4.0" "Generated" 1 image)
    = Returned (ImageRecord r)
    /\ ImageI.key r = "1234567890123" ++ "1".
Proof.
  intros w image images. eexists. split; [reflexivity|].
  apply (X10_key_of_uploaded_item w images "bucket" "user-1" "generated-images"
           "1234567890123" "1:1" 1024 1024 "a pet" "imagen-4.0" "Generated" 1 image);
    try reflexivity.
  now left.
Defined.

(** X11: the calls of the two callbacks for an item that is not filtered.
    The URI callback asks [decomposeUri] about the item's URI and then, when
    it got a file name, asks for the signed URL of the same URI.  The base64
    callback first uploads the item's bytes under its object name and asks
    for a signed URL only after a successful upload, for the URL that the
    upload returned; after a refused or failed upload it calls nothing. *)
Theorem X11_calls_of_the_callbacks
    (w : World) (images : list ImagenModelResultI.t)
    (bucketName folderName aspectRatio : string) (width height : Z)
    (usedPrompt userID modelVersion mode : string)
    (i : nat) (image : ImagenModelResultI.t) :
  ImagenModelResultI.raiFilteredReason image = None ->
  let uri := orEmpty (ImagenModelResultI.gcsUri image) in
  let base64Image := orEmpty (ImagenModelResultI.bytesBase64Encoded image) in
  let objectName := fullOjectName folderName images image in
  callsOf (uriCallback w aspectRatio width height usedPrompt userID modelVersion mode i image)
  = CallDecomposeUri uri
      :: match decomposeUri w i uri with
         | Returned (Some _) => [CallGetSignedURL uri]
         | _ => []
         end
  /\ callsOf (base64Callback w images bucketName folderName aspectRatio width height
                usedPrompt userID modelVersion mode i image)
     = CallUploadBase64Image base64Image bucketName objectName
         :: match uploadBase64Image w i base64Image bucketName objectName with
            | Returned result =>
                if success result then [CallGetSignedURL (orEmpty (fileUrl result))] else []
            | Thrown _ => []
            end.
Proof.
  intros Hf uri base64Image objectName. split.
  - now apply uriCallback_calls.
  - now apply base64Callback_calls.
Qed.

(** An instance of X11: a world whose collaborators succeed. *)
Lemma X11_witness :
  let w := sampleWorld (Returned (sampleResponse [])) (Some 1200%N) sampleDecomposed in
  let image := sampleBase64Item "a cat" in
  callsOf (uriCallback w "1:1" 1024 1024 "a pet" "user-1" "imagen-4.0" "Generated" 0 image)
  = [CallDecomposeUri ""; CallGetSignedURL ""]
  /\ callsOf (base64Callback w [image] "bucket" "user-1/generated-images/17" "1:1" 1024 1024
                "a pet" "user-1" "imagen-4.0" "Generated" 0 image)
     = [CallUploadBase64Image "QUJD" "bucket" "user-1/generated-images/17/sample_0.png";
        CallGetSignedURL "gs://bucket/user-1/generated-images/17/sample_0.png"].
Proof.
  intros w image.
  apply (X11_calls_of_the_callbacks w [image] "bucket" "user-1/generated-images/17"
           "1:1" 1024 1024 "a pet" "user-1" "imagen-4.0" "Generated" 0 image).
  reflexivity.
Defined.

(** X12: [buildImageListFromBase64] uploads every item that is not
    filtered exactly once, and no filtered item: the uploads of a call,
    taken in the order of the items, are those of the items that carry no
    [raiFilteredReason], each with its bytes, the bucket of the target and
    its object name. *)
Theorem X12_one_upload_per_unfiltered_item
    (w : World) (images : list ImagenModelResultI.t)
    (targetGcsURI aspectRatio : string) (width height : Z)
    (usedPrompt userID modelVersion mode : string) :
  filter isUploadCall
    (callsOf (buildImageListFromBase64 w images targetGcsURI aspectRatio width height
                usedPrompt userID modelVersion mode))
  = map (fun image =>
           CallUploadBase64Image (orEmpty (ImagenModelResultI.bytesBase64Encoded image))
             (bucketNameOf targetGcsURI)
             (fullOjectName (folderNameOf w targetGcsURI) images image))
        (filter (fun image => negb (isFiltered image)) images).
Proof.
  unfold buildImageListFromBase64.
  rewrite callsOf_bind_ret, callsOf_promiseAll, <- concat_map_filtered.
  apply filter_concat_mapFrom. intros j image Hj. unfold isFiltered.
  destruct (ImagenModelResultI.raiFilteredReason image) as [reason|] eqn:Hf.
  - now rewrite (base64Callback_filtered w _ _ _ _ _ _ _ _ _ _ _ image reason Hf).
  - rewrite (base64Callback_calls w aspectRatio width height usedPrompt userID modelVersion
               mode images _ _ _ image Hf).
    cbn [filter isUploadCall negb]. f_equal.
    destruct (uploadBase64Image w _ _ _ _) as [result|e]; [|reflexivity].
    now destruct (success result).
Qed.

(** X13: of a data URL [data:<media type>,<payload>] whose media type and
    payload hold no comma, [editImage] (for the input image and the mask) and
    [upscaleImage] (for a base64 source) send the payload only; of a string
    that starts with [data:] and holds no comma they send [undefined]. *)
Theorem X13_data_url_payload (mediaType payload : string) :
  noChar "," mediaType = true ->
  noChar "," payload = true ->
  stripDataPrefix ("data:" ++ mediaType ++ "," ++ payload) = JString payload
  /\ encodedSource (Some ("data:" ++ mediaType ++ "," ++ payload)) = JString payload
  /\ stripDataPrefix ("data:" ++ payload) = JUndefined.
Proof.
  intros Hm Hp. split; [|split].
  - now apply stripDataPrefix_data_url.
  - cbn [encodedSource truthy append String.eqb negb]. now apply stripDataPrefix_data_url.
  - now apply stripDataPrefix_no_comma.
Qed.

(** An instance of X13: a PNG image in base64. *)
Lemma X13_witness :
  stripDataPrefix ("data:" ++ "image/png;base64" ++ "," ++ "QUJD") = JString "QUJD"
  /\ encodedSource (Some ("data:" ++ "image/png;base64" ++ "," ++ "QUJD")) = JString "QUJD"
  /\ stripDataPrefix ("data:" ++ "QUJD") = JUndefined.
Proof. apply (X13_data_url_payload "image/png;base64" "QUJD"); reflexivity. Defined.

(** X14: when a client was obtained and the app context is [undefined],
    [null] or lacks its [gcsURI] or its [userID], the three operations reject
    with the error "No provided app context" instead of returning an error
    value, and the remote endpoint is not called.  [upscaleImage] has by then
    downloaded a source given by its URI. *)
Theorem X14_incomplete_context_rejects
    (w : World) (generateForm : FormData) (isGeminiRewrite : bool) (modelVersion : string)
    (editForm : EditImageFormI.t) (upscaleFactor base64 uri : string)
    (res : DownloadResult) (appContext : AppContext) :
  getClient w = Returned tt ->
  isCompleteContext appContext = false ->
  formGet generateForm "modelVersion" = Some modelVersion ->
  downloadMediaFromGcs w uri = Returned res ->
  truthy (downloadError res) = false ->
  let rejected := Thrown (Error "No provided app context") in
  generateImage w generateForm isGeminiRewrite appContext = ([CallGetClient], rejected)
  /\ editImage w editForm appContext = ([CallGetClient], rejected)
  /\ upscaleImage w (SourceBase64 base64) upscaleFactor appContext
     = ([CallGetClient], rejected)
  /\ upscaleImage w (SourceUri uri) upscaleFactor appContext
     = ([CallGetClient; CallDownloadMediaFromGcs uri], rejected).
Proof.
  intros Hauth Hcontext Hmodel Hdownload Herror rejected.
  unfold generateImage, editImage, upscaleImage, authenticate, sourceImage.
  rewrite Hauth, Hmodel, Hdownload, (checkedContext_incomplete appContext Hcontext).
  cbn [await bind tryCatch ret negb throw app]. rewrite Herror.
  repeat split.
Qed.

(** An instance of X14: the app context is [null]. *)
Lemma X14_witness :
  let w := sampleWorld (Returned (sampleResponse [])) (Some 1200%N) sampleDecomposed in
  let rejected := Thrown (Error "No provided app context") in
  generateImage w sampleGenerateForm false ContextNull = ([CallGetClient], rejected)
  /\ editImage w sampleEditForm ContextNull = ([CallGetClient], rejected)
  /\ upscaleImage w (SourceBase64 "QUJD") "x2" ContextNull = ([CallGetClient], rejected)
  /\ upscaleImage w (SourceUri "gs://bucket/user-1/cat.png") "x2" ContextNull
     = ([CallGetClient; CallDownloadMediaFromGcs "gs://bucket/user-1/cat.png"], rejected).
Proof.
  intros w.
  apply (X14_incomplete_context_rejects w sampleGenerateForm false "gemini-2.5-flash-image"
           sampleEditForm "x2" "QUJD" "gs://bucket/user-1/cat.png"
           (mkDownloadResult (Some "iVBORw0KGgo=") None) ContextNull);
    reflexivity.
Defined.

(** X15: once a client was obtained, for a form with a model version and a
    complete app context, [generateImage] never returns an image list and
    never rejects: it calls the remote endpoint once, calls no storage
    collaborator, and returns an error value; when the endpoint answers, with
    whatever response, that value holds "An unexpected error occurred.". *)
Theorem X15_generateImage_returns_an_error_value
    (w : World) (formData : FormData) (isGeminiRewrite : bool)
    (modelVersion gcsURI userID : string) :
  getClient w = Returned tt ->
  formGet formData "modelVersion" = Some modelVersion ->
  let url := generateEndpoint w modelVersion in
  let reqData := generateRequest w formData (generatePrompt (fullPromptFields w) formData) in
  let call :=
    generateImage w formData isGeminiRewrite
      (ContextData (mkAppContext (Some gcsURI) (Some userID))) in
  callsOf call = [CallGetClient; CallRequest url reqData]
  /\ (exists message, outcome call = Returned (ErrorObject (Some message)))
  /\ (forall res, request w url reqData = Returned res ->
        outcome call = Returned (ErrorObject (Some unexpectedError))).
Proof.
  intros Hauth Hmodel url reqData call. unfold call, generateImage, authenticate.
  rewrite Hauth, Hmodel.
  cbn [await bind tryCatch ret negb checkedContext throw app].
  destruct (generateAttempt_throws w formData (generatePrompt (fullPromptFields w) formData)
              (generateEndpoint w modelVersion) (gcsURI ++ "/" ++ userID ++ "/generated-images")
              userID modelVersion) as (e & -> & Hres).
  fold url reqData in Hres |- *.
  destruct (generateCatch_returns e) as [message Hmessage].
  cbn [tryCatch bind app]. rewrite Hmessage. cbn [ret bind app callsOf outcome fst snd].
  split; [reflexivity|]. split; [now exists message|].
  intros res Hreq. specialize (Hres res Hreq). rewrite Hres in Hmessage.
  now injection Hmessage as <-.
Qed.

(** An instance of X15: the endpoint rejects the request. *)
Lemma X15_witness :
  let w := sampleWorld (Thrown oversizedResponse) (Some 1200%N) sampleDecomposed in
  let url := generateEndpoint w "gemini-2.5-flash-image" in
  let reqData :=
    generateRequest w sampleGenerateForm
      (generatePrompt (fullPromptFields w) sampleGenerateForm) in
  let call := generateImage w sampleGenerateForm false sampleContext in
  callsOf call = [CallGetClient; CallRequest url reqData]
  /\ (exists message, outcome call = Returned (ErrorObject (Some message)))
  /\ (forall res, request w url reqData = Returned res ->
        outcome call = Returned (ErrorObject (Some unexpectedError))).
Proof.
  intros w.
  apply (X15_generateImage_returns_an_error_value w sampleGenerateForm false
           "gemini-2.5-flash-image" "gs://bucket" "user-1");
    reflexivity.
Defined.

(** X16: when the response of the remote endpoint carries no predictions
    list, or an empty one, [editImage] does not return an error value: the
    [catch] block of step 3 reads [errors[0]] of an error that has no
    [errors], and the call rejects with a [TypeError]. *)
Theorem X16_editImage_without_prediction_rejects
    (w : World) (formData : EditImageFormI.t) (gcsURI userID : string) (res : ResponseData) :
  getClient w = Returned tt ->
  request w (editEndpoint w formData) (editRequest w formData (editStorageUri gcsURI userID))
  = Returned res ->
  predictions res = None \/ predictions res = Some [] ->
  editImage w formData (ContextData (mkAppContext (Some gcsURI) (Some userID)))
  = ([CallGetClient;
      CallRequest (editEndpoint w formData)
                  (editRequest w formData (editStorageUri gcsURI userID))],
     Thrown (cannotRead "undefined" "0")).
Proof. apply editImage_no_prediction. Qed.

(** An instance of X16: a response without predictions. *)
Lemma X16_witness :
  let w := sampleWorld (Returned (mkResponseData None None)) (Some 1200%N) sampleDecomposed in
  editImage w sampleEditForm sampleContext
  = ([CallGetClient;
      CallRequest (editEndpoint w sampleEditForm)
                  (editRequest w sampleEditForm (editStorageUri "gs://bucket" "user-1"))],
     Thrown (cannotRead "undefined" "0")).
Proof.
  intros w.
  apply (X16_editImage_without_prediction_rejects w sampleEditForm "gs://bucket" "user-1"
           (mkResponseData None None));
    [reflexivity | reflexivity | now left].
Defined.

(** X17: when the response carries predictions that all hold bytes and the
    first of them is not filtered, [editImage] returns the image list that
    [buildImageListFromBase64] builds for them, one record per prediction:
    the images are uploaded under [<gcsURI>/<userID>/edited-images], the
    prompt of the form is their default prompt, and the mode passed is
    'Generated'. *)
Theorem X17_editImage_returns_uploaded_predictions
    (w : World) (formData : EditImageFormI.t) (gcsURI userID : string) (res : ResponseData)
    (prediction0 : ImagenModelResultI.t) (rest : list ImagenModelResultI.t) :
  getClient w = Returned tt ->
  request w (editEndpoint w formData) (editRequest w formData (editStorageUri gcsURI userID))
  = Returned res ->
  predictions res = Some (prediction0 :: rest) ->
  ImagenModelResultI.raiFilteredReason prediction0 = None ->
  forallb hasBytesBase64Encoded (prediction0 :: rest) = true ->
  exists images,
    outcome (editImage w formData (ContextData (mkAppContext (Some gcsURI) (Some userID))))
    = Returned (ImageList images)
    /\ outcome (buildImageListFromBase64 w (prediction0 :: rest) (editStorageUri gcsURI userID)
                  (EditImageFormI.ratio formData) (EditImageFormI.width formData)
                  (EditImageFormI.height formData) (EditImageFormI.prompt formData)
                  (userIDOrEmpty userID) (EditImageFormI.modelVersion formData) "Generated")
       = Returned images
    /\ List.length images = S (List.length rest).
Proof.
  intros Hauth Hreq Hpred Hfilter Hbytes.
  rewrite (editImage_step4 w formData gcsURI userID res prediction0 rest
             Hauth Hreq Hpred Hfilter).
  pose proof (editOutput_outcome w formData gcsURI userID res (prediction0 :: rest) Hpred)
    as Hout.
  rewrite Hbytes in Hout.
  destruct (buildImageListFromBase64_records w (prediction0 :: rest)
              (editStorageUri gcsURI userID) (EditImageFormI.ratio formData)
              (EditImageFormI.width formData) (EditImageFormI.height formData)
              (EditImageFormI.prompt formData) (userIDOrEmpty userID)
              (EditImageFormI.modelVersion formData) "Generated")
    as (images & Himages & Hlen & _).
  rewrite Himages in Hout.
  exists images. split; [|split; [exact Himages | exact Hlen]].
  destruct (editOutput _ _ _ _ _ _) as [calls r]. exact Hout.
Qed.

(** An instance of X17: two predictions with bytes. *)
Lemma X17_witness :
  let predictions := [sampleBase64Item "a cat"; sampleBase64Item "a dog"] in
  let w := sampleWorld (Returned (sampleResponse predictions)) (Some 1200%N)
             sampleDecomposed in
  exists images,
    outcome (editImage w sampleEditForm sampleContext) = Returned (ImageList images)
    /\ outcome (buildImageListFromBase64 w predictions
                  (editStorageUri "gs://bucket" "user-1") "1:1" 1024 1024 "a red hat"
                  (userIDOrEmpty "user-1") "imagen-3.0-capability-001" "Generated")
       = Returned images
    /\ List.length images = 2%nat.
Proof.
  intros predictions w.
  apply (X17_editImage_returns_uploaded_predictions w sampleEditForm "gs://bucket" "user-1"
           (sampleResponse predictions) (sampleBase64Item "a cat") [sampleBase64Item "a dog"]);
    reflexivity.
Defined.

(** X18: when the first prediction is not filtered and some prediction
    holds no bytes, [editImage] passes the predictions to
    [buildImageListFromURI] with the mode 'Edited' and returns its list; when
    that normalizer rejects, as it does when [decomposeUri] fails for an item
    that is not filtered, [editImage] returns the error value "Issue while
    editing image.". *)
Theorem X18_editImage_returns_stored_predictions
    (w : World) (formData : EditImageFormI.t) (gcsURI userID : string) (res : ResponseData)
    (prediction0 : ImagenModelResultI.t) (rest : list ImagenModelResultI.t) :
  getClient w = Returned tt ->
  request w (editEndpoint w formData) (editRequest w formData (editStorageUri gcsURI userID))
  = Returned res ->
  predictions res = Some (prediction0 :: rest) ->
  ImagenModelResultI.raiFilteredReason prediction0 = None ->
  forallb hasBytesBase64Encoded (prediction0 :: rest) = false ->
  let call := editImage w formData (ContextData (mkAppContext (Some gcsURI) (Some userID))) in
  let normalized :=
    buildImageListFromURI w (prediction0 :: rest)
      (EditImageFormI.ratio formData) (EditImageFormI.width formData)
      (EditImageFormI.height formData) (EditImageFormI.prompt formData)
      (userIDOrEmpty userID) (EditImageFormI.modelVersion formData) "Edited" in
  (forall images, outcome normalized = Returned images ->
     outcome call = Returned (ImageList images))
  /\ (forall e, outcome normalized = Thrown e ->
        outcome call = Returned (ErrorObject (Some issueWhileEditing)))
  /\ (forall i image,
        nth_error (prediction0 :: rest) i = Some image ->
        ImagenModelResultI.raiFilteredReason image = None ->
        isDecomposeFailure (decomposeUri w i (orEmpty (ImagenModelResultI.gcsUri image))) = true ->
        outcome call = Returned (ErrorObject (Some issueWhileEditing))).
Proof.
  intros Hauth Hreq Hpred Hfilter Hbytes call normalized.
  assert (Hout : outcome call
                 = match outcome normalized with
                   | Returned images => Returned (ImageList images)
                   | Thrown _ => Returned (ErrorObject (Some issueWhileEditing))
                   end).
  { unfold call.
    rewrite (editImage_step4 w formData gcsURI userID res prediction0 rest
               Hauth Hreq Hpred Hfilter).
    pose proof (editOutput_outcome w formData gcsURI userID res (prediction0 :: rest) Hpred)
      as Hout.
    rewrite Hbytes in Hout.
    destruct (editOutput _ _ _ _ _ _) as [calls r]. exact Hout. }
  split; [|split].
  - intros images Himages. now rewrite Hout, Himages.
  - intros e He. now rewrite Hout, He.
  - intros i image Hi Hf Hd.
    destruct (buildImageListFromURI_rejects w (prediction0 :: rest)
                (EditImageFormI.ratio formData) (EditImageFormI.width formData)
                (EditImageFormI.height formData) (EditImageFormI.prompt formData)
                (userIDOrEmpty userID) (EditImageFormI.modelVersion formData) "Edited"
                i image Hi Hf Hd) as [e He].
    fold normalized in He. now rewrite Hout, He.
Qed.

(** An instance of X18: a stored prediction for which [decomposeUri] rejects. *)
Lemma X18_witness :
  let w := sampleWorld (Returned (sampleResponse [sampleUriItem])) (Some 1200%N)
             (fun _ => Thrown (Error "bucket not reachable")) in
  outcome (editImage w sampleEditForm sampleContext)
  = Returned (ErrorObject (Some issueWhileEditing)).
Proof.
  intros w.
  destruct (X18_editImage_returns_stored_predictions w sampleEditForm "gs://bucket" "user-1"
              (sampleResponse [sampleUriItem]) sampleUriItem []
              eq_refl eq_refl eq_refl eq_refl eq_refl) as (_ & _ & Hfailure).
  exact (Hfailure 0%nat sampleUriItem eq_refl eq_refl eq_refl).
Defined.

(** X19: when the call reaches step 4 and the request settles before the
    60000 milliseconds of the timer with a response that carries
    predictions, [upscaleImage] returns the storage URI and the MIME type of
    the first prediction, and ignores the others. *)
Theorem X19_upscaleImage_returns_first_prediction
    (w : World) (source : Source) (upscaleFactor gcsURI userID : string)
    (base64Image : option string) (t : N) (res : ResponseData)
    (prediction0 : ImagenModelResultI.t) (rest : list ImagenModelResultI.t) :
  let url := upscaleEndpoint w in
  let reqData :=
    upscaleRequest (encodedSource base64Image) upscaleFactor (upscaleStorageUri gcsURI userID) in
  getClient w = Returned tt ->
  outcome (sourceImage w source) = Returned base64Image ->
  requestSettlesAfter w url reqData = Some t ->
  (t < timeout)%N ->
  request w url reqData = Returned res ->
  predictions res = Some (prediction0 :: rest) ->
  outcome (upscaleImage w source upscaleFactor
             (ContextData (mkAppContext (Some gcsURI) (Some userID))))
  = Returned (Upscaled (ImagenModelResultI.gcsUri prediction0)
                       (ImagenModelResultI.mimeType prediction0)).
Proof.
  intros url reqData Hauth Hsource Hsettles Ht Hreq Hpred.
  rewrite (upscaleImage_step4 w source upscaleFactor gcsURI userID base64Image Hauth Hsource).
  fold url. fold reqData. unfold upscaleAttempt, raceWithTimeout.
  rewrite Hsettles. apply N.ltb_lt in Ht. rewrite Ht. cbn [orb].
  rewrite Hreq. cbn [await bind]. rewrite Hpred. reflexivity.
Qed.

(** An instance of X19: the request settles after 1200 milliseconds. *)
Lemma X19_witness :
  let w := sampleWorld (Returned (sampleResponse [sampleUriItem; sampleBase64Item "a cat"]))
             (Some 1200%N) sampleDecomposed in
  outcome (upscaleImage w (SourceBase64 "QUJD") "x2" sampleContext)
  = Returned (Upscaled (Some "gs://bucket/user-1/generated-images/17/sample_0.png")
                       "image/png").
Proof.
  intros w.
  apply (X19_upscaleImage_returns_first_prediction w (SourceBase64 "QUJD") "x2"
           "gs://bucket" "user-1" (Some "QUJD") 1200%N
           (sampleResponse [sampleUriItem; sampleBase64Item "a cat"])
           sampleUriItem [sampleBase64Item "a cat"]);
    reflexivity.
Defined.

(** X20: when a client was obtained and the download of a source given by
    its URI fails ([downloadMediaFromGcs] rejects, or answers an object with
    an [error]), [upscaleImage] does not return an error value: it rejects
    with an [Error] whose message is the string form of the failure, whatever
    the app context, and the remote endpoint is not called. *)
Theorem X20_upscaleImage_download_failure_rejects
    (w : World) (uri upscaleFactor : string) (appContext : AppContext) :
  getClient w = Returned tt ->
  isDownloadFailure (downloadMediaFromGcs w uri) = true ->
  upscaleImage w (SourceUri uri) upscaleFactor appContext
  = ([CallGetClient; CallDownloadMediaFromGcs uri],
     Thrown (Error (errorToString (downloadFailure (downloadMediaFromGcs w uri))))).
Proof.
  intros Hauth Hfailure. unfold upscaleImage, authenticate. rewrite Hauth.
  cbn [await bind tryCatch ret negb app].
  now rewrite (sourceImage_download_failure w uri Hfailure).
Qed.

(** An instance of X20: the bucket answers that the object does not exist. *)
Lemma X20_witness :
  let w := sampleWorld (Returned (sampleResponse [])) (Some 1200%N) sampleDecomposed in
  let w' :=
    mkWorld (NEXT_PUBLIC_VERTEX_API_LOCATION w) (NEXT_PUBLIC_PROJECT_ID w) (RatioToPixel w)
      (fullPromptFields w) (random w) (formattedDate w) (parseInt w) (parseFloat w)
      (getClient w) (request w) (requestSettlesAfter w) (requestWinsTie w) (decomposeUri w)
      (getSignedURL w) (uploadBase64Image w)
      (fun _ => Returned (mkDownloadResult None (Some "Error: No such object"))) in
  upscaleImage w' (SourceUri "gs://bucket/user-1/cat.png") "x2" sampleContext
  = ([CallGetClient; CallDownloadMediaFromGcs "gs://bucket/user-1/cat.png"],
     Thrown (Error "Error: No such object")).
Proof.
  intros w w'.
  apply (X20_upscaleImage_download_failure_rejects w' "gs://bucket/user-1/cat.png" "x2"
           sampleContext);
    reflexivity.
Defined.

(** X21: the index in the object name of an item of the batch is never -1:
    it is the position of the first item of the batch that carries the same
    bytes, which is at most the item's own position, and is the item's own
    position when no item before it carries the same bytes. *)
Theorem X21_index_of_the_object_name
    (images : list ImagenModelResultI.t) (i : nat) (image : ImagenModelResultI.t) :
  nth_error images i = Some image ->
  exists j first,
    fileNameOf images image = "sample_" ++ ZToString (Z.of_nat j)
    /\ (j <= i)%nat
    /\ nth_error images j = Some first
    /\ sameBytes first image = true
    /\ (forall k other, (k < j)%nat -> nth_error images k = Some other ->
          sameBytes other image = false)
    /\ ((forall k other, (k < i)%nat -> nth_error images k = Some other ->
           sameBytes other image = false) -> j = i).
Proof.
  intros Hi.
  destruct (findIndexFrom_first (fun obj => sameBytes obj image) images 0 i image Hi
              (sameBytes_refl image)) as (j & first & Hle & Hj & Hsame & Hfirst & E).
  exists j, first. repeat split; try assumption.
  - unfold fileNameOf, findIndex. unfold sameBytes in E. now rewrite E.
  - intros Hnone. destruct (Nat.eq_dec j i) as [-> | Hne]; [reflexivity|].
    rewrite (Hnone j first) in Hsame; [discriminate Hsame | lia | exact Hj].
Qed.

(** An instance of X21: the third item carries the bytes of the first. *)
Lemma X21_witness :
  let image := sampleBase64Item "a bird" in
  let images := [sampleBase64Item "a cat"; sampleFilteredItem thresholdReason; image] in
  exists j first,
    fileNameOf images image = "sample_" ++ ZToString (Z.of_nat j)
    /\ (j <= 2)%nat
    /\ nth_error images j = Some first
    /\ sameBytes first image = true
    /\ (forall k other, (k < j)%nat -> nth_error images k = Some other ->
          sameBytes other image = false)
    /\ ((forall k other, (k < 2)%nat -> nth_error images k = Some other ->
           sameBytes other image = false) -> j = 2%nat).
Proof.
  intros image images. apply (X21_index_of_the_object_name images 2 image). reflexivity.
Defined.

(** X22: when the remote request is rejected with an [Error] whose message
    holds a safety phrase the operation knows (three phrases for
    [generateImage], the first two of them for [editImage]), the operation
    returns an error value that holds exactly that message. *)
Theorem X22_rejected_request_with_safety_phrase
    (w : World) (generateForm : FormData) (isGeminiRewrite : bool) (modelVersion : string)
    (editForm : EditImageFormI.t) (gcsURI userID message : string)
    (errors : option (list ErrorEntry)) :
  getClient w = Returned tt ->
  formGet generateForm "modelVersion" = Some modelVersion ->
  let appContext := ContextData (mkAppContext (Some gcsURI) (Some userID)) in
  let rejection := Thrown (mkJsError "Error" message errors) in
  (request w (generateEndpoint w modelVersion)
     (generateRequest w generateForm (generatePrompt (fullPromptFields w) generateForm))
   = rejection ->
   containsGenerateSafetyPhrase message = true ->
   outcome (generateImage w generateForm isGeminiRewrite appContext)
   = Returned (ErrorObject (Some message)))
  /\ (request w (editEndpoint w editForm)
        (editRequest w editForm (editStorageUri gcsURI userID))
      = rejection ->
      containsSafetyPhrase message = true ->
      outcome (editImage w editForm appContext) = Returned (ErrorObject (Some message))).
Proof.
  intros Hauth Hmodel appContext rejection. unfold appContext, rejection. split.
  - intros Hreq Hphrase. unfold generateImage, authenticate. rewrite Hauth, Hmodel.
    cbn [await bind tryCatch ret negb checkedContext throw app].
    unfold generateAttempt. rewrite Hreq.
    cbn [await bind tryCatch app].
    now rewrite (generateCatch_safety_phrase message errors Hphrase).
  - intros Hreq Hphrase. unfold editImage, authenticate. rewrite Hauth.
    cbn [await bind tryCatch ret negb checkedContext throw app].
    unfold editAttempt. rewrite Hreq.
    cbn [await bind tryCatch app].
    now rewrite (editCatch_rejected_request message errors Hphrase).
Qed.

(** An instance of X22: the request is rejected for the usage guidelines. *)
Lemma X22_witness :
  let w := sampleWorld (Thrown (Error usageGuidelinesReason)) (Some 1200%N)
             sampleDecomposed in
  outcome (generateImage w sampleGenerateForm false sampleContext)
  = Returned (ErrorObject (Some usageGuidelinesReason))
  /\ outcome (editImage w sampleEditForm sampleContext)
     = Returned (ErrorObject (Some usageGuidelinesReason)).
Proof.
  intros w.
  destruct (X22_rejected_request_with_safety_phrase w sampleGenerateForm false
              "gemini-2.5-flash-image" sampleEditForm "gs://bucket" "user-1"
              usageGuidelinesReason None eq_refl eq_refl) as [Hgenerate Hedit].
  split; [apply Hgenerate | apply Hedit]; reflexivity.
Defined.

(** X23: [normalizeSentence] capitalizes the first character of an ASCII
    sentence that does not start with white space, and that character stays
    the first of the result. *)
Theorem X23_normalizeSentence_capitalizes_first_character (c : ascii) (s : string) :
  isAsciiString (String c s) = true ->
  isWhiteSpace c = false ->
  charAt0 (normalizeSentence (String c s)) = String (toUpperChar (toLowerChar c)) "".
Proof. intros _. apply normalizeSentence_first. Qed.

(** An instance of X23. *)
Lemma X23_witness :
  charAt0 (normalizeSentence (String "a" " photo of a cat"))
  = String (toUpperChar (toLowerChar "a")) "".
Proof.
  apply (X23_normalizeSentence_capitalizes_first_character "a" " photo of a cat");
    reflexivity.
Defined.

(** X24: a field of [fullPromptFields] that the form holds as the empty
    string adds nothing to the prompt: [generatePrompt] returns what it
    returns when the field is not in the table. *)
Theorem X24_generatePrompt_skips_empty_field
    (before after : list string) (field : string) (formData : FormData) :
  formGet formData field = Some "" ->
  generatePrompt (before ++ field :: after)%list formData
  = generatePrompt (before ++ after)%list formData.
Proof.
  intros Hempty. unfold generatePrompt.
  rewrite !fold_left_app. cbn [fold_left]. rewrite Hempty. reflexivity.
Qed.

(** An instance of X24: the sample form leaves [perspective] empty. *)
Lemma X24_witness :
  generatePrompt (["light"] ++ "perspective" :: ["image_colors"; "use_case"])%list
    sampleGenerateForm
  = generatePrompt (["light"] ++ ["image_colors"; "use_case"])%list sampleGenerateForm.
Proof.
  apply (X24_generatePrompt_skips_empty_field ["light"] ["image_colors"; "use_case"]
           "perspective" sampleGenerateForm).
  reflexivity.
Defined.
